(** * netparser: log splitting, port-record join and IP backfill

    A shallow embedding of [logic.py] (NX-OS pipeline), [logic_xe.py]
    (IOS-XE pipeline) and the parts of [logic-single.py] that differ from
    them, followed by the properties of the embedding.

    Text is a [string] of characters with code points below 256.  A pandas
    [DataFrame] built from TextFSM records is the list of its rows, each
    with the columns the pipelines read; the frame is [empty] exactly when
    the list is, and then it has no columns at all, so that reading a column
    of it raises [KeyError].  The grammar engine and the workbook format are
    outside: the pipelines start from the parsed tables, and a workbook is
    the table of its "Final Data" sheet.  Directories are finite maps from
    names to contents, and opening a file for writing always succeeds.

    The modules [Run] and [Full] then follow the same code through the
    exceptions of the file system, of the grammar engine and of the
    workbook library. *)

From Stdlib Require Import Ascii.
From Stdlib Require String.
From stdpp Require Import base option list strings gmap.


(** ** Python string primitives *)

Module Py.

(** [x in s] on two strings. *)
Fixpoint contains (x s : string) : bool :=
  if String.prefix x s then true
  else match s with
       | EmptyString => false
       | String _ s' => contains x s'
       end.

Definition startswith (s p : string) : bool := String.prefix p s.

(** [sep.join(l)] *)
Definition join (sep : string) (l : list string) : string :=
  String.concat sep l.

(** [list(s)]: the characters of a string, one string each. *)
Fixpoint chars (s : string) : list string :=
  match s with
  | EmptyString => []
  | String c s' => String c EmptyString :: chars s'
  end.

(** [s.split(sep)] for a non-empty [sep]: the pieces between the
    occurrences of [sep], found from the left and not overlapping.
    [skip] counts the characters of a found separator still to drop. *)
Fixpoint split_go (sep : string) (skip : nat) (cur s : string) : list string :=
  match s with
  | EmptyString => [cur]
  | String c s' =>
      match skip with
      | S k => split_go sep k cur s'
      | O =>
          if String.prefix sep s
          then cur :: split_go sep (String.length sep - 1) EmptyString s'
          else split_go sep 0 (cur +:+ String c EmptyString) s'
      end
  end.

Definition split (s sep : string) : list string := split_go sep 0 EmptyString s.

(** [s.replace(old, new)] for a non-empty [old]. *)
Fixpoint replace_go (old new : string) (skip : nat) (s : string) : string :=
  match s with
  | EmptyString => EmptyString
  | String c s' =>
      match skip with
      | S k => replace_go old new k s'
      | O =>
          if String.prefix old s
          then new +:+ replace_go old new (String.length old - 1) s'
          else String c (replace_go old new 0 s')
      end
  end.

Definition replace (s old new : string) : string := replace_go old new 0 s.

(** [str.isspace] below 256: TAB..CR, FS..US, the blank, NEL and the
    no-break space. *)
Definition isspace (c : ascii) : bool :=
  let n := nat_of_ascii c in
  (Nat.leb 9 n && Nat.leb n 13) || (Nat.leb 28 n && Nat.leb n 32)
  || Nat.eqb n 133 || Nat.eqb n 160.

Fixpoint lstrip (s : string) : string :=
  match s with
  | EmptyString => EmptyString
  | String c s' => if isspace c then lstrip s' else s
  end.

Definition strip (s : string) : string :=
  String.rev (lstrip (String.rev (lstrip s))).

(** [l[-1]] on the result of a [split], which is never empty. *)
Definition last_piece (l : list string) : string := default EmptyString (last l).

(** [l[0]] on the result of a [split]. *)
Definition first_piece (l : list string) : string := default EmptyString (head l).

(** [dict(pairs)]: a later pair overwrites an earlier one with its key. *)
Definition dict `{Countable K} {V} (pairs : list (K * V)) : gmap K V :=
  foldl (λ d kv, <[kv.1 := kv.2]> d) ∅ pairs.

End Py.

(** ** Data model: the rows of the "Final Data" sheet

    [None] is Python's [None] in a worker's record, and the empty cell
    ([NaN]) in a sheet that has been read back. *)

Record PortRecord := mkPortRecord {
  Hostname : string;
  Serial_Number : option string;
  Port : string;
  Member_PO : string;
  Tipe_Kabel : string;
  SFP : option string;
  IP_Address : option string;
  Mac_Address : string;
  VLAN : string;
  Allowed_VLAN : string;
  Trunk_Access : string;
  Description : option string;
  CDP_Neighbor_Hostname : option string;
  CDP_Neighbor_Platform : option string;
  CDP_Neighbor_Port : option string;
  LLDP_Neighbor_Hostname : option string;
  LLDP_Neighbor_Port : option string
}.

Definition set_IP_Address (ip : option string) (r : PortRecord) : PortRecord :=
  mkPortRecord (Hostname r) (Serial_Number r) (Port r) (Member_PO r)
    (Tipe_Kabel r) (SFP r) ip (Mac_Address r) (VLAN r) (Allowed_VLAN r)
    (Trunk_Access r) (Description r) (CDP_Neighbor_Hostname r)
    (CDP_Neighbor_Platform r) (CDP_Neighbor_Port r)
    (LLDP_Neighbor_Hostname r) (LLDP_Neighbor_Port r).

(** ** Segment Splitter ([execute_split]) *)

Module Splitter.

Definition LF : ascii := "010"%char.
Definition nl : string := String LF EmptyString.

(** Index of the first newline of [s]. *)
Fixpoint index_nl (s : string) : option nat :=
  match s with
  | EmptyString => None
  | String c s' => if Ascii.eqb c LF then Some 0 else S <$> index_nl s'
  end.

Fixpoint drop_chars (n : nat) (s : string) : string :=
  match n, s with
  | S k, String _ s' => drop_chars k s'
  | _, _ => s
  end.

(** Length of the match of [<prompt>.+?\n] at the head of [s], where
    [prompt] is [<name_file># show ] or [<name_file>#show ]: the prompt,
    one or more characters other than a newline, and the newline.  The
    file stem is matched as it is written, which is what the pattern does
    for a stem without regular-expression operators. *)
Definition header_match (prompt s : string) : option nat :=
  if String.prefix prompt s then
    match index_nl (drop_chars (String.length prompt) s) with
    | Some (S k) => Some (String.length prompt + S k + 1)
    | _ => None
    end
  else None.

(** [re.split(rf"({prompt}.+?\n)", data)]: the text before the first
    header, then each header and the text that follows it.  [hdr] counts
    the characters of the current header still to read. *)
Fixpoint re_split_go (prompt : string) (hdr : nat) (cur s : string) : list string :=
  match s with
  | EmptyString => [cur]
  | String c s' =>
      match hdr with
      | S O => (cur +:+ String c EmptyString) :: re_split_go prompt 0 EmptyString s'
      | S k => re_split_go prompt k (cur +:+ String c EmptyString) s'
      | O =>
          match header_match prompt s with
          | Some n => cur :: re_split_go prompt (n - 1) (String c EmptyString) s'
          | None => re_split_go prompt 0 (cur +:+ String c EmptyString) s'
          end
      end
  end.

Definition re_split (prompt data : string) : list string :=
  re_split_go prompt 0 EmptyString data.

(** [(blocks[i], blocks[i+1]) for i in range(1, len(blocks), 2)] *)
Fixpoint header_body (blocks : list string) : list (string * string) :=
  match blocks with
  | h :: b :: rest => (h, b) :: header_body rest
  | _ => []
  end.

Definition odd_blocks (blocks : list string) : list (string * string) :=
  header_body (tail blocks).

(** A regular-expression substitution by the empty string, for a pattern
    without empty matches: [mlen bol s] is the length of the match at the
    head of [s], where [bol] tells whether [s] starts a line. *)
Fixpoint re_sub_go (mlen : bool → string → option nat) (bol : bool) (skip : nat)
    (s : string) : string :=
  match s with
  | EmptyString => EmptyString
  | String c s' =>
      let bol' := Ascii.eqb c LF in
      match skip with
      | S k => re_sub_go mlen bol' k s'
      | O =>
          match mlen bol s with
          | Some n => re_sub_go mlen bol' (n - 1) s'
          | None => String c (re_sub_go mlen bol' 0 s')
          end
      end
  end.

Definition re_sub (mlen : bool → string → option nat) (data : string) : string :=
  re_sub_go mlen true 0 data.

(** [^show.*\n|^!$\n|terminal no length] with [re.MULTILINE] *)
Definition nxos_boilerplate (bol : bool) (s : string) : option nat :=
  match (if bol && String.prefix "show" s then S <$> index_nl s else None) with
  | Some n => Some n
  | None =>
      if bol && String.prefix ("!" +:+ nl) s then Some 2
      else if String.prefix "terminal no length" s then Some 18
      else None
  end.


(** The segment files of one capture, in the order they are written:
    file name and content. *)
Definition nxos_segments (name_file data : string) : list (string * string) :=
  let data := re_sub nxos_boilerplate data in
  let blocks := re_split (name_file +:+ "# show ") data in
  (λ hb : string * string,
     let header := Py.strip hb.1 in
     let command := Py.replace (Py.last_piece (Py.split header "#show ")) " " "_" in
     let content := header +:+ nl +:+ hb.2 in
     let command := Py.replace command (name_file +:+ "#_") "" in
     (command +:+ ".txt", content)) <$> odd_blocks blocks.



(** What the two splitters differ in. *)
Record dialect := mkDialect {
  required_commands : list string;
  segments : string → string → list (string * string)
}.

Definition nxos : dialect :=
  mkDialect
    ["show interface description"; "show interface status"; "show interface trunk";
     "show port-channel summary"; "show ip arp"; "show mac address-table";
     "show inventory"; "show cdp neighbors"; "show lldp neighbors"]
    nxos_segments.


(** [os.path.splitext(f)[0]] on a name without directory part. *)
Fixpoint all_dots (s : string) : bool :=
  match s with
  | EmptyString => true
  | String c s' => Ascii.eqb c "."%char && all_dots s'
  end.

Fixpoint after_first_dot (r : string) : option string :=
  match r with
  | EmptyString => None
  | String c r' => if Ascii.eqb c "."%char then Some r' else after_first_dot r'
  end.

Definition splitext (f : string) : string :=
  match after_first_dot (String.rev f) with
  | Some r => if all_dots r then f else String.rev r
  | None => f
  end.

(** The input folder: its regular files in [os.listdir] order, each with
    its decoded text. *)
Definition open_read (dir_list : list (string * string)) (name : string)
  : option string :=
  (λ x, x.2.2) <$> list_find (λ f, f.1 = name) dir_list.

(** The output directory: the device directories made under it and the
    segment files, keyed by device directory and file name. *)
Record store := mkStore {
  dirs : gset string;
  files : gmap (string * string) string
}.

Definition write_segments (name_file : string) (segs : list (string * string))
    (output_dir : store) : store :=
  foldl (λ st seg, mkStore (dirs st) (<[(name_file, seg.1) := seg.2]> (files st)))
    (mkStore ({[name_file]} ∪ dirs output_dir) (files output_dir)) segs.

(** [f"'{command}'"] for each required command that is not in [data]. *)
Definition missing_commands (d : dialect) (data : string) : list string :=
  (λ command, "'" +:+ command +:+ "'")
    <$> filter (λ command, Py.contains command data = false) (required_commands d).

Definition error_message (name_file : string) (missing : list string) : string :=
  "File '" +:+ name_file +:+ ".txt' is missing command(s): "
    +:+ Py.join ", " missing +:+ ".".

(** One turn of the loop over [filenames]. *)
Definition split_file (d : dialect) (dir_list : list (string * string))
    (acc : list string * store) (name_file : string) : list string * store :=
  match open_read dir_list (name_file +:+ ".txt") with
  | None => acc
  | Some data =>
      match missing_commands d data with
      | [] => (acc.1, write_segments name_file (segments d name_file data) acc.2)
      | missing => (acc.1 ++ [error_message name_file missing], acc.2)
      end
  end.

(** [input_folder] is [None] when the path is not a directory. *)
Definition execute_split (d : dialect) (path : string)
    (input_folder : option (list (string * string))) (output_dir : store)
  : list string * store :=
  match input_folder with
  | None => (["Input directory not found: " +:+ path], output_dir)
  | Some dir_list =>
      let filenames := (λ f, splitext f.1) <$> dir_list in
      foldl (split_file d dir_list) ([], output_dir) filenames
  end.

End Splitter.

(** ** Parsed tables *)

(** A TextFSM field is a string, or a list of strings for a [List] value. *)
Inductive value :=
| VStr (s : string)
| VList (l : list string).

Module Value.

(** [x in v] *)
Definition contains (x : string) (v : value) : bool :=
  match v with
  | VStr s => Py.contains x s
  | VList l => bool_decide (x ∈ l)
  end.

(** [bool(v)] *)
Definition truthy (v : value) : bool :=
  match v with
  | VStr EmptyString => false
  | VList [] => false
  | _ => true
  end.

(** [v[0] if v else ''] *)
Definition first (v : value) : string :=
  match v with
  | VStr (String c _) => String c EmptyString
  | VList (x :: _) => x
  | _ => EmptyString
  end.

(** [sep.join(v)]; joining a string joins its characters. *)
Definition join (sep : string) (v : value) : string :=
  match v with
  | VStr s => Py.join sep (Py.chars s)
  | VList l => Py.join sep l
  end.

End Value.

(** The rows of the nine tables, with the columns the pipelines read.  The
    port column of the MAC table is text in the NX-OS pipeline and a
    sequence in the IOS-XE one, hence the parameter. *)

Module Mac.
Record row (P : Type) := mkRow { PORTS : P; MAC_ADDRESS : string; VLAN_ID : string }.
Arguments mkRow {P}.
Arguments PORTS {P}.
Arguments MAC_ADDRESS {P}.
Arguments VLAN_ID {P}.
End Mac.

Module Arp.
Record row := mkRow { MAC_ADDRESS : string; IP_ADDRESS : string }.
End Arp.

Module Descr.
Record row := mkRow { PORT : string; DESCRIPTION : string }.
End Descr.

Module Inventory.
Record row := mkRow { NAME : string; PID : string; SN : string }.
End Inventory.

Module PortChannel.
Record row := mkRow { BUNDLE_NAME : string; MEMBER_INTERFACE : value }.
End PortChannel.

Module Status.
Record row := mkRow { PORT : string; TYPE : string; VLAN_ID : string }.
End Status.

Module Cdp.
Record row := mkRow {
  LOCAL_INTERFACE : string;
  NEIGHBOR_NAME : string;
  PLATFORM : string;
  NEIGHBOR_INTERFACE : string
}.
End Cdp.

Module Lldp.
Record row := mkRow {
  LOCAL_INTERFACE : string;
  NEIGHBOR_NAME : string;
  NEIGHBOR_INTERFACE : string
}.
End Lldp.

Module Trunk.
Record row := mkRow { PORT : string; ALLOWED_VLANS : value }.
End Trunk.

Record tables (P : Type) := mkTables {
  mac_address : list (Mac.row P);
  ip_arp : list Arp.row;
  interface_description : list Descr.row;
  inventory : list Inventory.row;
  port_channel_summary : list PortChannel.row;
  interface_status : list Status.row;
  cdp_neighbors : list Cdp.row;
  lldp_neighbors : list Lldp.row;
  interface_trunk : list Trunk.row
}.
Arguments mkTables {P}.
Arguments mac_address {P}.
Arguments ip_arp {P}.
Arguments interface_description {P}.
Arguments inventory {P}.
Arguments port_channel_summary {P}.
Arguments interface_status {P}.
Arguments cdp_neighbors {P}.
Arguments lldp_neighbors {P}.
Arguments interface_trunk {P}.

(** ** Exceptions *)

Inductive exn := KeyError (column : string).

Inductive result (A : Type) :=
| Ok (a : A)
| Raise (e : exn).
Arguments Ok {A}.
Arguments Raise {A}.

#[global] Instance result_ret : MRet result := λ A a, Ok a.
#[global] Instance result_bind : MBind result :=
  λ A B f m, match m with Ok a => f a | Raise e => Raise e end.

(** A loop whose body may raise. *)
Fixpoint foldlM {A B} (f : A → B → result A) (a : A) (l : list B) : result A :=
  match l with
  | [] => Ok a
  | b :: l' => a' ← f a b; foldlM f a' l'
  end.

(** ** Data frames *)

Module Frame.

(** [df.empty] *)
Definition empty {T} (df : list T) : bool :=
  match df with [] => true | _ => false end.

(** [df.loc[df[key] == k, col].values]: the [col] cells of the rows
    whose [key] cell is [k], in frame order.  A frame without rows has no
    columns, and reading [key] from it raises. *)
Definition loc {T A} (df : list T) (key_name : string) (key : T → string)
    (k : string) (col : T → A) : result (list A) :=
  match df with
  | [] => Raise (KeyError key_name)
  | _ => Ok (col <$> filter (λ r, key r = k) df)
  end.

(** [df[df[key].isin(ks)]] *)
Definition isin {T} (df : list T) (key_name : string) (key : T → string)
    (ks : list string) : result (list T) :=
  match df with
  | [] => Raise (KeyError key_name)
  | _ => Ok (filter (λ r, key r ∈ ks) df)
  end.

(** [df[df[key].notna()][col].values]; a TextFSM cell is never NaN. *)
Definition notna {T A} (df : list T) (key_name : string) (col : T → A)
  : result (list A) :=
  match df with
  | [] => Raise (KeyError key_name)
  | _ => Ok (col <$> df)
  end.

(** [Series.unique()]: first occurrences, in order. *)
Fixpoint unique_go (seen l : list string) : list string :=
  match l with
  | [] => []
  | x :: l' =>
      if bool_decide (x ∈ seen) then unique_go seen l'
      else x :: unique_go (x :: seen) l'
  end.

Definition unique (l : list string) : list string := unique_go [] l.

End Frame.

(** A file of the output folder: a workbook with its "Final Data" sheet (the
    echo sheets of the raw tables are not read back by anything), or
    something [pd.read_excel] cannot read. *)
Inductive file :=
| Workbook (final_data : list PortRecord)
| Unreadable.

(** ** Port Record Builder ([process_single_hostname]) *)

Module Builder.

(** [str(x)] on an optional string. *)
Definition str (x : option string) : string := default "None" x.

(** [bool(x)] on an optional string. *)
Definition truthy (x : option string) : bool :=
  match x with
  | Some (String _ _) => true
  | _ => false
  end.

Definition nonempty (s : string) : bool :=
  match s with EmptyString => false | _ => true end.

(** *** The lookups both pipelines share *)

(** [logic.py] writes the test on [ip_arp.empty] as an [if]/[else]
    statement, [logic_xe.py] as a conditional expression. *)
Definition ip_lookup (ip_arp : list Arp.row) (mac : string) : result (option string) :=
  ip_array ← (if negb (Frame.empty ip_arp)
              then Frame.loc ip_arp "MAC_ADDRESS" Arp.MAC_ADDRESS mac Arp.IP_ADDRESS
              else Ok []);
  Ok (head ip_array).

Definition desc_lookup (interface_description : list Descr.row) (port : string)
  : result (option string) :=
  desc_array ← (if negb (Frame.empty interface_description)
                then Frame.loc interface_description "PORT" Descr.PORT port Descr.DESCRIPTION
                else Ok []);
  Ok (head desc_array).

(** SFP of a port-channel: the TYPE of the first member. *)
Definition sfp_member (interface_status : list Status.row) (member_po : string)
  : result (option string) :=
  sfp_array ← (if negb (Frame.empty interface_status) && nonempty member_po
               then Frame.loc interface_status "PORT" Status.PORT
                      (Py.first_piece (Py.split member_po ",")) Status.TYPE
               else Ok []);
  Ok (head sfp_array).

Definition sfp_port (interface_status : list Status.row) (port : string)
  : result (option string) :=
  sfp_array ← (if negb (Frame.empty interface_status)
               then Frame.loc interface_status "PORT" Status.PORT port Status.TYPE
               else Ok []);
  Ok (head sfp_array).

(** ["UTP" if "T" in str(sfp) else "Fiber" if sfp else "???"] *)
Definition type_cable_po (sfp : option string) : string :=
  if Py.contains "T" (str sfp) then "UTP"
  else if truthy sfp then "Fiber"
  else "???".

(** ["UTP" if "T" in str(sfp) else "Fiber" if sfp and "Vlan" not in port else "???"] *)
Definition type_cable_port (sfp : option string) (port : string) : string :=
  if Py.contains "T" (str sfp) then "UTP"
  else if truthy sfp && negb (Py.contains "Vlan" port) then "Fiber"
  else "???".

Definition trunk_access_lookup (interface_status : list Status.row) (port : string)
  : result string :=
  trunk_access_array ← (if negb (Frame.empty interface_status)
                        then Frame.loc interface_status "PORT" Status.PORT port Status.VLAN_ID
                        else Ok []);
  let trunk_access := default "" (head trunk_access_array) in
  Ok (if nonempty trunk_access
         && negb (Py.contains "trunk" trunk_access)
         && negb (Py.contains "routed" trunk_access)
      then "Access" else trunk_access).

Definition lldp_lookup (lldp_neighbors : list Lldp.row) (port : string)
  : result (option string * option string) :=
  if negb (Frame.empty lldp_neighbors) && negb (Py.startswith port "Po") then
    lldp_array ← Frame.loc lldp_neighbors "LOCAL_INTERFACE" Lldp.LOCAL_INTERFACE port
                   (λ r, (Lldp.NEIGHBOR_NAME r, Lldp.NEIGHBOR_INTERFACE r));
    Ok (match head lldp_array with
        | Some (n, i) => (Some n, Some i)
        | None => (None, None)
        end)
  else Ok (None, None).

Definition allowed_vlan_lookup (interface_trunk : list Trunk.row) (port : string)
  : result string :=
  if negb (Frame.empty interface_trunk) then
    allowed_vlan_trunk_values ← Frame.loc interface_trunk "PORT" Trunk.PORT port
                                  Trunk.ALLOWED_VLANS;
    Ok (match head allowed_vlan_trunk_values with
        | Some v =>
            if Value.truthy v then
              match v with VStr s => s | VList l => Py.join "," l end
            else ""
        | None => ""
        end)
  else Ok "".

(** [cdp_neighbors.loc[cdp_neighbors['LOCAL_INTERFACE'] == intf,
     ['NEIGHBOR_NAME', 'PLATFORM', 'NEIGHBOR_INTERFACE']].values] *)
Definition cdp_loc (cdp_neighbors : list Cdp.row) (intf : string)
  : result (list (string * string * string)) :=
  Frame.loc cdp_neighbors "LOCAL_INTERFACE" Cdp.LOCAL_INTERFACE intf
    (λ r, (Cdp.NEIGHBOR_NAME r, Cdp.PLATFORM r, Cdp.NEIGHBOR_INTERFACE r)).

Definition record (hostname : string) (sn : option string) (port member_po type_cable : string)
    (sfp ip : option string) (mac vlan allowed_vlan_trunk trunk_access : string)
    (desc : option string) (cdp : option string * option string * option string)
    (lldp : option string * option string) : PortRecord :=
  mkPortRecord hostname sn port member_po type_cable sfp ip mac vlan
    allowed_vlan_trunk trunk_access desc cdp.1.1 cdp.1.2 cdp.2 lldp.1 lldp.2.

End Builder.

(** *** NX-OS pipeline ([logic.py]) *)

Module Nxos.
Import Builder.

(** [inventory[inventory['NAME'] == 'Chassis']['SN'].values] *)
Definition sn_lookup (inventory : list Inventory.row) : result (option string) :=
  sn_array ← (if negb (Frame.empty inventory)
              then Frame.loc inventory "NAME" Inventory.NAME "Chassis" Inventory.SN
              else Ok []);
  Ok (head sn_array).

Definition member_po_lookup (port_channel_summary : list PortChannel.row) (port : string)
  : result string :=
  member_po_array ← (if negb (Frame.empty port_channel_summary)
                     then Frame.loc port_channel_summary "BUNDLE_NAME"
                            PortChannel.BUNDLE_NAME port PortChannel.MEMBER_INTERFACE
                     else Ok []);
  let member_po_temp := head member_po_array in
  Ok (match member_po_temp with
      | Some v => if Value.truthy v then Value.join ", " v else ""
      | None => ""
      end).

(** One turn of the loop over [member_po.split(', ')]. *)
Definition cdp_step (cdp_neighbors : list Cdp.row) (acc : string * string * string)
    (intf : string) : result (string * string * string) :=
  if negb (nonempty intf) then Ok acc
  else
    cdp_array ← cdp_loc cdp_neighbors intf;
    Ok (match head cdp_array with
        | Some (name, platform, interface) =>
            let '(cdp_remote_hostname, cdp_remote_platform, cdp_remote_port) := acc in
            (if negb (Py.contains name cdp_remote_hostname)
             then name else cdp_remote_hostname,
             if negb (Py.contains platform cdp_remote_platform)
             then platform else cdp_remote_platform,
             cdp_remote_port +:+
               (if nonempty cdp_remote_port then ", " +:+ interface else interface))
        | None => acc
        end).

Definition cdp_lookup (cdp_neighbors : list Cdp.row) (port member_po : string)
  : result (option string * option string * option string) :=
  if negb (Frame.empty cdp_neighbors) then
    if Py.startswith port "Po" then
      '(h, p, i) ← foldlM (cdp_step cdp_neighbors) ("", "", "") (Py.split member_po ", ");
      Ok (Some h, Some p, Some i)
    else
      cdp_array ← cdp_loc cdp_neighbors port;
      Ok (match head cdp_array with
          | Some (name, platform, interface) => (Some name, Some platform, Some interface)
          | None => (None, None, None)
          end)
  else Ok (None, None, None).

(** The body of the loop over [mac_address.iterrows()]: [None] when the
    row is skipped. *)
Definition process_row (hostname : string) (t : tables string) (row : Mac.row string)
  : result (option PortRecord) :=
  if Py.contains "vPC" (Mac.PORTS row) then Ok None
  else
    let port := Mac.PORTS row in
    let mac := Mac.MAC_ADDRESS row in
    let vlan := Mac.VLAN_ID row in
    sn ← sn_lookup (inventory t);
    ip ← ip_lookup (ip_arp t) mac;
    desc ← desc_lookup (interface_description t) port;
    '(member_po, sfp, type_cable) ←
      (if Py.startswith port "Po" then
         member_po ← member_po_lookup (port_channel_summary t) port;
         sfp ← sfp_member (interface_status t) member_po;
         Ok (member_po, sfp, type_cable_po sfp)
       else
         sfp ← sfp_port (interface_status t) port;
         Ok ("", sfp, type_cable_port sfp port));
    trunk_access ← trunk_access_lookup (interface_status t) port;
    cdp ← cdp_lookup (cdp_neighbors t) port member_po;
    lldp ← lldp_lookup (lldp_neighbors t) port;
    allowed_vlan_trunk ← allowed_vlan_lookup (interface_trunk t) port;
    Ok (Some (record hostname sn port member_po type_cable sfp ip mac vlan
                allowed_vlan_trunk trunk_access desc cdp lldp)).

(** The loop: an exception of a row leaves the function. *)
Definition build (hostname : string) (t : tables string) : result (list PortRecord) :=
  foldlM (λ result row,
            r ← process_row hostname t row;
            Ok (match r with Some rec => result ++ [rec] | None => result end))
    [] (mac_address t).

Definition process_single_hostname (hostname : string) (t : tables string)
    (output_folder : gmap string file) : result (option string * gmap string file) :=
  if Frame.empty (mac_address t) then Ok (Some (hostname +:+ ".xlsx"), output_folder)
  else
    result ← build hostname t;
    match result with
    | [] => Ok (None, output_folder)
    | _ => Ok (Some (hostname +:+ ".xlsx"),
               <[hostname +:+ ".xlsx" := Workbook result]> output_folder)
    end.

End Nxos.

(** *** IOS-XE pipeline ([logic_xe.py]) *)

Module Xe.
Import Builder.

(** [inventory[inventory['PID'].notna()]['SN'].values] *)
Definition sn_lookup (inventory : list Inventory.row) : result (option string) :=
  sn_array ← (if negb (Frame.empty inventory)
              then Frame.notna inventory "PID" Inventory.SN
              else Ok []);
  Ok (head sn_array).

Definition member_po_lookup (port_channel_summary : list PortChannel.row) (port : string)
  : result string :=
  member_po_array ← (if negb (Frame.empty port_channel_summary)
                     then Frame.loc port_channel_summary "BUNDLE_NAME"
                            PortChannel.BUNDLE_NAME port PortChannel.MEMBER_INTERFACE
                     else Ok []);
  Ok (match head member_po_array with
      | Some v => Value.join ", " v
      | None => ""
      end).

Definition cdp_lookup (cdp_neighbors : list Cdp.row) (port member_po : string)
  : result (option string * option string * option string) :=
  if negb (Frame.empty cdp_neighbors) then
    let interfaces_to_check :=
      if Py.startswith port "Po" && nonempty member_po
      then Py.split member_po ", " else [port] in
    cdp_data ← Frame.isin cdp_neighbors "LOCAL_INTERFACE" Cdp.LOCAL_INTERFACE
                 interfaces_to_check;
    Ok (match cdp_data with
        | first :: _ =>
            (Some (Cdp.NEIGHBOR_NAME first), Some (Cdp.PLATFORM first),
             Some (Py.join ", " (Frame.unique (Cdp.NEIGHBOR_INTERFACE <$> cdp_data))))
        | [] => (None, None, None)
        end)
  else Ok (None, None, None).

(** The body of the [try] in the loop over [mac_address.iterrows()]. *)
Definition process_row (hostname : string) (t : tables value) (row : Mac.row value)
  : result (option PortRecord) :=
  if Value.contains "CPU" (Mac.PORTS row) then Ok None
  else
    let port_list := Mac.PORTS row in
    let port := Value.first port_list in
    if negb (nonempty port) then Ok None
    else
      let mac := Mac.MAC_ADDRESS row in
      let vlan := Mac.VLAN_ID row in
      sn ← sn_lookup (inventory t);
      ip ← ip_lookup (ip_arp t) mac;
      desc ← desc_lookup (interface_description t) port;
      '(member_po, sfp, type_cable) ←
        (if Py.startswith port "Po" then
           member_po ← member_po_lookup (port_channel_summary t) port;
           sfp ← sfp_member (interface_status t) member_po;
           Ok (member_po, sfp, type_cable_po sfp)
         else
           sfp ← sfp_port (interface_status t) port;
           Ok ("", sfp, type_cable_port sfp port));
      trunk_access ← trunk_access_lookup (interface_status t) port;
      cdp ← cdp_lookup (cdp_neighbors t) port member_po;
      lldp ← lldp_lookup (lldp_neighbors t) port;
      allowed_vlan_trunk ← allowed_vlan_lookup (interface_trunk t) port;
      Ok (Some (record hostname sn port member_po type_cable sfp ip mac vlan
                  allowed_vlan_trunk trunk_access desc cdp lldp)).

(** The loop: an exception of a row is reported and the row skipped.  The
    second component collects the reports. *)
Definition build (hostname : string) (t : tables value) : list PortRecord * list exn :=
  foldl (λ acc row,
           match process_row hostname t row with
           | Ok (Some rec) => (acc.1 ++ [rec], acc.2)
           | Ok None => acc
           | Raise e => (acc.1, acc.2 ++ [e])
           end)
    ([], []) (mac_address t).

Definition process_single_hostname (hostname : string) (t : tables value)
    (output_folder : gmap string file) : result (option string * gmap string file) :=
  if Frame.empty (mac_address t) then Ok (None, output_folder)
  else
    match (build hostname t).1 with
    | [] => Ok (None, output_folder)
    | result => Ok (Some (hostname +:+ ".xlsx"),
                    <[hostname +:+ ".xlsx" := Workbook result]> output_folder)
    end.

End Xe.

(** *** What [logic-single.py] does differently in the row loop *)

Module Single.
Import Builder.

(** [a or b] where [a] is a string: [b] is only looked at when [a] is empty. *)
Definition or_str (a : string) (b : bool) : bool :=
  if nonempty a then true else b.

(** [if "sup" or "vPC" not in row['PORTS']:] *)
Definition row_kept (ports : string) : bool :=
  or_str "sup" (negb (Py.contains "vPC" ports)).

(** [type(sfp) == str], then ["UTP" if "T" in sfp else "Fiber"] *)
Definition type_cable_po (sfp : option string) : string :=
  match sfp with
  | Some s => if Py.contains "T" s then "UTP" else "Fiber"
  | None => "???"
  end.

Definition type_cable_port (sfp : option string) (port : string) : string :=
  if Py.contains "Vlan" port then "???" else type_cable_po sfp.

End Single.

(** ** Aggregator: read-back, concatenation and IP backfill
    ([execute_main], after the worker pool has returned) *)

Module Aggregator.

Inductive diagnostic :=
| Could_not_read (filename : string)
| No_data_was_aggregated
| Successfully_created (filename : string).

(** [pd.read_excel(filepath, sheet_name='Final Data')]; [None] stands for
    the exception it raises on a missing or unreadable file. *)
Definition read_excel (output_folder : gmap string file) (filename : string)
  : option (list PortRecord) :=
  match output_folder !! filename with
  | Some (Workbook df) => Some df
  | Some Unreadable => None
  | None => None
  end.

(** [final_df.dropna(subset=['IP Address']).set_index('Mac Address')['IP Address'].to_dict()] *)
Definition mac_to_ip (final_df : list PortRecord) : gmap string string :=
  Py.dict (omap (λ r, ip ← IP_Address r; Some (Mac_Address r, ip)) final_df).

(** [final_df['IP Address'].fillna(final_df['Mac Address'].map(mac_to_ip))] *)
Definition fillna (d : gmap string string) (final_df : list PortRecord)
  : list PortRecord :=
  map (λ r, match IP_Address r with
            | Some _ => r
            | None => set_IP_Address (d !! Mac_Address r) r
            end) final_df.

Definition backfill (final_df : list PortRecord) : list PortRecord :=
  fillna (mac_to_ip final_df) final_df.

(** [if filename:] on a worker result. *)
Definition truthy (filename : option string) : option string :=
  match filename with
  | Some EmptyString => None
  | Some f => Some f
  | None => None
  end.

(** One turn of the read-back loop over [results]. *)
Definition read_step (output_folder : gmap string file)
    (acc : list (list PortRecord) * list diagnostic) (result : option string)
  : list (list PortRecord) * list diagnostic :=
  match truthy result with
  | None => acc
  | Some filename =>
      match read_excel output_folder filename with
      | Some df_single => (acc.1 ++ [df_single], acc.2)
      | None => (acc.1, acc.2 ++ [Could_not_read filename])
      end
  end.

Definition aggregate (results : list (option string))
    (output_folder : gmap string file) : gmap string file * list diagnostic :=
  let '(all_device_data, log) := foldl (read_step output_folder) ([], []) results in
  match all_device_data with
  | [] => (output_folder, log ++ [No_data_was_aggregated])
  | _ =>
      let final_df := backfill (concat all_device_data) in
      (<["Final_Report.xlsx" := Workbook final_df]> output_folder,
       log ++ [Successfully_created "Final_Report.xlsx"])
  end.

End Aggregator.

(** ** Closed forms of what the code computes, for the statements below *)

Module Plain.

(** The IP addresses present on the rows of one MAC address, in row order. *)
Definition ips_of (final_df : list PortRecord) (mac : string) : list string :=
  omap (λ r, if decide (Mac_Address r = mac) then IP_Address r else None) final_df.

(** Last-writer-wins: the IP of the latest such row. *)
Definition last_ip (final_df : list PortRecord) (mac : string) : option string :=
  last (ips_of final_df mac).

(** The sheets the read-back loop can read, in the order of [results]. *)
Definition readable (output_folder : gmap string file) (results : list (option string))
  : list (list PortRecord) :=
  omap (λ r, Aggregator.truthy r ≫= Aggregator.read_excel output_folder) results.

(** One report for each named artifact that cannot be read. *)
Definition unreadable (output_folder : gmap string file) (results : list (option string))
  : list Aggregator.diagnostic :=
  omap (λ r, filename ← Aggregator.truthy r;
             match Aggregator.read_excel output_folder filename with
             | Some _ => None
             | None => Some (Aggregator.Could_not_read filename)
             end) results.

(** What one turn of the splitting loop, and then the whole loop, does to
    its accumulator: messages are appended, directories made and files
    written, whatever the accumulator holds. *)
Definition acts_as (step : list string * Splitter.store → list string * Splitter.store)
    (msgs : list string) (D : gset string) (W : gmap (string * string) string) : Prop :=
  ∀ acc, step acc =
         (acc.1 ++ msgs, Splitter.mkStore (D ∪ Splitter.dirs acc.2) (W ∪ Splitter.files acc.2)).



(** *** The join of 4.4, step by step, without the guards *)

(** The [col] cells of the rows whose [key] cell is [k]; none in a table
    without rows. *)
Definition cells {T A} (df : list T) (key : T → string) (k : string) (col : T → A)
  : list A :=
  col <$> filter (λ r, key r = k) df.

(** First match wins; absent means not found. *)
Definition first_cell {T A} (df : list T) (key : T → string) (k : string) (col : T → A)
  : option A :=
  head (cells df key k col).

Definition member_po (port_channel_summary : list PortChannel.row) (port : string)
  : string :=
  match first_cell port_channel_summary PortChannel.BUNDLE_NAME port
          PortChannel.MEMBER_INTERFACE with
  | Some v => Value.join ", " v
  | None => ""
  end.

Definition sfp (interface_status : list Status.row) (port member_po : string)
  : option string :=
  if Py.startswith port "Po" then
    if Builder.nonempty member_po
    then first_cell interface_status Status.PORT
           (Py.first_piece (Py.split member_po ",")) Status.TYPE
    else None
  else first_cell interface_status Status.PORT port Status.TYPE.

Definition type_cable (sfp : option string) (port : string) : string :=
  if Py.startswith port "Po" then Builder.type_cable_po sfp
  else Builder.type_cable_port sfp port.

Definition trunk_access (interface_status : list Status.row) (port : string) : string :=
  let raw := default "" (first_cell interface_status Status.PORT port Status.VLAN_ID) in
  if Builder.nonempty raw && negb (Py.contains "trunk" raw) && negb (Py.contains "routed" raw)
  then "Access" else raw.

Definition cdp_triple (r : Cdp.row) : string * string * string :=
  (Cdp.NEIGHBOR_NAME r, Cdp.PLATFORM r, Cdp.NEIGHBOR_INTERFACE r).

(** NX-OS: what a member with a CDP neighbor does to the three fields. *)
Definition cdp_update (acc hit : string * string * string) : string * string * string :=
  (if Py.contains hit.1.1 acc.1.1 then acc.1.1 else hit.1.1,
   if Py.contains hit.1.2 acc.1.2 then acc.1.2 else hit.1.2,
   acc.2 +:+ (if Builder.nonempty acc.2 then ", " +:+ hit.2 else hit.2)).

(** The first CDP row of each interface that has one. *)
Definition cdp_hits (cdp_neighbors : list Cdp.row) (interfaces : list string)
  : list (string * string * string) :=
  omap (λ intf, first_cell cdp_neighbors Cdp.LOCAL_INTERFACE intf cdp_triple) interfaces.

Definition some3 (x : string * string * string)
  : option string * option string * option string :=
  (Some x.1.1, Some x.1.2, Some x.2).

Definition cdp_nxos (cdp_neighbors : list Cdp.row) (port member_po : string)
  : option string * option string * option string :=
  match cdp_neighbors with
  | [] => (None, None, None)
  | _ =>
      if Py.startswith port "Po" then
        some3 (foldl cdp_update ("", "", "")
                 (cdp_hits cdp_neighbors
                    (filter (λ intf, intf ≠ "") (Py.split member_po ", "))))
      else
        match first_cell cdp_neighbors Cdp.LOCAL_INTERFACE port cdp_triple with
        | Some hit => some3 hit
        | None => (None, None, None)
        end
  end.

Definition cdp_xe (cdp_neighbors : list Cdp.row) (port member_po : string)
  : option string * option string * option string :=
  let interfaces_to_check :=
    if Py.startswith port "Po" && Builder.nonempty member_po
    then Py.split member_po ", " else [port] in
  let cdp_data := filter (λ r, Cdp.LOCAL_INTERFACE r ∈ interfaces_to_check) cdp_neighbors in
  match cdp_data with
  | first :: _ =>
      (Some (Cdp.NEIGHBOR_NAME first), Some (Cdp.PLATFORM first),
       Some (Py.join ", " (Frame.unique (Cdp.NEIGHBOR_INTERFACE <$> cdp_data))))
  | [] => (None, None, None)
  end.

Definition lldp (lldp_neighbors : list Lldp.row) (port : string)
  : option string * option string :=
  if Py.startswith port "Po" then (None, None)
  else
    match first_cell lldp_neighbors Lldp.LOCAL_INTERFACE port
            (λ r, (Lldp.NEIGHBOR_NAME r, Lldp.NEIGHBOR_INTERFACE r)) with
    | Some (n, i) => (Some n, Some i)
    | None => (None, None)
    end.

Definition allowed_vlan (interface_trunk : list Trunk.row) (port : string) : string :=
  match first_cell interface_trunk Trunk.PORT port Trunk.ALLOWED_VLANS with
  | Some (VStr s) => s
  | Some (VList l) => Py.join "," l
  | None => ""
  end.

(** The record of a kept row, from the serial number and the CDP fields
    the dialect resolves. *)
Definition port_record {P} (hostname : string) (t : tables P)
    (sn : option string)
    (cdp : list Cdp.row → string → string → option string * option string * option string)
    (port mac vlan : string) : PortRecord :=
  let member_po :=
    if Py.startswith port "Po" then member_po (port_channel_summary t) port else "" in
  let sfp := sfp (interface_status t) port member_po in
  Builder.record hostname sn port member_po (type_cable sfp port) sfp
    (first_cell (ip_arp t) Arp.MAC_ADDRESS mac Arp.IP_ADDRESS) mac vlan
    (allowed_vlan (interface_trunk t) port) (trunk_access (interface_status t) port)
    (first_cell (interface_description t) Descr.PORT port Descr.DESCRIPTION)
    (cdp (cdp_neighbors t) port member_po) (lldp (lldp_neighbors t) port).

Definition nxos_kept (row : Mac.row string) : Prop :=
  Py.contains "vPC" (Mac.PORTS row) = false.

Definition nxos_record (hostname : string) (t : tables string) (row : Mac.row string)
  : PortRecord :=
  port_record hostname t
    (first_cell (inventory t) Inventory.NAME "Chassis" Inventory.SN) cdp_nxos
    (Mac.PORTS row) (Mac.MAC_ADDRESS row) (Mac.VLAN_ID row).

Definition xe_kept (row : Mac.row value) : Prop :=
  Value.contains "CPU" (Mac.PORTS row) = false ∧ Value.first (Mac.PORTS row) ≠ "".

Definition xe_record (hostname : string) (t : tables value) (row : Mac.row value)
  : PortRecord :=
  port_record hostname t (head (Inventory.SN <$> inventory t)) cdp_xe
    (Value.first (Mac.PORTS row)) (Mac.MAC_ADDRESS row) (Mac.VLAN_ID row).

(** Not found in an empty table: what each field of a record is when the
    table it is looked up in has no rows. *)
Definition not_found_on_empty {P} (t : tables P) (rec : PortRecord) : Prop :=
  (inventory t = [] → Serial_Number rec = None) ∧
  (ip_arp t = [] → IP_Address rec = None) ∧
  (interface_description t = [] → Description rec = None) ∧
  (port_channel_summary t = [] → Member_PO rec = "") ∧
  (interface_status t = [] →
     SFP rec = None ∧ Tipe_Kabel rec = "???" ∧ Trunk_Access rec = "") ∧
  (cdp_neighbors t = [] →
     CDP_Neighbor_Hostname rec = None ∧ CDP_Neighbor_Platform rec = None ∧
     CDP_Neighbor_Port rec = None) ∧
  (lldp_neighbors t = [] →
     LLDP_Neighbor_Hostname rec = None ∧ LLDP_Neighbor_Port rec = None) ∧
  (interface_trunk t = [] → Allowed_VLAN rec = "").

(** NX-OS: the hostname (or platform) held after one more neighbor. *)
Definition keep_or_replace (held new : string) : string :=
  if Py.contains new held then held else new.

#[global] Instance nxos_kept_dec (row : Mac.row string) : Decision (nxos_kept row).
Proof. unfold nxos_kept. apply _. Defined.

#[global] Instance xe_kept_dec (row : Mac.row value) : Decision (xe_kept row).
Proof. unfold xe_kept. apply _. Defined.

End Plain.

(** ** The specification's reading of two steps, for comparison *)

Module Spec.

(** First-writer-wins: the IP of the earliest such row. *)
Definition first_ip (final_df : list PortRecord) (mac : string) : option string :=
  head (Plain.ips_of final_df mac).

(** The port field as the specification reads it for the exclusion test:
    the field, or its first element if it is a list. *)
Definition port_text (ports : value) : string :=
  match ports with
  | VStr s => s
  | VList l => default "" (head l)
  end.

End Spec.

(** ** Sample inputs *)

Module Sample.

(** A row of a "Final Data" sheet on an access port. *)
Definition port_row (hostname port mac : string) (ip : option string) : PortRecord :=
  mkPortRecord hostname (Some "FDO1234") port "" "Fiber" (Some "10Gbase-SR") ip mac "10"
    "" "Access" None None None None None None.

(** One MAC address seen on three devices, with two different ARP
    entries and once without any. *)
Definition two_ips_then_none : list PortRecord :=
  [port_row "sw1" "Eth1/1" "0011.2233.4455" (Some "10.0.0.1");
   port_row "sw2" "Eth1/7" "0011.2233.4455" (Some "10.0.0.2");
   port_row "sw3" "Eth1/9" "0011.2233.4455" None].

(** The same MAC address: with an ARP entry, without, and with another. *)
Definition ip_none_other_ip : list PortRecord :=
  [port_row "sw1" "Eth1/1" "0011.2233.4455" (Some "10.0.0.1");
   port_row "sw2" "Eth1/7" "0011.2233.4455" None;
   port_row "sw3" "Eth1/9" "0011.2233.4455" (Some "10.0.0.2")].

(** Scenario C: two devices, the second without the ARP entry. *)
Definition scenario_C : list PortRecord :=
  [port_row "sw1" "Eth1/1" "0011.2233.4455" (Some "10.0.0.1");
   port_row "sw2" "Eth1/7" "0011.2233.4455" None].

(** A capture: each command after the device prompt, followed by a line of
    output. *)
Definition capture (hostname : string) (commands : list string) : string :=
  String.concat ""
    ((λ command, hostname +:+ "# " +:+ command +:+ Splitter.nl
                 +:+ "(output of " +:+ command +:+ ")" +:+ Splitter.nl) <$> commands).

(** A capture without [show lldp neighbors] (scenario B). *)
Definition uploads_sw2 : string :=
  capture "sw2"
    ["show interface description"; "show interface status"; "show interface trunk";
     "show port-channel summary"; "show ip arp"; "show mac address-table";
     "show inventory"; "show cdp neighbors"].

(** Two uploads: [sw1] ran the nine commands, [sw2] did not. *)
Definition uploads : list (string * string) :=
  [("sw1.txt", capture "sw1" (Splitter.required_commands Splitter.nxos));
   ("sw2.txt", uploads_sw2)].

Definition empty_dir : Splitter.store := Splitter.mkStore ∅ ∅.

(** An NX-OS device: port-channel [Po1] towards two switches, each on its
    port [Eth1/49]; and an SVI whose status row has a copper type. *)
Definition nxos_tables : tables string :=
  mkTables
    [Mac.mkRow "Po1" "0011.2233.4455" "10"; Mac.mkRow "Vlan10" "0011.2233.4466" "10"]
    [Arp.mkRow "0011.2233.4455" "10.0.0.1"]
    []
    [Inventory.mkRow "Chassis" "N9K-C93180YC-EX" "FDO1234"]
    [PortChannel.mkRow "Po1" (VList ["Eth1/1"; "Eth1/2"])]
    [Status.mkRow "Eth1/1" "10Gbase-SR" "trunk"; Status.mkRow "Eth1/2" "10Gbase-SR" "trunk";
     Status.mkRow "Po1" "--" "trunk"; Status.mkRow "Vlan10" "1000base-T" "routed"]
    [Cdp.mkRow "Eth1/1" "swA" "N9K-C9336C" "Eth1/49";
     Cdp.mkRow "Eth1/2" "swB" "N9K-C9336C" "Eth1/49"]
    []
    [Trunk.mkRow "Po1" (VStr "1-100")].

Definition po1_row : Mac.row string := Mac.mkRow "Po1" "0011.2233.4455" "10".
Definition vlan10_row : Mac.row string := Mac.mkRow "Vlan10" "0011.2233.4466" "10".

(** An IOS-XE device: [Po1] with two members, whose CDP rows come in the
    other order, and a MAC entry on a port and the CPU. *)
Definition xe_tables : tables value :=
  mkTables
    [Mac.mkRow (VList ["Po1"]) "0011.2233.4455" "10";
     Mac.mkRow (VList ["Gi1/0/1"; "CPU"]) "0100.5e00.0001" "20"]
    []
    []
    [Inventory.mkRow "c93xx Stack" "C9300-48P" "FCW5678"]
    [PortChannel.mkRow "Po1" (VList ["Gi1/0/1"; "Gi1/0/2"])]
    [Status.mkRow "Gi1/0/1" "10/100/1000BaseTX" "trunk"]
    [Cdp.mkRow "Gi1/0/2" "swB" "C9500" "Te1/0/1"; Cdp.mkRow "Gi1/0/1" "swA" "C9500" "Te1/0/1"]
    []
    [].

Definition xe_po1_row : Mac.row value := Mac.mkRow (VList ["Po1"]) "0011.2233.4455" "10".
Definition xe_cpu_row : Mac.row value :=
  Mac.mkRow (VList ["Gi1/0/1"; "CPU"]) "0100.5e00.0001" "20".

End Sample.

(** ** Records a device's loop emits *)

Module Emitted.

Definition by_nxos (hostname : string) (t : tables string) (rec : PortRecord) : Prop :=
  ∃ records, Nxos.build hostname t = Ok records ∧ rec ∈ records.

Definition by_xe (hostname : string) (t : tables value) (rec : PortRecord) : Prop :=
  rec ∈ (Xe.build hostname t).1.

End Emitted.

(** ** Captures the splitter acts on *)

Module Capture.



(** The blocks of [re.split] after the first, two by two. *)
Definition flatten (pairs : list (string * string)) : list string :=
  concat ((λ hb : string * string, [hb.1; hb.2]) <$> pairs).

End Capture.

(** ** Table Loader and Parallel Dispatcher ([execute_main], first half) *)

Module Loader.

(** The grammar engine with the nine templates of a dialect, followed by
    the [DataFrame] constructor (and, for IOS-XE, by the renaming of the
    MAC-table columns): from the text of a segment to the rows of its
    table.  The engine is not part of the repository; the pipelines are
    stated for any such nine functions, that is for an engine that
    returns (in [logic_xe.py] an exception of the engine is caught and
    gives the table without rows). *)
Record templates (P : Type) := mkTemplates {
  parse_mac_address : string → list (Mac.row P);
  parse_ip_arp : string → list Arp.row;
  parse_interface_description : string → list Descr.row;
  parse_inventory : string → list Inventory.row;
  parse_port_channel_summary : string → list PortChannel.row;
  parse_interface_status : string → list Status.row;
  parse_cdp_neighbors : string → list Cdp.row;
  parse_lldp_neighbors : string → list Lldp.row;
  parse_interface_trunk : string → list Trunk.row
}.
Arguments mkTemplates {P}.
Arguments parse_mac_address {P}.
Arguments parse_ip_arp {P}.
Arguments parse_interface_description {P}.
Arguments parse_inventory {P}.
Arguments parse_port_channel_summary {P}.
Arguments parse_interface_status {P}.
Arguments parse_cdp_neighbors {P}.
Arguments parse_lldp_neighbors {P}.
Arguments parse_interface_trunk {P}.

(** [read_file(filename)]: the segment, or the empty text when the file is
    not there. *)
Definition read_file (source_data : Splitter.store) (hostname filename : string) : string :=
  default "" (Splitter.files source_data !! (hostname, filename)).

Definition load {P} (textfsm : templates P) (source_data : Splitter.store)
    (hostname : string) : tables P :=
  mkTables
    (parse_mac_address textfsm (read_file source_data hostname "show_mac_address-table.txt"))
    (parse_ip_arp textfsm (read_file source_data hostname "show_ip_arp.txt"))
    (parse_interface_description textfsm
       (read_file source_data hostname "show_interface_description.txt"))
    (parse_inventory textfsm (read_file source_data hostname "show_inventory.txt"))
    (parse_port_channel_summary textfsm
       (read_file source_data hostname "show_port-channel_summary.txt"))
    (parse_interface_status textfsm
       (read_file source_data hostname "show_interface_status.txt"))
    (parse_cdp_neighbors textfsm (read_file source_data hostname "show_cdp_neighbors.txt"))
    (parse_lldp_neighbors textfsm (read_file source_data hostname "show_lldp_neighbors.txt"))
    (parse_interface_trunk textfsm
       (read_file source_data hostname "show_interface_trunk.txt")).

End Loader.

Module Dispatcher.

(** [pool.map(process_single_hostname, tasks)]: one result per task, in
    the order of the tasks.  The workers run in separate processes; each
    reads the segments of its own device and writes the workbook of its
    own device only, so the output folder they leave is the one they
    leave when run one after the other.  An exception in a worker leaves
    [pool.map]. *)
Fixpoint pool_map
    (worker : string → gmap string file → result (option string * gmap string file))
    (hostnames : list string) (output_folder : gmap string file)
  : result (list (option string) * gmap string file) :=
  match hostnames with
  | [] => Ok ([], output_folder)
  | hostname :: hostnames' =>
      r ← worker hostname output_folder;
      rs ← pool_map worker hostnames' r.2;
      Ok (r.1 :: rs.1, rs.2)
  end.

Inductive outcome :=
| Source_not_found
| Finished (output_folder : gmap string file) (log : list Aggregator.diagnostic).

(** [execute_main]; [hostnames] is [None] when the source path is not a
    directory, and otherwise the directories under it in [os.listdir]
    order. *)
Definition execute_main
    (worker : string → gmap string file → result (option string * gmap string file))
    (hostnames : option (list string)) (output_folder : gmap string file)
  : result outcome :=
  match hostnames with
  | None => Ok Source_not_found
  | Some hostnames =>
      r ← pool_map worker hostnames output_folder;
      let final := Aggregator.aggregate r.1 r.2 in
      Ok (Finished final.1 final.2)
  end.

Definition nxos_worker (textfsm : Loader.templates string) (source_data : Splitter.store)
    (hostname : string) (output_folder : gmap string file)
  : result (option string * gmap string file) :=
  Nxos.process_single_hostname hostname (Loader.load textfsm source_data hostname)
    output_folder.

Definition xe_worker (textfsm : Loader.templates value) (source_data : Splitter.store)
    (hostname : string) (output_folder : gmap string file)
  : result (option string * gmap string file) :=
  Xe.process_single_hostname hostname (Loader.load textfsm source_data hostname)
    output_folder.

End Dispatcher.

(** ** Closed forms for the dispatcher *)

Module Report.

(** The records of one device. *)
Definition nxos_records (textfsm : Loader.templates string) (source_data : Splitter.store)
    (hostname : string) : list PortRecord :=
  let t := Loader.load textfsm source_data hostname in
  Plain.nxos_record hostname t <$> filter Plain.nxos_kept (mac_address t).

Definition xe_records (textfsm : Loader.templates value) (source_data : Splitter.store)
    (hostname : string) : list PortRecord :=
  let t := Loader.load textfsm source_data hostname in
  Plain.xe_record hostname t <$> filter Plain.xe_kept (mac_address t).

(** The workbooks the workers write: one for each device with records. *)
Definition artifacts (records : string → list PortRecord) (hostnames : list string)
  : gmap string file :=
  Py.dict (omap (λ hostname,
                   match records hostname with
                   | [] => None
                   | rows => Some (hostname +:+ ".xlsx", Workbook rows)
                   end) hostnames).

(** A worker that returns [result_of hostname] and writes the workbook of
    its device when the device has records, whatever the folder holds. *)
Definition behaves
    (worker : string → gmap string file → result (option string * gmap string file))
    (records : string → list PortRecord) (result_of : string → option string) : Prop :=
  ∀ hostname output_folder,
    worker hostname output_folder
    = Ok (result_of hostname,
          match records hostname with
          | [] => output_folder
          | rows => <[hostname +:+ ".xlsx" := Workbook rows]> output_folder
          end).

(** What the NX-OS worker returns: the name of its workbook, also when the
    MAC table is empty and there is no workbook. *)
Definition nxos_result (textfsm : Loader.templates string) (source_data : Splitter.store)
    (hostname : string) : option string :=
  match mac_address (Loader.load textfsm source_data hostname) with
  | [] => Some (hostname +:+ ".xlsx")
  | _ =>
      match nxos_records textfsm source_data hostname with
      | [] => None
      | _ => Some (hostname +:+ ".xlsx")
      end
  end.

Definition xe_result (textfsm : Loader.templates value) (source_data : Splitter.store)
    (hostname : string) : option string :=
  match xe_records textfsm source_data hostname with
  | [] => None
  | _ => Some (hostname +:+ ".xlsx")
  end.

(** The sheets the NX-OS read-back finds: the records of a device that has
    some, and for a device with an empty MAC table whatever workbook of
    its name the folder held before. *)
Definition nxos_frames (textfsm : Loader.templates string) (source_data : Splitter.store)
    (output_folder : gmap string file) (hostnames : list string)
  : list (list PortRecord) :=
  omap (λ hostname,
          match nxos_records textfsm source_data hostname with
          | [] =>
              match mac_address (Loader.load textfsm source_data hostname) with
              | [] => Aggregator.read_excel output_folder (hostname +:+ ".xlsx")
              | _ => None
              end
          | rows => Some rows
          end) hostnames.

(** The NX-OS read-back reports a device with an empty MAC table when no
    readable workbook of its name lies in the folder. *)
Definition nxos_log (textfsm : Loader.templates string) (source_data : Splitter.store)
    (output_folder : gmap string file) (hostnames : list string)
  : list Aggregator.diagnostic :=
  omap (λ hostname,
          match mac_address (Loader.load textfsm source_data hostname),
                Aggregator.read_excel output_folder (hostname +:+ ".xlsx") with
          | [], None => Some (Aggregator.Could_not_read (hostname +:+ ".xlsx"))
          | _, _ => None
          end) hostnames.

(** The final report and the closing message, from all the rows. *)
Definition report (rows : list PortRecord) (output_folder : gmap string file)
    (log : list Aggregator.diagnostic) : Dispatcher.outcome :=
  match rows with
  | [] => Dispatcher.Finished output_folder (log ++ [Aggregator.No_data_was_aggregated])
  | _ =>
      Dispatcher.Finished
        (<["Final_Report.xlsx" := Workbook (Aggregator.backfill rows)]> output_folder)
        (log ++ [Aggregator.Successfully_created "Final_Report.xlsx"])
  end.

(** What the pass writes and reports at its end. *)
Definition final (frames : list (list PortRecord)) (output_folder : gmap string file)
    (log : list Aggregator.diagnostic) : Dispatcher.outcome :=
  match frames with
  | [] => Dispatcher.Finished output_folder (log ++ [Aggregator.No_data_was_aggregated])
  | _ =>
      Dispatcher.Finished
        (<["Final_Report.xlsx" := Workbook (Aggregator.backfill (concat frames))]>
           output_folder)
        (log ++ [Aggregator.Successfully_created "Final_Report.xlsx"])
  end.

End Report.

(** ** Runs that raise

    The definitions so far follow a run in which every capture decodes,
    every segment file can be opened, the grammar engine returns and the
    Excel library writes each sheet and reads it back as written; the
    only exception they know is the [KeyError] of a row lookup.  The
    definitions from here on follow the code through its other
    exceptions too. *)

Module Run.

Inductive error :=
| UnicodeDecodeError (filename : string)
| ValueError (path : string)
| OSError (path : string)
| TextFSMError (filename : string)
| RowError (e : exn)
| ExcelError (filename : string)
| WorkerError.

(** How a call ends: it returns, it raises, or it does something these
    definitions do not describe ([re.split] on a stem that is a pattern of
    its own, [open] on a path that leaves the device directory, a
    workbook left half written by a call whose exception is caught). *)
Inductive status (A : Type) :=
| Returned (a : A)
| Raised (e : error)
| Undescribed.
Arguments Returned {A}.
Arguments Raised {A}.
Arguments Undescribed {A}.

#[global] Instance status_ret : MRet status := λ A a, Returned a.
#[global] Instance status_bind : MBind status :=
  λ A B f m, match m with
             | Returned a => f a
             | Raised e => Raised e
             | Undescribed => Undescribed
             end.

Fixpoint foldlM {A B} (f : A → B → status A) (a : A) (l : list B) : status A :=
  match l with
  | [] => Returned a
  | b :: l' => a' ← f a b; foldlM f a' l'
  end.

(** The two libraries the workers call.  [textfsm] gives the rows of a
    table when the engine returns and [parse_raises] tells, for a segment
    file and its text, whether it raises instead; [to_excel] tells whether
    the writer takes the rows of a "Final Data" sheet for a file (it
    raises on a cell it cannot store), and [to_excel_sheets] tells it for
    a workbook that holds the sheets of the parsed tables as well;
    [read_back] is what
    [pd.read_excel] returns for a sheet that holds the given rows (it
    empties the cells that read like NA and turns the columns of digits
    into numbers). *)
Record library (P : Type) := mkLibrary {
  textfsm : Loader.templates P;
  parse_raises : string → string → bool;
  to_excel : string → list PortRecord → bool;
  to_excel_sheets : string → list PortRecord → tables P → bool;
  read_back : list PortRecord → list PortRecord
}.
Arguments mkLibrary {P}.
Arguments textfsm {P}.
Arguments parse_raises {P}.
Arguments to_excel {P}.
Arguments to_excel_sheets {P}.
Arguments read_back {P}.

(** The segment files a worker parses, in the order it parses them. *)
Definition segment_files : list string :=
  ["show_mac_address-table.txt"; "show_ip_arp.txt"; "show_interface_description.txt";
   "show_inventory.txt"; "show_port-channel_summary.txt"; "show_interface_status.txt";
   "show_cdp_neighbors.txt"; "show_lldp_neighbors.txt"; "show_interface_trunk.txt"].

Definition raises_on {P} (lib : library P) (source_data : Splitter.store)
    (hostname filename : string) : bool :=
  parse_raises lib filename (Loader.read_file source_data hostname filename).

(** [logic.py] and [logic-single.py]: [parsing_plain_text_to_json]
    catches the missing template only, so the first parse that raises
    leaves the worker. *)
Definition load_nxos (lib : library string) (source_data : Splitter.store)
    (hostname : string) : status (tables string) :=
  match List.find (raises_on lib source_data hostname) segment_files with
  | Some filename => Raised (TextFSMError filename)
  | None => Returned (Loader.load (textfsm lib) source_data hostname)
  end.

(** [logic_xe.py]: [parse_and_create_df] catches every exception and
    gives the frame without rows. *)
Definition load_xe (lib : library value) (source_data : Splitter.store)
    (hostname : string) : tables value :=
  let t := Loader.load (textfsm lib) source_data hostname in
  let parsed (T : Type) (filename : string) (rows : list T) : list T :=
    if raises_on lib source_data hostname filename then [] else rows in
  mkTables
    (parsed _ "show_mac_address-table.txt" (mac_address t))
    (parsed _ "show_ip_arp.txt" (ip_arp t))
    (parsed _ "show_interface_description.txt" (interface_description t))
    (parsed _ "show_inventory.txt" (inventory t))
    (parsed _ "show_port-channel_summary.txt" (port_channel_summary t))
    (parsed _ "show_interface_status.txt" (interface_status t))
    (parsed _ "show_cdp_neighbors.txt" (cdp_neighbors t))
    (parsed _ "show_lldp_neighbors.txt" (lldp_neighbors t))
    (parsed _ "show_interface_trunk.txt" (interface_trunk t)).

(** No parse of the device raises. *)
Definition parses {P} (lib : library P) (source_data : Splitter.store)
    (hostname : string) : bool :=
  forallb (λ filename, negb (raises_on lib source_data hostname filename)) segment_files.

(** A library that raises nowhere and reads back what it wrote. *)
Definition ideal {P} (engine : Loader.templates P) : library P :=
  mkLibrary engine (λ _ _, false) (λ _ _, true) (λ _ _ _, true) (λ rows, rows).

End Run.

(** ** The sequential pipeline ([logic-single.py]) *)

Module Sequential.
Import Builder.

(** One turn of the loop over [member_po.split(', ')]: a further neighbor
    port is appended after [" ,"]. *)
Definition cdp_step (cdp_neighbors : list Cdp.row) (acc : string * string * string)
    (intf : string) : result (string * string * string) :=
  if negb (nonempty intf) then Ok acc
  else
    cdp_array ← cdp_loc cdp_neighbors intf;
    Ok (match head cdp_array with
        | Some (name, platform, interface) =>
            let '(cdp_remote_hostname, cdp_remote_platform, cdp_remote_port) := acc in
            (if negb (Py.contains name cdp_remote_hostname)
             then name else cdp_remote_hostname,
             if negb (Py.contains platform cdp_remote_platform)
             then platform else cdp_remote_platform,
             if Nat.eqb (String.length cdp_remote_port) 0
             then cdp_remote_port +:+ interface
             else cdp_remote_port +:+ " ," +:+ interface)
        | None => acc
        end).

Definition cdp_lookup (cdp_neighbors : list Cdp.row) (port member_po : string)
  : result (option string * option string * option string) :=
  if Frame.empty cdp_neighbors then Ok (None, None, None)
  else if Py.startswith port "Po" then
    '(h, p, i) ← foldlM (cdp_step cdp_neighbors) ("", "", "") (Py.split member_po ", ");
    Ok (Some h, Some p, Some i)
  else
    cdp_array ← cdp_loc cdp_neighbors port;
    Ok (match head cdp_array with
        | Some (name, platform, interface) => (Some name, Some platform, Some interface)
        | None => (None, None, None)
        end).

(** A port-channel gets two empty strings when the LLDP table has rows. *)
Definition lldp_lookup (lldp_neighbors : list Lldp.row) (port : string)
  : result (option string * option string) :=
  if Frame.empty lldp_neighbors then Ok (None, None)
  else if Py.startswith port "Po" then Ok (Some "", Some "")
  else
    lldp_array ← Frame.loc lldp_neighbors "LOCAL_INTERFACE" Lldp.LOCAL_INTERFACE port
                   (λ r, (Lldp.NEIGHBOR_NAME r, Lldp.NEIGHBOR_INTERFACE r));
    Ok (match head lldp_array with
        | Some (n, i) => (Some n, Some i)
        | None => (None, None)
        end).

Definition allowed_vlan_lookup (interface_trunk : list Trunk.row) (port : string)
  : result string :=
  if negb (Frame.empty interface_trunk) then
    allowed_vlan_trunk_values ← Frame.loc interface_trunk "PORT" Trunk.PORT port
                                  Trunk.ALLOWED_VLANS;
    Ok (match head allowed_vlan_trunk_values with
        | Some (VList raw_value) => Py.join "," raw_value
        | Some (VStr raw_value) => raw_value
        | None => ""
        end)
  else Ok "".

(** The body of the loop over [mac_address.iterrows()]; the serial number,
    the IP address, the description, the members, the SFP and the
    trunk/access lookups are written as in [logic.py]. *)
Definition process_row (hostname : string) (t : tables string) (row : Mac.row string)
  : result (option PortRecord) :=
  if Single.row_kept (Mac.PORTS row) then
    let port := Mac.PORTS row in
    let mac := Mac.MAC_ADDRESS row in
    let vlan := Mac.VLAN_ID row in
    sn ← Nxos.sn_lookup (inventory t);
    ip ← ip_lookup (ip_arp t) mac;
    desc ← desc_lookup (interface_description t) port;
    '(member_po, sfp, type_cable) ←
      (if Py.startswith port "Po" then
         member_po ← Nxos.member_po_lookup (port_channel_summary t) port;
         sfp ← sfp_member (interface_status t) member_po;
         Ok (member_po, sfp, Single.type_cable_po sfp)
       else
         sfp ← sfp_port (interface_status t) port;
         Ok ("", sfp, Single.type_cable_port sfp port));
    trunk_access ← trunk_access_lookup (interface_status t) port;
    cdp ← cdp_lookup (cdp_neighbors t) port member_po;
    lldp ← lldp_lookup (lldp_neighbors t) port;
    allowed_vlan_trunk ← allowed_vlan_lookup (interface_trunk t) port;
    Ok (Some (record hostname sn port member_po type_cable sfp ip mac vlan
                allowed_vlan_trunk trunk_access desc cdp lldp))
  else Ok None.

(** The loop: an exception of a row leaves [execute_main]. *)
Definition build (hostname : string) (t : tables string) : result (list PortRecord) :=
  foldlM (λ result row,
            r ← process_row hostname t row;
            Ok (match r with Some rec => result ++ [rec] | None => result end))
    [] (mac_address t).

(** [All_Devices.xlsx] is written when it is not there, outside any [try];
    otherwise the rows are put below its last row inside one: a workbook
    that cannot be loaded is left as it is, and a writer that raises on
    the new rows leaves a file these definitions do not describe. *)
Definition append_all_devices (lib : Run.library string) (result_final : list PortRecord)
    (output_folder : gmap string file) : Run.status (gmap string file) :=
  match output_folder !! "All_Devices.xlsx" with
  | None =>
      if Run.to_excel lib "All_Devices.xlsx" result_final
      then Run.Returned (<["All_Devices.xlsx" := Workbook result_final]> output_folder)
      else Run.Raised (Run.ExcelError "All_Devices.xlsx")
  | Some (Workbook rows) =>
      if Run.to_excel lib "All_Devices.xlsx" result_final
      then Run.Returned
             (<["All_Devices.xlsx" := Workbook (rows ++ result_final)]> output_folder)
      else Run.Undescribed
  | Some Unreadable => Run.Returned output_folder
  end.

(** One turn of the loop over the device directories; the output folder
    is made, if it is not there, before the first write. *)
Definition process_hostname (lib : Run.library string) (source_data : Splitter.store)
    (hostname : string) (output_folder : gmap string file)
  : Run.status (gmap string file) :=
  t ← Run.load_nxos lib source_data hostname;
  if Frame.empty (mac_address t) then Run.Returned output_folder
  else
    match build hostname t with
    | Raise e => Run.Raised (Run.RowError e)
    | Ok [] => Run.Returned output_folder
    | Ok result =>
        if Run.to_excel_sheets lib (hostname +:+ ".xlsx") result t
        then append_all_devices lib result
               (<[hostname +:+ ".xlsx" := Workbook result]> output_folder)
        else Run.Raised (Run.ExcelError (hostname +:+ ".xlsx"))
    end.

(** [execute_main]; [hostnames] is [None] when the source path is not a
    directory, and otherwise the directories under it in [os.listdir]
    order.  The final report is made inside a [try]: a workbook that
    cannot be read ends the pass, and a writer that raises leaves a file
    these definitions do not describe. *)
Definition execute_main (lib : Run.library string)
    (source_data : Splitter.store) (hostnames : option (list string))
    (output_folder : gmap string file) : Run.status (gmap string file) :=
  match hostnames with
  | None => Run.Returned output_folder
  | Some hostnames =>
      output_folder ← Run.foldlM (λ output_folder hostname,
                                    process_hostname lib source_data hostname output_folder)
                        output_folder hostnames;
      match output_folder !! "All_Devices.xlsx" with
      | Some (Workbook rows) =>
          let df := Aggregator.backfill (Run.read_back lib rows) in
          if Run.to_excel lib "Final_Report.xlsx" df
          then Run.Returned (<["Final_Report.xlsx" := Workbook df]> output_folder)
          else Run.Undescribed
      | _ => Run.Returned output_folder
      end
  end.

(** *** Closed forms *)

(** What a member with a CDP neighbor does to the three fields. *)
Definition cdp_update (acc hit : string * string * string) : string * string * string :=
  (if Py.contains hit.1.1 acc.1.1 then acc.1.1 else hit.1.1,
   if Py.contains hit.1.2 acc.1.2 then acc.1.2 else hit.1.2,
   if Nat.eqb (String.length acc.2) 0 then acc.2 +:+ hit.2 else acc.2 +:+ " ," +:+ hit.2).

Definition cdp (cdp_neighbors : list Cdp.row) (port member_po : string)
  : option string * option string * option string :=
  match cdp_neighbors with
  | [] => (None, None, None)
  | _ =>
      if Py.startswith port "Po" then
        Plain.some3 (foldl cdp_update ("", "", "")
                       (Plain.cdp_hits cdp_neighbors
                          (filter (λ intf, intf ≠ "") (Py.split member_po ", "))))
      else
        match Plain.first_cell cdp_neighbors Cdp.LOCAL_INTERFACE port Plain.cdp_triple with
        | Some hit => Plain.some3 hit
        | None => (None, None, None)
        end
  end.

Definition lldp (lldp_neighbors : list Lldp.row) (port : string)
  : option string * option string :=
  match lldp_neighbors with
  | [] => (None, None)
  | _ => if Py.startswith port "Po" then (Some "", Some "")
         else Plain.lldp lldp_neighbors port
  end.

Definition type_cable (sfp : option string) (port : string) : string :=
  if Py.startswith port "Po" then Single.type_cable_po sfp
  else Single.type_cable_port sfp port.

(** The record of a row of the MAC table. *)
Definition record_of (hostname : string) (t : tables string) (row : Mac.row string)
  : PortRecord :=
  let port := Mac.PORTS row in
  let member_po :=
    if Py.startswith port "Po" then Plain.member_po (port_channel_summary t) port
    else "" in
  let sfp := Plain.sfp (interface_status t) port member_po in
  Builder.record hostname
    (Plain.first_cell (inventory t) Inventory.NAME "Chassis" Inventory.SN)
    port member_po (type_cable sfp port) sfp
    (Plain.first_cell (ip_arp t) Arp.MAC_ADDRESS (Mac.MAC_ADDRESS row) Arp.IP_ADDRESS)
    (Mac.MAC_ADDRESS row) (Mac.VLAN_ID row)
    (Plain.allowed_vlan (interface_trunk t) port)
    (Plain.trunk_access (interface_status t) port)
    (Plain.first_cell (interface_description t) Descr.PORT port Descr.DESCRIPTION)
    (cdp (cdp_neighbors t) port member_po) (lldp (lldp_neighbors t) port).

(** The records of one device. *)
Definition records (textfsm : Loader.templates string) (source_data : Splitter.store)
    (hostname : string) : list PortRecord :=
  let t := Loader.load textfsm source_data hostname in
  record_of hostname t <$> mac_address t.

(** The turn of a device meets no exception: the engine returns and the
    writer takes the records, if there are any, for both workbooks. *)
Definition quiet (lib : Run.library string) (source_data : Splitter.store)
    (hostname : string) : bool :=
  Run.parses lib source_data hostname
  && match records (Run.textfsm lib) source_data hostname with
     | [] => true
     | rows => Run.to_excel_sheets lib (hostname +:+ ".xlsx") rows
                 (Loader.load (Run.textfsm lib) source_data hostname)
               && Run.to_excel lib "All_Devices.xlsx" rows
     end.

End Sequential.

(** ** Web front ([app.py]) *)

Module App.

Definition ALLOWED_EXTENSIONS : list string := ["txt"; "log"].

(** [str.lower], on the capitals A to Z: no other character lowers to a
    letter of an allowed extension. *)
Definition lower_ascii (c : ascii) : ascii :=
  let n := nat_of_ascii c in
  if Nat.leb 65 n && Nat.leb n 90 then ascii_of_nat (n + 32) else c.

Fixpoint lower (s : string) : string :=
  match s with
  | EmptyString => EmptyString
  | String c s' => String (lower_ascii c) (lower s')
  end.

(** The characters of [r] before its first dot. *)
Fixpoint until_dot (r : string) : string :=
  match r with
  | EmptyString => EmptyString
  | String c r' => if Ascii.eqb c "."%char then EmptyString else String c (until_dot r')
  end.

(** [filename.rsplit('.', 1)[1]], for a [filename] with a dot in it: the
    text after the last dot. *)
Definition rsplit_dot_1 (filename : string) : string :=
  String.rev (until_dot (String.rev filename)).

Definition allowed_file (filename : string) : bool :=
  Py.contains "." filename
  && bool_decide (lower (rsplit_dot_1 filename) ∈ ALLOWED_EXTENSIONS).

(** What [process_files] ends with once the uploads are saved: the
    validation messages flashed, the exception flashed, or the redirect to
    the results page after [execute_main] has returned. *)
Inductive outcome :=
| Rejected (validation_errors : list string) (split_folder : Splitter.store)
| Failed (e : exn) (split_folder : Splitter.store)
| Results (split_folder : Splitter.store) (main : Dispatcher.outcome).

(** [process_files] from the call of [execute_split] on; [app.py] imports
    both functions from [logic.py].  [input_folder] lists the saved uploads
    and [listdir] is [os.listdir] on the split folder, whose entries are
    the device directories. *)
Definition process_files (textfsm : Loader.templates string)
    (listdir : gset string → list string) (input_path : string)
    (input_folder : list (string * string)) (split_folder : Splitter.store)
    (output_folder : gmap string file) : outcome :=
  let r := Splitter.execute_split Splitter.nxos input_path (Some input_folder)
             split_folder in
  match r.1 with
  | [] =>
      match Dispatcher.execute_main (Dispatcher.nxos_worker textfsm r.2)
              (Some (listdir (Splitter.dirs r.2))) output_folder with
      | Ok main => Results r.2 main
      | Raise e => Failed e r.2
      end
  | validation_errors => Rejected validation_errors r.2
  end.

End App.

(** ** The pipeline with its exceptions *)

Module Full.
Import Run.

(** *** [execute_split] *)

(** A regular file of the input folder: its text as the [utf-8-sig]
    decoder, or after it the [windows-1252] one, gives it, or bytes that
    neither takes. *)
Inductive content :=
| Text (data : string)
| Undecodable.

Definition open_read (dir_list : list (string * content)) (name : string)
  : option content :=
  (λ x, x.2.2) <$> list_find (λ f, f.1 = name) dir_list.

(** The characters that are operators of a regular expression. *)
Definition regex_operators : list ascii :=
  ["."; "^"; "$"; "*"; "+"; "?"; "{"; "}"; "["; "]"; "\"; "|"; "("; ")"]%char.

(** A stem that [re.split] reads as the text it is: the stem goes into
    the pattern unescaped. *)
Fixpoint literal (s : string) : bool :=
  match s with
  | EmptyString => true
  | String c s' => negb (bool_decide (c ∈ regex_operators)) && literal s'
  end.

Definition NUL : string := String "000"%char EmptyString.


(** [with open(os.path.join(device_output_dir, name), "w") as out:
    out.write(content)].  A device directory holds files only, so a path
    that goes on below a name of its own cannot be opened; where a path
    that starts with [/], [./] or [../] leads is not described, nor is a
    name longer than the file system takes. *)
Definition write_segment (name_file : string) (output_dir : Splitter.store)
    (seg : string * string) : status Splitter.store :=
  if Py.contains NUL seg.1 then Raised (ValueError (name_file +:+ "/" +:+ seg.1))
  else if Py.contains "/" seg.1 then
    if bool_decide (Py.first_piece (Py.split seg.1 "/") ∈ [""; "."; ".."])
    then Undescribed
    else Raised (OSError (name_file +:+ "/" +:+ seg.1))
  else if Nat.leb (String.length seg.1) 255 then
    Returned (Splitter.mkStore (Splitter.dirs output_dir)
                (<[(name_file, seg.1) := seg.2]> (Splitter.files output_dir)))
  else Undescribed.

(** One turn of the loop over [filenames]. *)
Definition split_file (d : Splitter.dialect) (dir_list : list (string * content))
    (acc : list string * Splitter.store) (name_file : string)
  : status (list string * Splitter.store) :=
  match open_read dir_list (name_file +:+ ".txt") with
  | None => Returned acc
  | Some Undecodable => Raised (UnicodeDecodeError (name_file +:+ ".txt"))
  | Some (Text data) =>
      match Splitter.missing_commands d data with
      | [] =>
          if literal name_file then
            output_dir ←
              foldlM (write_segment name_file)
                (Splitter.mkStore ({[name_file]} ∪ Splitter.dirs acc.2)
                   (Splitter.files acc.2))
                (Splitter.segments d name_file data);
            Returned (acc.1, output_dir)
          else Undescribed
      | missing =>
          Returned (acc.1 ++ [Splitter.error_message name_file missing], acc.2)
      end
  end.

(** [input_folder] is [None] when the path is not a directory, and
    otherwise lists the regular files of the folder, in [os.listdir]
    order; the folder holds no directory named like a capture (in a
    session of [app.py] its one directory is [split]). *)
Definition execute_split (d : Splitter.dialect) (path : string)
    (input_folder : option (list (string * content))) (output_dir : Splitter.store)
  : status (list string * Splitter.store) :=
  match input_folder with
  | None => Returned (["Input directory not found: " +:+ path], output_dir)
  | Some dir_list =>
      let filenames := (λ f, Splitter.splitext f.1) <$> dir_list in
      foldlM (split_file d dir_list) ([], output_dir) filenames
  end.

(** *** Captures on which the splitter returns *)





(** [re.split] on the prompt of a dialect. *)
Definition re_split (name_file sep data : string) : status (list string) :=
  if literal name_file then Returned (Splitter.re_split (name_file +:+ sep) data)
  else Undescribed.

(** *** The workers *)

(** The output folder, or [None] when it is not there. *)
Definition folder := option (gmap string file).

Definition lookup (output_folder : folder) (name : string) : option file :=
  files ← output_folder; files !! name.

(** [logic.py]: the folder is made before the workbook is written. *)
Definition nxos_worker (lib : library string) (source_data : Splitter.store)
    (hostname : string) (output_folder : folder) : status (option string * folder) :=
  t ← load_nxos lib source_data hostname;
  if Frame.empty (mac_address t) then Returned (Some (hostname +:+ ".xlsx"), output_folder)
  else
    match Nxos.build hostname t with
    | Raise e => Raised (RowError e)
    | Ok [] => Returned (None, output_folder)
    | Ok result =>
        if to_excel_sheets lib (hostname +:+ ".xlsx") result t
        then Returned (Some (hostname +:+ ".xlsx"),
                       Some (<[hostname +:+ ".xlsx" := Workbook result]>
                               (default ∅ output_folder)))
        else Raised (ExcelError (hostname +:+ ".xlsx"))
    end.

(** [logic_xe.py]: the folder is not made. *)
Definition xe_worker (lib : library value) (source_data : Splitter.store)
    (hostname : string) (output_folder : folder) : status (option string * folder) :=
  let t := load_xe lib source_data hostname in
  if Frame.empty (mac_address t) then Returned (None, output_folder)
  else
    match (Xe.build hostname t).1 with
    | [] => Returned (None, output_folder)
    | result =>
        match output_folder with
        | None => Raised (OSError (hostname +:+ ".xlsx"))
        | Some files =>
            if to_excel lib (hostname +:+ ".xlsx") result
            then Returned (Some (hostname +:+ ".xlsx"),
                           Some (<[hostname +:+ ".xlsx" := Workbook result]> files))
            else Raised (ExcelError (hostname +:+ ".xlsx"))
        end
    end.

(** *** [execute_main] *)

(** [pool.map]: the results in the order of the tasks when every worker
    returns, and otherwise the exception of one of the workers that
    raised. *)
Fixpoint pool_map (worker : string → folder → status (option string * folder))
    (hostnames : list string) (output_folder : folder)
  : status (list (option string) * folder) :=
  match hostnames with
  | [] => Returned ([], output_folder)
  | hostname :: hostnames' =>
      match worker hostname output_folder with
      | Returned r =>
          rs ← pool_map worker hostnames' r.2;
          Returned (r.1 :: rs.1, rs.2)
      | Raised _ => Raised WorkerError
      | Undescribed => Undescribed
      end
  end.

(** [pd.read_excel(filepath, sheet_name='Final Data')]; [None] stands for
    the exception it raises on a missing or unreadable file. *)
Definition read_excel {P} (lib : library P) (output_folder : folder) (filename : string)
  : option (list PortRecord) :=
  match lookup output_folder filename with
  | Some (Workbook df) => Some (read_back lib df)
  | _ => None
  end.

(** One turn of the read-back loop over [results]. *)
Definition read_step {P} (lib : library P) (output_folder : folder)
    (acc : list (list PortRecord) * list Aggregator.diagnostic) (result : option string)
  : list (list PortRecord) * list Aggregator.diagnostic :=
  match Aggregator.truthy result with
  | None => acc
  | Some filename =>
      match read_excel lib output_folder filename with
      | Some df_single => (acc.1 ++ [df_single], acc.2)
      | None => (acc.1, acc.2 ++ [Aggregator.Could_not_read filename])
      end
  end.

Inductive outcome :=
| Source_not_found
| Finished (output_folder : folder) (log : list Aggregator.diagnostic).

(** The aggregation; the final report is written outside any [try]. *)
Definition aggregate {P} (lib : library P) (results : list (option string))
    (output_folder : folder) : status outcome :=
  let '(all_device_data, log) := foldl (read_step lib output_folder) ([], []) results in
  match all_device_data with
  | [] => Returned (Finished output_folder (log ++ [Aggregator.No_data_was_aggregated]))
  | _ =>
      let final_df := Aggregator.backfill (concat all_device_data) in
      match output_folder with
      | None => Raised (OSError "Final_Report.xlsx")
      | Some files =>
          if to_excel lib "Final_Report.xlsx" final_df
          then Returned
                 (Finished (Some (<["Final_Report.xlsx" := Workbook final_df]> files))
                    (log ++ [Aggregator.Successfully_created "Final_Report.xlsx"]))
          else Raised (ExcelError "Final_Report.xlsx")
      end
  end.

Definition execute_main {P} (lib : library P)
    (worker : string → folder → status (option string * folder))
    (hostnames : option (list string)) (output_folder : folder) : status outcome :=
  match hostnames with
  | None => Returned Source_not_found
  | Some hostnames =>
      r ← pool_map worker hostnames output_folder;
      aggregate lib r.1 r.2
  end.

(** *** [process_files] *)

(** What [process_files] ends with once the uploads are saved: the
    validation messages flashed, the exception flashed, or the redirect to
    the results page. *)
Inductive response :=
| Rejected (validation_errors : list string) (split_folder : Splitter.store)
| Failed (e : error)
| Results (split_folder : Splitter.store) (main : outcome).

(** [execute_main] within the [try] of [process_files]: an exception is
    flashed, and otherwise the results page is served. *)
Definition guarded (split_folder : Splitter.store) (main : status outcome)
  : status response :=
  match main with
  | Returned main => Returned (Results split_folder main)
  | Raised e => Returned (Failed e)
  | Undescribed => Undescribed
  end.

(** [process_files] from the call of [execute_split] on; both calls stand
    in one [try] whose handler flashes the exception.  [input_folder]
    lists the saved uploads, [listdir] is [os.listdir] on the split
    folder, and the output folder has been made. *)
Definition process_files (lib : library string) (listdir : gset string → list string)
    (input_path : string) (input_folder : list (string * content))
    (split_folder : Splitter.store) (output_folder : gmap string file)
  : status response :=
  match execute_split Splitter.nxos input_path (Some input_folder) split_folder with
  | Returned ([], split_folder) =>
      guarded split_folder
        (execute_main lib (nxos_worker lib split_folder)
           (Some (listdir (Splitter.dirs split_folder))) (Some output_folder))
  | Returned (validation_errors, split_folder) =>
      Returned (Rejected validation_errors split_folder)
  | Raised e => Returned (Failed e)
  | Undescribed => Undescribed
  end.

(** *** Closed forms *)

(** The records of one device, and what its worker returns. *)
Definition nxos_records (lib : library string) (source_data : Splitter.store)
    (hostname : string) : list PortRecord :=
  Report.nxos_records (textfsm lib) source_data hostname.

Definition xe_records (lib : library value) (source_data : Splitter.store)
    (hostname : string) : list PortRecord :=
  let t := load_xe lib source_data hostname in
  Plain.xe_record hostname t <$> filter Plain.xe_kept (mac_address t).

(** The worker of the device meets no exception: the engine returns and
    the writer takes the sheets of the workbook, if there are records. *)
Definition nxos_quiet (lib : library string) (source_data : Splitter.store)
    (hostname : string) : bool :=
  parses lib source_data hostname
  && match nxos_records lib source_data hostname with
     | [] => true
     | rows => to_excel_sheets lib (hostname +:+ ".xlsx") rows
                 (Loader.load (textfsm lib) source_data hostname)
     end.

Definition xe_quiet (lib : library value) (source_data : Splitter.store)
    (hostname : string) : bool :=
  match xe_records lib source_data hostname with
  | [] => true
  | rows => to_excel lib (hostname +:+ ".xlsx") rows
  end.

(** The sheets the read-back finds after the workers: what the library
    reads back from the workbook of each device with records. *)
Definition frames {P} (lib : library P) (records : string → list PortRecord)
    (hostnames : list string) : list (list PortRecord) :=
  omap (λ hostname, match records hostname with
                    | [] => None
                    | rows => Some (read_back lib rows)
                    end) hostnames.

(** The sheets the NX-OS read-back finds whatever the folder held: for a
    device with an empty MAC table, the workbook of its name that the
    folder held before. *)
Definition nxos_frames (lib : library string) (source_data : Splitter.store)
    (files : gmap string file) (hostnames : list string) : list (list PortRecord) :=
  omap (λ hostname,
          match nxos_records lib source_data hostname with
          | [] =>
              match mac_address (Loader.load (textfsm lib) source_data hostname) with
              | [] => read_excel lib (Some files) (hostname +:+ ".xlsx")
              | _ => None
              end
          | rows => Some (read_back lib rows)
          end) hostnames.

(** What the aggregation ends with, from the sheets it has read. *)
Definition report {P} (lib : library P) (frames : list (list PortRecord))
    (files : gmap string file) (log : list Aggregator.diagnostic) : status outcome :=
  match frames with
  | [] => Returned (Finished (Some files) (log ++ [Aggregator.No_data_was_aggregated]))
  | _ =>
      let final_df := Aggregator.backfill (concat frames) in
      if to_excel lib "Final_Report.xlsx" final_df
      then Returned
             (Finished (Some (<["Final_Report.xlsx" := Workbook final_df]> files))
                (log ++ [Aggregator.Successfully_created "Final_Report.xlsx"]))
      else Raised (ExcelError "Final_Report.xlsx")
  end.

End Full.

(** ** More sample inputs *)

Module Inputs.

(** A port-channel whose members have no CDP neighbor, beside a port that
    has one. *)
Definition lonely_tables : tables string :=
  mkTables
    [Mac.mkRow "Po2" "0011.2233.4488" "30"]
    []
    []
    []
    [PortChannel.mkRow "Po2" (VList ["Eth1/5"; "Eth1/6"])]
    []
    [Cdp.mkRow "Eth1/9" "swC" "N9K-C9336C" "Eth1/1"]
    []
    [].

Definition po2_row : Mac.row string := Mac.mkRow "Po2" "0011.2233.4488" "30".

(** A grammar engine that answers with the rows of given tables whatever
    the text is. *)
Definition fixed_templates {P} (t : tables P) : Loader.templates P :=
  Loader.mkTemplates (λ _, mac_address t) (λ _, ip_arp t) (λ _, interface_description t)
    (λ _, inventory t) (λ _, port_channel_summary t) (λ _, interface_status t)
    (λ _, cdp_neighbors t) (λ _, lldp_neighbors t) (λ _, interface_trunk t).

(** An engine that finds no row anywhere. *)
Definition no_rows : Loader.templates string :=
  fixed_templates (mkTables [] [] [] [] [] [] [] [] []).

(** The two uploads as files of the input folder. *)
Definition uploads : list (string * Full.content) :=
  (λ f : string * string, (f.1, Full.Text f.2)) <$> Sample.uploads.


(** A capture with the nine commands and one more, on an interface whose
    name has a [/]. *)
Definition capture_with_slash : string :=
  Sample.capture "sw1"
    (Splitter.required_commands Splitter.nxos ++ ["show interface Ethernet1/1"]).

(** A library that raises nowhere, on the tables of the NX-OS sample. *)
Definition nxos_library : Run.library string :=
  Run.ideal (fixed_templates Sample.nxos_tables).

Definition xe_library : Run.library value :=
  Run.ideal (fixed_templates Sample.xe_tables).

End Inputs.

(** * Properties *)

(** ** Python primitives *)

Lemma dict_fold_lookup `{Countable K} {V} (pairs : list (K * V)) (d : gmap K V) (k : K) :
  foldl (λ d kv, <[kv.1 := kv.2]> d) d pairs !! k =
  match last (omap (λ kv, if decide (kv.1 = k) then Some kv.2 else None) pairs) with
  | Some v => Some v
  | None => d !! k
  end.
Proof.
  revert d. induction pairs as [|[k' v] pairs IH]; intros d; simpl; [done|].
  rewrite IH. destruct (decide (k' = k)) as [->|Hne]; simpl.
  - rewrite last_cons. destruct (last _); [done|]. by rewrite lookup_insert_eq.
  - destruct (last _); [done|]. by rewrite lookup_insert_ne.
Qed.

Lemma dict_lookup `{Countable K} {V} (pairs : list (K * V)) (k : K) :
  Py.dict pairs !! k =
  last (omap (λ kv, if decide (kv.1 = k) then Some kv.2 else None) pairs).
Proof.
  unfold Py.dict. rewrite dict_fold_lookup, lookup_empty. by destruct (last _).
Qed.

(** ** Aggregator *)

Lemma mac_to_ip_lookup (final_df : list PortRecord) (mac : string) :
  Aggregator.mac_to_ip final_df !! mac = Plain.last_ip final_df mac.
Proof.
  unfold Aggregator.mac_to_ip, Plain.last_ip, Plain.ips_of. rewrite dict_lookup. f_equal.
  induction final_df as [|r df IH]; [done|].
  cbn [omap list_omap]. destruct (IP_Address r) as [ip|]; cbn [mbind option_bind fst snd].
  - cbn [omap list_omap fst snd]. rewrite IH. by destruct (decide (Mac_Address r = mac)).
  - rewrite IH. by destruct (decide (Mac_Address r = mac)).
Qed.

Lemma backfill_map (final_df : list PortRecord) :
  Aggregator.backfill final_df =
    (λ r, match IP_Address r with
          | Some _ => r
          | None => set_IP_Address (Plain.last_ip final_df (Mac_Address r)) r
          end) <$> final_df.
Proof.
  unfold Aggregator.backfill, Aggregator.fillna. apply map_ext. intros r.
  destruct (IP_Address r); [done|]. by rewrite mac_to_ip_lookup.
Qed.

(** C1, as amended.  The MAC-to-IP mapping is built from the rows whose IP
    address is present, and a duplicate MAC address keeps the IP of the
    LATER row; every row without IP address receives the mapping's value
    for its MAC address, and the rows with an IP address are unchanged. *)
Theorem backfill_last_writer_wins (final_df : list PortRecord) :
  (∀ mac, Aggregator.mac_to_ip final_df !! mac = Plain.last_ip final_df mac) ∧
  Aggregator.backfill final_df =
    (λ r, match IP_Address r with
          | Some _ => r
          | None => set_IP_Address (Plain.last_ip final_df (Mac_Address r)) r
          end) <$> final_df.
Proof. split; [apply mac_to_ip_lookup|apply backfill_map]. Qed.

(** C1, as stated, fails: with two present IP addresses on one MAC address
    the mapping holds the second one, not the first, and that is the one
    the third row is filled with. *)
Lemma backfill_first_writer_counterexample :
  Spec.first_ip Sample.two_ips_then_none "0011.2233.4455" = Some "10.0.0.1" ∧
  Aggregator.mac_to_ip Sample.two_ips_then_none !! "0011.2233.4455" = Some "10.0.0.2" ∧
  IP_Address <$> Aggregator.backfill Sample.two_ips_then_none
    = [Some "10.0.0.1"; Some "10.0.0.2"; Some "10.0.0.2"] ∧
  Aggregator.mac_to_ip Sample.two_ips_then_none !! "0011.2233.4455"
    ≠ Spec.first_ip Sample.two_ips_then_none "0011.2233.4455".
Proof. vm_compute. repeat split; congruence. Qed.

Lemma elem_of_ips_of (final_df : list PortRecord) (mac ip : string) :
  ip ∈ Plain.ips_of final_df mac ↔
  ∃ r, r ∈ final_df ∧ Mac_Address r = mac ∧ IP_Address r = Some ip.
Proof.
  unfold Plain.ips_of. rewrite list_elem_of_omap. split.
  - intros (r & Hr & Hip). exists r. by destruct (decide (Mac_Address r = mac)).
  - intros (r & Hr & Hmac & Hip). exists r. split; [done|].
    by destruct (decide (Mac_Address r = mac)).
Qed.

Lemma last_ip_unique (final_df : list PortRecord) (r : PortRecord) (ip : string) :
  r ∈ final_df → IP_Address r = Some ip →
  (∀ r' ip', r' ∈ final_df → Mac_Address r' = Mac_Address r →
             IP_Address r' = Some ip' → ip' = ip) →
  Plain.last_ip final_df (Mac_Address r) = Some ip.
Proof.
  intros Hr Hip Hall. unfold Plain.last_ip.
  destruct (last (Plain.ips_of final_df (Mac_Address r))) as [ip'|] eqn:Hlast.
  - f_equal. apply last_Some_elem_of in Hlast.
    apply elem_of_ips_of in Hlast as (r' & Hr' & Hmac & Hip'). eauto.
  - apply last_None in Hlast.
    assert (ip ∈ Plain.ips_of final_df (Mac_Address r)) as Hin
      by (apply elem_of_ips_of; eauto).
    rewrite Hlast in Hin. by apply elem_of_nil in Hin.
Qed.

Lemma backfill_lookup (final_df : list PortRecord) (i : nat) :
  Aggregator.backfill final_df !! i =
  (λ r, match IP_Address r with
        | Some _ => r
        | None => set_IP_Address (Plain.last_ip final_df (Mac_Address r)) r
        end) <$> final_df !! i.
Proof.
  rewrite backfill_map. apply list_lookup_fmap.
Qed.

(** C8, as amended.  Two rows share a MAC address, exactly one of them
    has an IP address, and no row of the input carries another IP address
    for that MAC address: after the backfill both rows carry that IP
    address. *)
Theorem backfill_shared_mac (final_df : list PortRecord) (i j : nat)
    (ri rj : PortRecord) (ip : string) :
  final_df !! i = Some ri → final_df !! j = Some rj →
  Mac_Address ri = Mac_Address rj →
  IP_Address ri = Some ip → IP_Address rj = None →
  (∀ r ip', r ∈ final_df → Mac_Address r = Mac_Address ri →
            IP_Address r = Some ip' → ip' = ip) →
  IP_Address <$> Aggregator.backfill final_df !! i = Some (Some ip) ∧
  IP_Address <$> Aggregator.backfill final_df !! j = Some (Some ip).
Proof.
  intros Hi Hj Hmac Hipi Hipj Hall. rewrite !backfill_lookup, Hi, Hj. simpl.
  rewrite Hipi, Hipj. split; [by rewrite Hipi|]. simpl. do 2 f_equal.
  rewrite <- Hmac. apply last_ip_unique; [by eapply list_elem_of_lookup_2|done|done].
Qed.

Lemma backfill_shared_mac_witness :
  IP_Address <$> Aggregator.backfill Sample.scenario_C !! 0 = Some (Some "10.0.0.1") ∧
  IP_Address <$> Aggregator.backfill Sample.scenario_C !! 1 = Some (Some "10.0.0.1").
Proof.
  apply (backfill_shared_mac Sample.scenario_C 0 1
           (Sample.port_row "sw1" "Eth1/1" "0011.2233.4455" (Some "10.0.0.1"))
           (Sample.port_row "sw2" "Eth1/7" "0011.2233.4455" None) "10.0.0.1");
    try reflexivity.
  intros r ip' Hr _ Hip. unfold Sample.scenario_C in Hr.
  repeat (apply elem_of_cons in Hr as [->|Hr]); simpl in Hip;
    [congruence|congruence|by apply elem_of_nil in Hr].
Defined.

(** C8, as stated, fails: the first two rows share a MAC address and only
    the first has an IP address, yet the second row is filled with the IP
    address of a third row. *)
Lemma backfill_shared_mac_counterexample :
  Mac_Address <$> Sample.ip_none_other_ip !! 0 = Mac_Address <$> Sample.ip_none_other_ip !! 1 ∧
  IP_Address <$> Sample.ip_none_other_ip !! 0 = Some (Some "10.0.0.1") ∧
  IP_Address <$> Sample.ip_none_other_ip !! 1 = Some None ∧
  IP_Address <$> Aggregator.backfill Sample.ip_none_other_ip !! 1 = Some (Some "10.0.0.2") ∧
  IP_Address <$> Aggregator.backfill Sample.ip_none_other_ip !! 1 ≠ Some (Some "10.0.0.1").
Proof. vm_compute. repeat split; congruence. Qed.

Lemma read_loop (output_folder : gmap string file) (results : list (option string))
    (acc : list (list PortRecord) * list Aggregator.diagnostic) :
  foldl (Aggregator.read_step output_folder) acc results =
  (acc.1 ++ Plain.readable output_folder results,
   acc.2 ++ Plain.unreadable output_folder results).
Proof.
  revert acc. induction results as [|r results IH]; intros [frames log]; simpl.
  - by rewrite !app_nil_r.
  - rewrite IH. unfold Aggregator.read_step, Plain.readable, Plain.unreadable. simpl.
    destruct (Aggregator.truthy r) as [filename|]; simpl; [|done].
    destruct (Aggregator.read_excel output_folder filename); simpl;
      by rewrite <- ?app_assoc.
Qed.


(** Each artifact a worker has named and the loop cannot read is in the
    reports of the pass. *)
Lemma unreadable_reported (results : list (option string))
    (output_folder : gmap string file) (filename : string) :
  Some filename ∈ results → filename ≠ "" →
  Aggregator.read_excel output_folder filename = None →
  Aggregator.Could_not_read filename ∈ (Aggregator.aggregate results output_folder).2.
Proof.
  intros Hin Hne Hread.
  assert (Aggregator.Could_not_read filename ∈ Plain.unreadable output_folder results)
    as Hbad.
  { apply list_elem_of_omap. exists (Some filename). split; [done|].
    destruct filename; [done|]. simpl. by rewrite Hread. }
  unfold Aggregator.aggregate. rewrite read_loop. simpl.
  destruct (Plain.readable output_folder results);
    simpl; apply elem_of_app; by left.
Qed.

(** ** Segment Splitter *)

Section splitter.
Import Splitter.

Lemma dict_fold_union `{Countable K} {V} (pairs : list (K * V)) (m : gmap K V) :
  foldl (λ d kv, <[kv.1 := kv.2]> d) m pairs = Py.dict pairs ∪ m.
Proof.
  apply map_eq. intros k. rewrite lookup_union, dict_lookup, dict_fold_lookup.
  destruct (last _), (m !! k); done.
Qed.

Lemma write_segments_union (name_file : string) (segs : list (string * string)) (st : store) :
  write_segments name_file segs st =
  mkStore ({[name_file]} ∪ dirs st)
    (Py.dict ((λ seg, ((name_file, seg.1), seg.2)) <$> segs) ∪ files st).
Proof.
  unfold write_segments. rewrite <- dict_fold_union.
  generalize (files st) as F. generalize ({[name_file]} ∪ dirs st) as D.
  induction segs as [|seg segs IH]; intros D F; simpl; [done|]. apply IH.
Qed.

Lemma split_file_acts (d : dialect) (dir_list : list (string * string)) (name_file : string) :
  ∃ msgs D W, Plain.acts_as (λ acc, split_file d dir_list acc name_file) msgs D W.
Proof.
  unfold split_file.
  destruct (open_read dir_list (name_file +:+ ".txt")) as [data|].
  - destruct (missing_commands d data) as [|m ms].
    + eexists [], _, _. intros [msgs st]. simpl.
      by rewrite app_nil_r, write_segments_union.
    + eexists [_], ∅, ∅. intros [msgs [D F]]. simpl.
      by rewrite !(left_id_L ∅ (∪)).
  - eexists [], ∅, ∅. intros [msgs [D F]]. simpl.
    by rewrite app_nil_r, !(left_id_L ∅ (∪)).
Qed.

Lemma split_loop_acts (d : dialect) (dir_list : list (string * string))
    (filenames : list string) :
  ∃ msgs D W, Plain.acts_as (λ acc, foldl (split_file d dir_list) acc filenames) msgs D W.
Proof.
  induction filenames as [|name_file filenames (msgs2 & D2 & W2 & IH)]; simpl.
  - eexists [], ∅, ∅. intros [msgs [D F]]. simpl.
    by rewrite app_nil_r, !(left_id_L ∅ (∪)).
  - destruct (split_file_acts d dir_list name_file) as (msgs1 & D1 & W1 & H1).
    exists (msgs1 ++ msgs2), (D2 ∪ D1), (W2 ∪ W1). intros acc.
    rewrite H1, IH. simpl. by rewrite !(assoc_L (∪)), (assoc_L (++)).
Qed.







Lemma prefix_nil (s : string) : String.prefix "" s = true.
Proof. by destruct s. Qed.

Lemma prefix_app (x s t : string) :
  String.prefix x s = true → String.prefix x (s +:+ t) = true.
Proof.
  revert s. induction x as [|c x IH]; intros s; [intros _; apply prefix_nil|].
  destruct s as [|c' s]; simpl; [done|].
  destruct (ascii_dec c c'); [apply IH|done].
Qed.


Lemma contains_cons (x : string) (c : ascii) (s : string) :
  Py.contains x (String c s)
  = if String.prefix x (String c s) then true else Py.contains x s.
Proof. done. Qed.

Lemma contains_prefix (x s : string) : String.prefix x s = true → Py.contains x s = true.
Proof. intros H. destruct s; [by destruct x|]. by rewrite contains_cons, H. Qed.

Lemma contains_app_l (x s t : string) :
  Py.contains x s = true → Py.contains x (s +:+ t) = true.
Proof.
  induction s as [|c s IH].
  - destruct x; [intros _|done]. apply contains_prefix, prefix_nil.
  - change (String c s +:+ t) with (String c (s +:+ t)). rewrite !contains_cons.
    destruct (String.prefix x (String c s)) eqn:Hp.
    + intros _. apply (prefix_app _ _ t) in Hp.
      change (String c s +:+ t) with (String c (s +:+ t)) in Hp. by rewrite Hp.
    + intros H. rewrite (IH H). by destruct (String.prefix x (String c (s +:+ t))).
Qed.

Lemma contains_app_r (x s t : string) :
  Py.contains x t = true → Py.contains x (s +:+ t) = true.
Proof.
  intros H. induction s as [|c s IH]; [done|].
  change (String c s +:+ t) with (String c (s +:+ t)). rewrite contains_cons, IH.
  by destruct (String.prefix x _).
Qed.






(** C9.  Splitting again from the same input folder into the directory the
    first run has filled leaves every segment file, every device directory
    and the returned messages as the first run made them; this holds for
    the NX-OS splitter and for the IOS-XE one. *)
Theorem execute_split_idempotent (d : dialect) (path : string)
    (input_folder : option (list (string * string))) (output_dir : store) :
  execute_split d path input_folder (execute_split d path input_folder output_dir).2
  = execute_split d path input_folder output_dir.
Proof.
  unfold execute_split. destruct input_folder as [dir_list|]; [|done].
  destruct (split_loop_acts d dir_list ((λ f, splitext f.1) <$> dir_list))
    as (msgs & D & W & Hloop).
  rewrite !Hloop. simpl. f_equal. f_equal.
  - by rewrite (assoc_L (∪)), (idemp_L (∪)).
  - by rewrite (assoc_L (∪)), (idemp_L (∪)).
Qed.

End splitter.

(** ** Port Record Builder *)

(** A guarded selection never raises: on a frame without rows the guard
    answers, on the others the columns are there. *)
Lemma guarded_loc {T A} (df : list T) (key_name : string) (key : T → string)
    (k : string) (col : T → A) :
  (if negb (Frame.empty df) then Frame.loc df key_name key k col else Ok [])
  = Ok (Plain.cells df key k col).
Proof. by destruct df. Qed.

(** Without its guard the same selection raises on a frame without rows. *)
Lemma loc_empty_raises {T A} (key_name : string) (key : T → string) (k : string)
    (col : T → A) :
  Frame.loc [] key_name key k col = Raise (KeyError key_name).
Proof. done. Qed.

Lemma ip_lookup_ok (ip_arp : list Arp.row) (mac : string) :
  Builder.ip_lookup ip_arp mac
  = Ok (Plain.first_cell ip_arp Arp.MAC_ADDRESS mac Arp.IP_ADDRESS).
Proof. unfold Builder.ip_lookup. by rewrite guarded_loc. Qed.

Lemma desc_lookup_ok (interface_description : list Descr.row) (port : string) :
  Builder.desc_lookup interface_description port
  = Ok (Plain.first_cell interface_description Descr.PORT port Descr.DESCRIPTION).
Proof. unfold Builder.desc_lookup. by rewrite guarded_loc. Qed.

Lemma sfp_port_ok (interface_status : list Status.row) (port : string) :
  Builder.sfp_port interface_status port
  = Ok (Plain.first_cell interface_status Status.PORT port Status.TYPE).
Proof. unfold Builder.sfp_port. by rewrite guarded_loc. Qed.

Lemma sfp_member_ok (interface_status : list Status.row) (member_po : string) :
  Builder.sfp_member interface_status member_po
  = Ok (if Builder.nonempty member_po
        then Plain.first_cell interface_status Status.PORT
               (Py.first_piece (Py.split member_po ",")) Status.TYPE
        else None).
Proof.
  unfold Builder.sfp_member. destruct interface_status; [by destruct (Builder.nonempty _)|].
  by destruct (Builder.nonempty member_po).
Qed.

Lemma trunk_access_lookup_ok (interface_status : list Status.row) (port : string) :
  Builder.trunk_access_lookup interface_status port
  = Ok (Plain.trunk_access interface_status port).
Proof. unfold Builder.trunk_access_lookup. by rewrite guarded_loc. Qed.

Lemma lldp_lookup_ok (lldp_neighbors : list Lldp.row) (port : string) :
  Builder.lldp_lookup lldp_neighbors port = Ok (Plain.lldp lldp_neighbors port).
Proof.
  unfold Builder.lldp_lookup, Plain.lldp.
  destruct lldp_neighbors as [|r l]; [by destruct (Py.startswith port "Po")|].
  destruct (Py.startswith port "Po"); [done|]. simpl.
  unfold Plain.first_cell, Plain.cells. by destruct (head _) as [[n i]|].
Qed.

Lemma allowed_vlan_lookup_ok (interface_trunk : list Trunk.row) (port : string) :
  Builder.allowed_vlan_lookup interface_trunk port
  = Ok (Plain.allowed_vlan interface_trunk port).
Proof.
  unfold Builder.allowed_vlan_lookup, Plain.allowed_vlan.
  destruct interface_trunk as [|r l]; [done|]. simpl.
  unfold Plain.first_cell, Plain.cells.
  destruct (head _) as [[[|c s]|[|x l']]|]; done.
Qed.

Lemma value_join_falsy (sep : string) (v : value) :
  Value.truthy v = false → Value.join sep v = "".
Proof. by destruct v as [[|c s]|[|x l]]. Qed.

Lemma nxos_sn_lookup_ok (inventory : list Inventory.row) :
  Nxos.sn_lookup inventory
  = Ok (Plain.first_cell inventory Inventory.NAME "Chassis" Inventory.SN).
Proof. unfold Nxos.sn_lookup. by rewrite guarded_loc. Qed.

Lemma xe_sn_lookup_ok (inventory : list Inventory.row) :
  Xe.sn_lookup inventory = Ok (head (Inventory.SN <$> inventory)).
Proof. by destruct inventory. Qed.

Lemma nxos_member_po_lookup_ok (port_channel_summary : list PortChannel.row) (port : string) :
  Nxos.member_po_lookup port_channel_summary port
  = Ok (Plain.member_po port_channel_summary port).
Proof.
  unfold Nxos.member_po_lookup, Plain.member_po. rewrite guarded_loc. simpl.
  unfold Plain.first_cell. destruct (head _) as [v|]; [|done].
  destruct (Value.truthy v) eqn:Hv; [done|]. by rewrite value_join_falsy.
Qed.

Lemma xe_member_po_lookup_ok (port_channel_summary : list PortChannel.row) (port : string) :
  Xe.member_po_lookup port_channel_summary port
  = Ok (Plain.member_po port_channel_summary port).
Proof. unfold Xe.member_po_lookup. by rewrite guarded_loc. Qed.

Lemma nonempty_ne (s : string) : Builder.nonempty s = true ↔ s ≠ "".
Proof. by destruct s. Qed.

Lemma nxos_cdp_step_ok (cdp_neighbors : list Cdp.row) (acc : string * string * string)
    (intf : string) :
  cdp_neighbors ≠ [] →
  Nxos.cdp_step cdp_neighbors acc intf
  = Ok (foldl Plain.cdp_update acc
          (Plain.cdp_hits cdp_neighbors (filter (λ intf, intf ≠ "") [intf]))).
Proof.
  intros Hne. unfold Nxos.cdp_step. destruct intf as [|c intf]; [done|].
  rewrite filter_cons_True by done. rewrite filter_nil.
  cbn [Builder.nonempty negb]. unfold Builder.cdp_loc, Frame.loc.
  destruct cdp_neighbors as [|r0 cdp]; [done|]. cbn [mbind result_bind]. f_equal.
  unfold Plain.cdp_hits. cbn [omap list_omap].
  unfold Plain.first_cell, Plain.cells, Plain.cdp_triple.
  destruct (head _) as [[[name platform] interface]|]; [|done].
  destruct acc as [[h p] i]. cbn [foldl]. unfold Plain.cdp_update. simpl.
  by destruct (Py.contains name h), (Py.contains platform p).
Qed.

Lemma cdp_hits_app (cdp_neighbors : list Cdp.row) (l1 l2 : list string) :
  Plain.cdp_hits cdp_neighbors (l1 ++ l2)
  = Plain.cdp_hits cdp_neighbors l1 ++ Plain.cdp_hits cdp_neighbors l2.
Proof. unfold Plain.cdp_hits. apply omap_app. Qed.

(** The loop over the members, when the CDP table has rows. *)
Lemma nxos_cdp_loop (cdp_neighbors : list Cdp.row) (interfaces : list string)
    (acc : string * string * string) :
  cdp_neighbors ≠ [] →
  foldlM (Nxos.cdp_step cdp_neighbors) acc interfaces
  = Ok (foldl Plain.cdp_update acc
          (Plain.cdp_hits cdp_neighbors (filter (λ intf, intf ≠ "") interfaces))).
Proof.
  intros Hne. revert acc. induction interfaces as [|intf interfaces IH]; intros acc; [done|].
  cbn [foldlM]. rewrite nxos_cdp_step_ok by done. cbn [mbind result_bind]. rewrite IH.
  f_equal. change (intf :: interfaces) with ([intf] ++ interfaces).
  by rewrite filter_app, cdp_hits_app, foldl_app.
Qed.

Lemma nxos_cdp_lookup_ok (cdp_neighbors : list Cdp.row) (port member_po : string) :
  Nxos.cdp_lookup cdp_neighbors port member_po
  = Ok (Plain.cdp_nxos cdp_neighbors port member_po).
Proof.
  unfold Nxos.cdp_lookup, Plain.cdp_nxos.
  destruct cdp_neighbors as [|r0 cdp]; [done|].
  cbn [Frame.empty negb]. destruct (Py.startswith port "Po").
  - rewrite nxos_cdp_loop by done. cbn [mbind result_bind].
    by destruct (foldl _ _ _) as [[h p] i].
  - unfold Builder.cdp_loc, Frame.loc. cbn [mbind result_bind].
    unfold Plain.first_cell, Plain.cells, Plain.cdp_triple.
    by destruct (head _) as [[[name platform] interface]|].
Qed.

Lemma xe_cdp_lookup_ok (cdp_neighbors : list Cdp.row) (port member_po : string) :
  Xe.cdp_lookup cdp_neighbors port member_po
  = Ok (Plain.cdp_xe cdp_neighbors port member_po).
Proof.
  unfold Xe.cdp_lookup, Plain.cdp_xe.
  destruct cdp_neighbors as [|r0 cdp]; [|done].
  by destruct (Py.startswith port "Po" && Builder.nonempty member_po).
Qed.

Lemma nxos_process_row_ok (hostname : string) (t : tables string) (row : Mac.row string) :
  Nxos.process_row hostname t row
  = if Py.contains "vPC" (Mac.PORTS row) then Ok None
    else Ok (Some (Plain.nxos_record hostname t row)).
Proof.
  unfold Nxos.process_row. destruct (Py.contains "vPC" (Mac.PORTS row)); [done|].
  rewrite nxos_sn_lookup_ok, ip_lookup_ok, desc_lookup_ok. cbn [mbind result_bind].
  unfold Plain.nxos_record, Plain.port_record, Plain.sfp, Plain.type_cable.
  destruct (Py.startswith (Mac.PORTS row) "Po") eqn:Hpo.
  - rewrite nxos_member_po_lookup_ok. cbn [mbind result_bind].
    rewrite sfp_member_ok. cbn [mbind result_bind].
    rewrite trunk_access_lookup_ok, nxos_cdp_lookup_ok, lldp_lookup_ok,
      allowed_vlan_lookup_ok. done.
  - rewrite sfp_port_ok. cbn [mbind result_bind].
    rewrite trunk_access_lookup_ok, nxos_cdp_lookup_ok, lldp_lookup_ok,
      allowed_vlan_lookup_ok. done.
Qed.

Lemma xe_process_row_ok (hostname : string) (t : tables value) (row : Mac.row value) :
  Xe.process_row hostname t row
  = if Value.contains "CPU" (Mac.PORTS row) then Ok None
    else if negb (Builder.nonempty (Value.first (Mac.PORTS row))) then Ok None
    else Ok (Some (Plain.xe_record hostname t row)).
Proof.
  unfold Xe.process_row. destruct (Value.contains "CPU" (Mac.PORTS row)); [done|].
  destruct (negb (Builder.nonempty (Value.first (Mac.PORTS row)))); [done|].
  rewrite xe_sn_lookup_ok, ip_lookup_ok, desc_lookup_ok. cbn [mbind result_bind].
  unfold Plain.xe_record, Plain.port_record, Plain.sfp, Plain.type_cable.
  destruct (Py.startswith (Value.first (Mac.PORTS row)) "Po") eqn:Hpo.
  - rewrite xe_member_po_lookup_ok. cbn [mbind result_bind].
    rewrite sfp_member_ok. cbn [mbind result_bind].
    rewrite trunk_access_lookup_ok, xe_cdp_lookup_ok, lldp_lookup_ok,
      allowed_vlan_lookup_ok. done.
  - rewrite sfp_port_ok. cbn [mbind result_bind].
    rewrite trunk_access_lookup_ok, xe_cdp_lookup_ok, lldp_lookup_ok,
      allowed_vlan_lookup_ok. done.
Qed.

Lemma nxos_build_loop (hostname : string) (t : tables string)
    (rows : list (Mac.row string)) (result : list PortRecord) :
  foldlM (λ result row,
            r ← Nxos.process_row hostname t row;
            Ok (match r with Some rec => result ++ [rec] | None => result end))
    result rows
  = Ok (result ++ (Plain.nxos_record hostname t <$> filter Plain.nxos_kept rows)).
Proof.
  revert result. induction rows as [|row rows IH]; intros result.
  - simpl. by rewrite app_nil_r.
  - cbn [foldlM]. rewrite nxos_process_row_ok.
    destruct (Py.contains "vPC" (Mac.PORTS row)) eqn:Hv; cbn [mbind result_bind]; rewrite IH.
    + rewrite filter_cons_False; [done|]. unfold Plain.nxos_kept. by rewrite Hv.
    + rewrite filter_cons_True by done. by rewrite <- app_assoc.
Qed.

Lemma nxos_build_ok (hostname : string) (t : tables string) :
  Nxos.build hostname t
  = Ok (Plain.nxos_record hostname t <$> filter Plain.nxos_kept (mac_address t)).
Proof. unfold Nxos.build. by rewrite nxos_build_loop. Qed.

Lemma xe_build_loop (hostname : string) (t : tables value)
    (rows : list (Mac.row value)) (acc : list PortRecord * list exn) :
  foldl (λ acc row,
           match Xe.process_row hostname t row with
           | Ok (Some rec) => (acc.1 ++ [rec], acc.2)
           | Ok None => acc
           | Raise e => (acc.1, acc.2 ++ [e])
           end)
    acc rows
  = (acc.1 ++ (Plain.xe_record hostname t <$> filter Plain.xe_kept rows), acc.2).
Proof.
  revert acc. induction rows as [|row rows IH]; intros [result log].
  - simpl. by rewrite app_nil_r.
  - cbn [foldl]. rewrite IH, xe_process_row_ok.
    destruct (Value.contains "CPU" (Mac.PORTS row)) eqn:Hc.
    { rewrite filter_cons_False; [done|]. unfold Plain.xe_kept. rewrite Hc. by intros [? _]. }
    destruct (Builder.nonempty (Value.first (Mac.PORTS row))) eqn:Hp; cbn [negb].
    + rewrite filter_cons_True by (split; [done|by apply nonempty_ne]).
      simpl. by rewrite <- app_assoc.
    + rewrite filter_cons_False; [done|]. intros [_ Hne%nonempty_ne]. congruence.
Qed.

Lemma xe_build_ok (hostname : string) (t : tables value) :
  Xe.build hostname t
  = (Plain.xe_record hostname t <$> filter Plain.xe_kept (mac_address t), []).
Proof. unfold Xe.build. by rewrite xe_build_loop. Qed.

(** *** Joining the members and splitting them again *)

Lemma append_nil_r (s : string) : s +:+ "" = s.
Proof.
  induction s as [|c s IH]; [done|].
  change (String c (s +:+ "") = String c s). by rewrite IH.
Qed.

Lemma append_assoc (s1 s2 s3 : string) : (s1 +:+ s2) +:+ s3 = s1 +:+ s2 +:+ s3.
Proof.
  induction s1 as [|c s1 IH]; [done|].
  change (String c ((s1 +:+ s2) +:+ s3) = String c (s1 +:+ s2 +:+ s3)). by rewrite IH.
Qed.

Lemma contains_cons_false (x : string) (c : ascii) (s : string) :
  Py.contains x (String c s) = false →
  String.prefix x (String c s) = false ∧ Py.contains x s = false.
Proof. rewrite contains_cons. by destruct (String.prefix x (String c s)). Qed.

Lemma prefix_cons (a : ascii) (x : string) (b : ascii) (s : string) :
  String.prefix (String a x) (String b s)
  = if ascii_dec a b then String.prefix x s else false.
Proof. done. Qed.

Lemma prefix_blank_app (s rest : string) :
  String.prefix " " s = false → String.prefix " " rest = false →
  String.prefix " " (s +:+ rest) = false.
Proof.
  destruct s as [|c s]; [done|].
  change (String c s +:+ rest) with (String c (s +:+ rest)).
  rewrite !prefix_cons, !prefix_nil. by destruct (ascii_dec " " c).
Qed.

Lemma prefix_sep_app (c : ascii) (m rest : string) :
  String.prefix ", " (String c m) = false → String.prefix " " rest = false →
  String.prefix ", " (String c (m +:+ rest)) = false.
Proof.
  rewrite !prefix_cons. destruct (ascii_dec "," c); [|done]. apply prefix_blank_app.
Qed.

Lemma split_go_step (sep cur : string) (c : ascii) (s : string) :
  Py.split_go sep 0 cur (String c s)
  = if String.prefix sep (String c s)
    then cur :: Py.split_go sep (String.length sep - 1) "" s
    else Py.split_go sep 0 (cur +:+ String c "") s.
Proof. done. Qed.

Lemma split_go_piece (m cur rest : string) :
  Py.contains ", " m = false → String.prefix " " rest = false →
  Py.split_go ", " 0 cur (m +:+ rest) = Py.split_go ", " 0 (cur +:+ m) rest.
Proof.
  revert cur. induction m as [|c m IH]; intros cur Hm Hrest.
  - by rewrite append_nil_r.
  - apply contains_cons_false in Hm as [Hp Hm].
    change (String c m +:+ rest) with (String c (m +:+ rest)).
    rewrite split_go_step, prefix_sep_app by done.
    rewrite IH by done. by rewrite append_assoc.
Qed.

Lemma split_join (l : list string) :
  l ≠ [] → Forall (λ m, Py.contains ", " m = false) l →
  Py.split (Py.join ", " l) ", " = l.
Proof.
  unfold Py.split, Py.join. induction l as [|m l IH]; intros Hne Hall; [done|].
  apply Forall_cons in Hall as [Hm Hall]. destruct l as [|m2 l].
  - simpl. rewrite <- (append_nil_r m) at 1. by rewrite split_go_piece.
  - change (String.concat ", " (m :: m2 :: l))
      with (m +:+ ", " +:+ String.concat ", " (m2 :: l)).
    rewrite split_go_piece by done.
    change (", " +:+ String.concat ", " (m2 :: l))
      with (String "," (String " " (String.concat ", " (m2 :: l)))).
    rewrite split_go_step.
    replace (String.prefix ", " (String "," (String " " (String.concat ", " (m2 :: l)))))
      with true by (rewrite !prefix_cons, prefix_nil; by repeat case_match).
    simpl String.length. cbn [Nat.sub Py.split_go]. f_equal. by apply IH.
Qed.

Lemma join_nonempty (sep m : string) (l : list string) :
  m ≠ "" → Py.join sep (m :: l) ≠ "".
Proof. intros Hm. destruct m; [done|]. unfold Py.join. by destruct l. Qed.

(** *** The three fields the NX-OS loop accumulates *)

Lemma cdp_update_fold (hits : list (string * string * string)) (h p i : string) :
  foldl Plain.cdp_update (h, p, i) hits
  = (foldl Plain.keep_or_replace h hits.*1.*1,
     foldl Plain.keep_or_replace p (snd <$> hits.*1),
     foldl (λ held new, held +:+ (if Builder.nonempty held then ", " +:+ new else new))
       i hits.*2).
Proof.
  revert h p i. induction hits as [|[[n pl] ni] hits IH]; intros h p i; [done|].
  cbn [foldl fmap list_fmap fst snd]. unfold Plain.cdp_update at 2. cbn [fst snd].
  rewrite IH. done.
Qed.

Lemma port_fold_held (held : string) (l : list string) :
  held ≠ "" →
  foldl (λ held new, held +:+ (if Builder.nonempty held then ", " +:+ new else new)) held l
  = held +:+ String.concat "" ((λ x, ", " +:+ x) <$> l).
Proof.
  revert held. induction l as [|x l IH]; intros held Hne.
  - simpl. by rewrite append_nil_r.
  - cbn [foldl]. rewrite IH.
    + destruct held; [done|]. cbn [Builder.nonempty]. rewrite append_assoc. f_equal.
      cbn [fmap list_fmap]. destruct l; [by rewrite append_nil_r|done].
    + by destruct held.
Qed.

Lemma join_held (x : string) (l : list string) :
  Py.join ", " (x :: l) = x +:+ String.concat "" ((λ y, ", " +:+ y) <$> l).
Proof.
  unfold Py.join. revert x. induction l as [|y l IH]; intros x.
  - simpl. by rewrite append_nil_r.
  - change (String.concat ", " (x :: y :: l)) with (x +:+ ", " +:+ String.concat ", " (y :: l)).
    rewrite IH. cbn [fmap list_fmap]. f_equal. rewrite <- append_assoc.
    destruct l; [by rewrite !append_nil_r|done].
Qed.

Lemma port_fold_join (l : list string) :
  Forall (λ x, x ≠ "") l →
  foldl (λ held new, held +:+ (if Builder.nonempty held then ", " +:+ new else new)) "" l
  = Py.join ", " l.
Proof.
  destruct l as [|x l]; [done|]. intros [Hx _]%Forall_cons.
  cbn [foldl Builder.nonempty]. change ("" +:+ x) with x.
  by rewrite port_fold_held, join_held.
Qed.

Lemma keep_or_replace_fold_elem (held : string) (l : list string) :
  foldl Plain.keep_or_replace held l ∈ held :: l.
Proof.
  revert held. induction l as [|x l IH]; intros held; [by left|].
  cbn [foldl]. specialize (IH (Plain.keep_or_replace held x)).
  apply elem_of_cons in IH as [Heq|Hin]; [|by do 2 right].
  rewrite Heq. unfold Plain.keep_or_replace.
  destruct (Py.contains x held); [by left|right; by left].
Qed.

Lemma contains_nil_r (x : string) : Py.contains x "" = true → x = "".
Proof. by destruct x. Qed.

Lemma keep_or_replace_last (earlier : list string) (n : string) :
  (∀ n', n' ∈ earlier → Py.contains n n' = false) →
  foldl Plain.keep_or_replace "" (earlier ++ [n]) = n.
Proof.
  intros Hnot. rewrite foldl_app. cbn [foldl]. unfold Plain.keep_or_replace at 1.
  destruct (Py.contains n _) eqn:Hc; [|done].
  pose proof (keep_or_replace_fold_elem "" earlier) as Hin.
  apply elem_of_cons in Hin as [Heq|Hin].
  - rewrite Heq in *. by apply contains_nil_r in Hc.
  - rewrite (Hnot _ Hin) in Hc. done.
Qed.

(** *** Emitted records *)

Lemma nxos_emitted (hostname : string) (t : tables string) (row : Mac.row string)
    (rec : PortRecord) :
  Nxos.process_row hostname t row = Ok (Some rec) →
  Plain.nxos_kept row ∧ rec = Plain.nxos_record hostname t row.
Proof.
  rewrite nxos_process_row_ok. unfold Plain.nxos_kept.
  destruct (Py.contains "vPC" (Mac.PORTS row)); [done|]. by intros [= <-].
Qed.

Lemma xe_emitted (hostname : string) (t : tables value) (row : Mac.row value)
    (rec : PortRecord) :
  Xe.process_row hostname t row = Ok (Some rec) →
  Plain.xe_kept row ∧ rec = Plain.xe_record hostname t row.
Proof.
  rewrite xe_process_row_ok. unfold Plain.xe_kept.
  destruct (Value.contains "CPU" (Mac.PORTS row)); [done|].
  destruct (Builder.nonempty (Value.first (Mac.PORTS row))) eqn:Hp; [|done].
  intros [= <-]. by apply nonempty_ne in Hp.
Qed.

Lemma not_found_port_record {P} (hostname : string) (t : tables P) (sn : option string)
    (cdp : list Cdp.row → string → string → option string * option string * option string)
    (port mac vlan : string) :
  (inventory t = [] → sn = None) →
  (∀ port member_po, cdp [] port member_po = (None, None, None)) →
  Plain.not_found_on_empty t (Plain.port_record hostname t sn cdp port mac vlan).
Proof.
  intros Hsn Hcdp. unfold Plain.not_found_on_empty, Plain.port_record, Builder.record.
  cbn [Serial_Number IP_Address Description Member_PO SFP Tipe_Kabel Trunk_Access
       CDP_Neighbor_Hostname CDP_Neighbor_Platform CDP_Neighbor_Port
       LLDP_Neighbor_Hostname LLDP_Neighbor_Port Allowed_VLAN].
  split_and!.
  - done.
  - by intros ->.
  - by intros ->.
  - intros ->. by destruct (Py.startswith port "Po").
  - intros ->. unfold Plain.sfp, Plain.type_cable.
    destruct (Py.startswith port "Po"); [by destruct (Builder.nonempty _)|done].
  - intros ->. by rewrite Hcdp.
  - intros ->. unfold Plain.lldp. by destruct (Py.startswith port "Po").
  - by intros ->.
Qed.

Lemma not_found_nxos_record (hostname : string) (t : tables string) (row : Mac.row string) :
  Plain.not_found_on_empty t (Plain.nxos_record hostname t row).
Proof. apply not_found_port_record; [by intros ->|done]. Qed.

Lemma not_found_xe_record (hostname : string) (t : tables value) (row : Mac.row value) :
  Plain.not_found_on_empty t (Plain.xe_record hostname t row).
Proof.
  apply not_found_port_record; [by intros ->|]. intros port member_po.
  unfold Plain.cdp_xe. by rewrite filter_nil.
Qed.

(** C3, as amended.  The NX-OS loop of [logic.py] emits no record for a
    row whose port text contains "vPC"; the IOS-XE loop emits none for a
    row whose port field holds "CPU" (for a list: one of its elements IS
    "CPU", at any position) or whose resolved port, the first element, is
    empty.  Every other row yields exactly one record, in row order, and no
    row is reported as failed. *)
Theorem builder_exclusion (hostname : string) (tn : tables string) (tx : tables value) :
  Nxos.build hostname tn
    = Ok (Plain.nxos_record hostname tn
            <$> filter (λ row, Py.contains "vPC" (Mac.PORTS row) = false) (mac_address tn)) ∧
  Xe.build hostname tx
    = (Plain.xe_record hostname tx
         <$> filter (λ row, Value.contains "CPU" (Mac.PORTS row) = false
                            ∧ Value.first (Mac.PORTS row) ≠ "") (mac_address tx), []) ∧
  (∀ l, Value.contains "CPU" (VList l) = true ↔ "CPU" ∈ l) ∧
  (∀ row, Port (Plain.nxos_record hostname tn row) = Mac.PORTS row) ∧
  (∀ row, Port (Plain.xe_record hostname tx row) = Value.first (Mac.PORTS row)).
Proof.
  split; [apply nxos_build_ok|]. split; [apply xe_build_ok|].
  split; [|done]. intros l. apply bool_decide_eq_true.
Qed.

(** C7.  Whatever tables are empty, no lookup raises: the NX-OS loop
    returns its records and the IOS-XE loop reports no failed row; each
    kept row of the MAC table gives its record, and in every record the
    fields looked up in an empty table have the not-found value. *)
Theorem builder_empty_tables (hostname : string) (tn : tables string) (tx : tables value)
    (output_folder : gmap string file) :
  (∃ records,
     Nxos.build hostname tn = Ok records ∧
     length records = length (filter Plain.nxos_kept (mac_address tn)) ∧
     Forall (Plain.not_found_on_empty tn) records) ∧
  (∃ r, Nxos.process_single_hostname hostname tn output_folder = Ok r) ∧
  (Xe.build hostname tx).2 = [] ∧
  length (Xe.build hostname tx).1 = length (filter Plain.xe_kept (mac_address tx)) ∧
  Forall (Plain.not_found_on_empty tx) (Xe.build hostname tx).1.
Proof.
  split; [|split].
  - eexists. split; [apply nxos_build_ok|]. split; [by rewrite length_fmap|].
    apply Forall_fmap, Forall_forall. intros row _. apply not_found_nxos_record.
  - unfold Nxos.process_single_hostname. rewrite nxos_build_ok.
    destruct (Frame.empty (mac_address tn)); [by eexists|]. cbn [mbind result_bind].
    destruct (_ <$> _); by eexists.
  - rewrite xe_build_ok. cbn [fst snd]. split; [done|]. split; [by rewrite length_fmap|].
    apply Forall_fmap, Forall_forall. intros row _. apply not_found_xe_record.
Qed.

(** C4 at its failing input.  With an empty MAC table the NX-OS worker
    writes nothing and still returns the name of the workbook it has not
    written; the IOS-XE worker returns nothing.  Read-back then fails on
    that name. *)
Theorem nxos_empty_mac_table_names_artifact (hostname : string)
    (arp : list Arp.row) (descr : list Descr.row) (inv : list Inventory.row)
    (pcs : list PortChannel.row) (status : list Status.row) (cdp : list Cdp.row)
    (lldp : list Lldp.row) (trunk : list Trunk.row) (output_folder : gmap string file) :
  Nxos.process_single_hostname hostname
    (mkTables [] arp descr inv pcs status cdp lldp trunk) output_folder
    = Ok (Some (hostname +:+ ".xlsx"), output_folder) ∧
  Xe.process_single_hostname hostname
    (mkTables [] arp descr inv pcs status cdp lldp trunk) output_folder
    = Ok (None, output_folder) ∧
  Aggregator.aggregate [Some "sw1.xlsx"] ∅
    = (∅, [Aggregator.Could_not_read "sw1.xlsx"; Aggregator.No_data_was_aggregated]).
Proof. done. Qed.

(** Where the loop has run and kept no row, both workers return nothing
    and write nothing. *)
Lemma no_record_no_artifact (hostname : string) (tn : tables string) (tx : tables value)
    (output_folder : gmap string file) :
  mac_address tn ≠ [] → filter Plain.nxos_kept (mac_address tn) = [] →
  filter Plain.xe_kept (mac_address tx) = [] →
  Nxos.process_single_hostname hostname tn output_folder = Ok (None, output_folder) ∧
  Xe.process_single_hostname hostname tx output_folder = Ok (None, output_folder).
Proof.
  intros Hmac Hn Hx. unfold Nxos.process_single_hostname, Xe.process_single_hostname.
  rewrite nxos_build_ok, xe_build_ok, Hn, Hx. simpl.
  destruct (mac_address tn); [done|]. by destruct (mac_address tx).
Qed.

(** C3, as stated, fails on the IOS-XE loop: the first element of the port
    field does not contain "CPU" and is the (non-empty) resolved port, and
    the row is skipped because a later element is "CPU". *)
Lemma exclusion_first_element_counterexample :
  Py.contains "CPU" (Spec.port_text (Mac.PORTS Sample.xe_cpu_row)) = false ∧
  Value.first (Mac.PORTS Sample.xe_cpu_row) = "Gi1/0/1" ∧
  Xe.process_row "sw1" Sample.xe_tables Sample.xe_cpu_row = Ok None ∧
  length (Xe.build "sw1" Sample.xe_tables).1 = 1 ∧
  length (mac_address Sample.xe_tables) = 2.
Proof. by vm_compute. Qed.

(** *** Cable type *)

Lemma type_cable_cases (sfp : option string) (port : string) :
  let utp := ∃ s, sfp = Some s ∧ Py.contains "T" s = true in
  let unknown :=
    sfp = None ∨ sfp = Some "" ∨
    (Py.startswith port "Po" = false ∧ Py.contains "Vlan" port = true) in
  (Plain.type_cable sfp port = "UTP" ↔ utp) ∧
  (Plain.type_cable sfp port = "???" ↔ ¬ utp ∧ unknown) ∧
  (Plain.type_cable sfp port = "Fiber" ↔ ¬ utp ∧ ¬ unknown).
Proof.
  intros utp unknown.
  assert (utp ↔ Py.contains "T" (Builder.str sfp) = true ∧ sfp ≠ None) as Hutp.
  { unfold utp. destruct sfp as [s|]; simpl; [|split; [by intros (? & ? & _)|by intros [_ ?]]].
    split; [by intros (? & [= <-] & ?)|intros [? _]; by exists s]. }
  assert (unknown ↔ Builder.truthy sfp = false
                    ∨ (Py.startswith port "Po" = false ∧ Py.contains "Vlan" port = true))
    as Hunknown.
  { unfold unknown. destruct sfp as [[|c s]|]; simpl; intuition congruence. }
  rewrite Hutp, Hunknown. clear Hutp Hunknown utp unknown.
  unfold Plain.type_cable, Builder.type_cable_po, Builder.type_cable_port.
  assert (Py.contains "T" (Builder.str None) = false) as HNone by done.
  destruct (Py.contains "T" (Builder.str sfp)) eqn:HT.
  - assert (sfp ≠ None) by (intros ->; congruence).
    destruct (Py.startswith port "Po"); intuition congruence.
  - destruct (Builder.truthy sfp), (Py.startswith port "Po"), (Py.contains "Vlan" port);
      cbn [andb negb]; intuition congruence.
Qed.

(** C6, as amended.  In every record the NX-OS and the IOS-XE loop emit,
    the cable type is "UTP" exactly when an SFP type resolved and contains
    "T"; it is "???" (the value the code has for unknown) exactly when it is
    not "UTP" and no SFP type resolved, or the resolved type is empty, or
    the port is not a port-channel and contains "Vlan"; it is "Fiber"
    otherwise. *)
Theorem cable_type_rule (hostname : string) (tn : tables string) (tx : tables value)
    (rec : PortRecord) :
  (∃ row, Nxos.process_row hostname tn row = Ok (Some rec)) ∨
  (∃ row, Xe.process_row hostname tx row = Ok (Some rec)) →
  let utp := ∃ s, SFP rec = Some s ∧ Py.contains "T" s = true in
  let unknown :=
    SFP rec = None ∨ SFP rec = Some "" ∨
    (Py.startswith (Port rec) "Po" = false ∧ Py.contains "Vlan" (Port rec) = true) in
  (Tipe_Kabel rec = "UTP" ↔ utp) ∧
  (Tipe_Kabel rec = "???" ↔ ¬ utp ∧ unknown) ∧
  (Tipe_Kabel rec = "Fiber" ↔ ¬ utp ∧ ¬ unknown).
Proof.
  intros [[row Hrow]|[row Hrow]].
  - apply nxos_emitted in Hrow as [_ ->]. apply type_cable_cases.
  - apply xe_emitted in Hrow as [_ ->]. apply type_cable_cases.
Qed.

Lemma cable_type_rule_witness :
  Tipe_Kabel (Plain.nxos_record "sw1" Sample.nxos_tables Sample.po1_row) = "Fiber" ↔
  ¬ (∃ s, SFP (Plain.nxos_record "sw1" Sample.nxos_tables Sample.po1_row) = Some s
          ∧ Py.contains "T" s = true) ∧
  ¬ (SFP (Plain.nxos_record "sw1" Sample.nxos_tables Sample.po1_row) = None ∨
     SFP (Plain.nxos_record "sw1" Sample.nxos_tables Sample.po1_row) = Some "" ∨
     (Py.startswith (Port (Plain.nxos_record "sw1" Sample.nxos_tables Sample.po1_row)) "Po"
        = false ∧
      Py.contains "Vlan" (Port (Plain.nxos_record "sw1" Sample.nxos_tables Sample.po1_row))
        = true)).
Proof.
  apply (cable_type_rule "sw1" Sample.nxos_tables Sample.xe_tables
           (Plain.nxos_record "sw1" Sample.nxos_tables Sample.po1_row)).
  left. exists Sample.po1_row. vm_compute. reflexivity.
Defined.

(** C6, as stated, fails: the port contains "Vlan" and is no port-channel,
    and the cable type is "UTP", from the SFP type, not the unknown
    value. *)
Lemma cable_type_vlan_counterexample :
  Nxos.process_row "sw1" Sample.nxos_tables Sample.vlan10_row
    = Ok (Some (Plain.nxos_record "sw1" Sample.nxos_tables Sample.vlan10_row)) ∧
  Port (Plain.nxos_record "sw1" Sample.nxos_tables Sample.vlan10_row) = "Vlan10" ∧
  Py.startswith "Vlan10" "Po" = false ∧ Py.contains "Vlan" "Vlan10" = true ∧
  SFP (Plain.nxos_record "sw1" Sample.nxos_tables Sample.vlan10_row) = Some "1000base-T" ∧
  Tipe_Kabel (Plain.nxos_record "sw1" Sample.nxos_tables Sample.vlan10_row) = "UTP" ∧
  Tipe_Kabel (Plain.nxos_record "sw1" Sample.nxos_tables Sample.vlan10_row) ≠ "Unknown" ∧
  Tipe_Kabel (Plain.nxos_record "sw1" Sample.nxos_tables Sample.vlan10_row) ≠ "???".
Proof. vm_compute. split_and!; congruence. Qed.

(** [logic-single.py] tests "Vlan" first: there a port that contains
    "Vlan" has the unknown value whatever the SFP type is. *)
Lemma single_cable_type_rule (sfp : option string) (port : string) :
  (Py.contains "Vlan" port = true → Single.type_cable_port sfp port = "???") ∧
  (Py.contains "Vlan" port = false →
     Single.type_cable_port sfp port = Single.type_cable_po sfp) ∧
  (Single.type_cable_po sfp = "UTP" ↔ ∃ s, sfp = Some s ∧ Py.contains "T" s = true) ∧
  (Single.type_cable_po sfp = "???" ↔ sfp = None).
Proof.
  unfold Single.type_cable_port, Single.type_cable_po. split_and!.
  - by intros ->.
  - by intros ->.
  - destruct sfp as [s|]; [|split; [done|by intros (? & ? & _)]].
    destruct (Py.contains "T" s) eqn:HT; split; try done.
    + intros _. by exists s.
    + intros (s0 & [= <-] & Hs0). congruence.
  - destruct sfp as [s|]; [|done]. by destruct (Py.contains "T" s).
Qed.

(** The row filter of [logic-single.py] keeps every row. *)
Lemma single_row_kept (ports : string) : Single.row_kept ports = true.
Proof. done. Qed.

(** *** CDP neighbors of a port-channel *)

Lemma filter_nonempty_members (members : list string) :
  Forall (λ m, m ≠ "" ∧ Py.contains ", " m = false) members →
  filter (λ intf, intf ≠ "") members = members.
Proof.
  induction 1 as [|m members [Hm _] _ IH]; [done|].
  by rewrite filter_cons_True, IH.
Qed.

Lemma split_join_members (members : list string) :
  members ≠ [] → Forall (λ m, m ≠ "" ∧ Py.contains ", " m = false) members →
  Py.split (Py.join ", " members) ", " = members.
Proof.
  intros Hne Hall. apply split_join; [done|].
  eapply Forall_impl; [done|]. by intros m [_ ?].
Qed.

Lemma cdp_hits_interfaces (cdp_neighbors : list Cdp.row) (interfaces : list string) :
  Forall (λ r, Cdp.NEIGHBOR_INTERFACE r ≠ "") cdp_neighbors →
  Forall (λ x, x ≠ "") (Plain.cdp_hits cdp_neighbors interfaces).*2.
Proof.
  intros Hall. apply Forall_fmap, Forall_forall. intros hit Hhit.
  apply list_elem_of_omap in Hhit as (intf & _ & Hfirst).
  apply head_Some_elem_of, list_elem_of_fmap in Hfirst as (r & -> & Hr).
  apply list_elem_of_filter in Hr as [_ Hr].
  rewrite Forall_forall in Hall. by apply Hall.
Qed.

Lemma member_po_resolved (port_channel_summary : list PortChannel.row) (port : string)
    (members : list string) :
  Plain.first_cell port_channel_summary PortChannel.BUNDLE_NAME port
    PortChannel.MEMBER_INTERFACE = Some (VList members) →
  Plain.member_po port_channel_summary port = Py.join ", " members.
Proof. unfold Plain.member_po. by intros ->. Qed.

Lemma cdp_nxos_port_channel (cdp_neighbors : list Cdp.row) (port : string)
    (members : list string) :
  Py.startswith port "Po" = true →
  members ≠ [] → Forall (λ m, m ≠ "" ∧ Py.contains ", " m = false) members →
  cdp_neighbors ≠ [] → Forall (λ r, Cdp.NEIGHBOR_INTERFACE r ≠ "") cdp_neighbors →
  Plain.cdp_nxos cdp_neighbors port (Py.join ", " members)
  = (Some (foldl Plain.keep_or_replace "" (Plain.cdp_hits cdp_neighbors members).*1.*1),
     Some (foldl Plain.keep_or_replace "" (snd <$> (Plain.cdp_hits cdp_neighbors members).*1)),
     Some (Py.join ", " (Plain.cdp_hits cdp_neighbors members).*2)).
Proof.
  intros Hpo Hne Hmembers Hcdp Hint. unfold Plain.cdp_nxos.
  destruct cdp_neighbors as [|r0 cdp]; [done|]. rewrite Hpo.
  rewrite split_join_members by done.
  rewrite filter_nonempty_members by done.
  rewrite cdp_update_fold. unfold Plain.some3. cbn [fst snd].
  by rewrite port_fold_join by (by apply cdp_hits_interfaces).
Qed.

Lemma cdp_xe_port_channel (cdp_neighbors : list Cdp.row) (port : string)
    (members : list string) :
  Py.startswith port "Po" = true →
  members ≠ [] → Forall (λ m, m ≠ "" ∧ Py.contains ", " m = false) members →
  Plain.cdp_xe cdp_neighbors port (Py.join ", " members)
  = match filter (λ r, Cdp.LOCAL_INTERFACE r ∈ members) cdp_neighbors with
    | first :: data =>
        (Some (Cdp.NEIGHBOR_NAME first), Some (Cdp.PLATFORM first),
         Some (Py.join ", " (Frame.unique (Cdp.NEIGHBOR_INTERFACE <$> first :: data))))
    | [] => (None, None, None)
    end.
Proof.
  intros Hpo Hne Hmembers. unfold Plain.cdp_xe. rewrite Hpo.
  destruct members as [|m members]; [done|].
  assert (Builder.nonempty (Py.join ", " (m :: members)) = true) as ->.
  { apply nonempty_ne, join_nonempty. by apply Forall_cons in Hmembers as [[? _] _]. }
  cbn [andb]. rewrite split_join_members by done.
  by destruct (filter _ cdp_neighbors).
Qed.

(** C5, as amended.  A port-channel row with a resolved, well-formed member
    list and a CDP table with rows.  NX-OS: going through the members in
    order, the hostname held so far is replaced by the neighbor hostname of
    a member's first CDP row whenever that name is not a substring of the
    one held, so that a last neighbor whose name is in no earlier one is
    the hostname of the record; the neighbor port is the ", "-joined list
    of the neighbor interfaces of those rows, repeats included.  IOS-XE:
    the hostname is that of the first row of the CDP table (in table order)
    whose local interface is a member, and the neighbor port is the
    ", "-joined list of the distinct neighbor interfaces of all such rows. *)
Theorem port_channel_cdp (cdp : list Cdp.row) (members : list string) :
  members ≠ [] → Forall (λ m, m ≠ "" ∧ Py.contains ", " m = false) members →
  cdp ≠ [] → Forall (λ r, Cdp.NEIGHBOR_INTERFACE r ≠ "") cdp →
  let hits := Plain.cdp_hits cdp members in
  let data := filter (λ r, Cdp.LOCAL_INTERFACE r ∈ members) cdp in
  (∀ hostname t row rec,
     Nxos.process_row hostname t row = Ok (Some rec) →
     Py.startswith (Port rec) "Po" = true →
     Plain.first_cell (port_channel_summary t) PortChannel.BUNDLE_NAME (Port rec)
       PortChannel.MEMBER_INTERFACE = Some (VList members) →
     cdp_neighbors t = cdp →
     CDP_Neighbor_Hostname rec = Some (foldl Plain.keep_or_replace "" hits.*1.*1) ∧
     CDP_Neighbor_Port rec = Some (Py.join ", " hits.*2) ∧
     (∀ earlier n, hits.*1.*1 = earlier ++ [n] →
        (∀ n', n' ∈ earlier → Py.contains n n' = false) →
        CDP_Neighbor_Hostname rec = Some n)) ∧
  (∀ hostname t row rec,
     Xe.process_row hostname t row = Ok (Some rec) →
     Py.startswith (Port rec) "Po" = true →
     Plain.first_cell (port_channel_summary t) PortChannel.BUNDLE_NAME (Port rec)
       PortChannel.MEMBER_INTERFACE = Some (VList members) →
     cdp_neighbors t = cdp →
     CDP_Neighbor_Hostname rec = Cdp.NEIGHBOR_NAME <$> head data ∧
     CDP_Neighbor_Port rec
       = match data with
         | [] => None
         | _ => Some (Py.join ", " (Frame.unique (Cdp.NEIGHBOR_INTERFACE <$> data)))
         end).
Proof.
  intros Hne Hmembers Hcdp Hint hits data. split.
  - intros hostname t row rec Hrow Hpo Hmem Ht.
    apply nxos_emitted in Hrow as [_ ->].
    assert (CDP_Neighbor_Hostname (Plain.nxos_record hostname t row)
              = Some (foldl Plain.keep_or_replace "" hits.*1.*1) ∧
            CDP_Neighbor_Port (Plain.nxos_record hostname t row)
              = Some (Py.join ", " hits.*2)) as [Hh Hp].
    { revert Hpo Hmem. unfold Plain.nxos_record, Plain.port_record, Builder.record.
      cbn [Port CDP_Neighbor_Hostname CDP_Neighbor_Port]. intros Hpo Hmem.
      rewrite Hpo, (member_po_resolved _ _ _ Hmem), Ht.
      by rewrite cdp_nxos_port_channel. }
    split; [done|]. split; [done|]. intros earlier n Hnames Hnot.
    by rewrite Hh, Hnames, keep_or_replace_last.
  - intros hostname t row rec Hrow Hpo Hmem Ht.
    apply xe_emitted in Hrow as [_ ->].
    revert Hpo Hmem. unfold Plain.xe_record, Plain.port_record, Builder.record.
    cbn [Port CDP_Neighbor_Hostname CDP_Neighbor_Port]. intros Hpo Hmem.
    rewrite Hpo, (member_po_resolved _ _ _ Hmem), Ht.
    rewrite cdp_xe_port_channel by done. fold data. by destruct data.
Qed.

Lemma port_channel_cdp_witness :
  CDP_Neighbor_Hostname (Plain.nxos_record "sw1" Sample.nxos_tables Sample.po1_row)
    = Some "swB" ∧
  CDP_Neighbor_Port (Plain.nxos_record "sw1" Sample.nxos_tables Sample.po1_row)
    = Some "Eth1/49, Eth1/49" ∧
  CDP_Neighbor_Hostname (Plain.xe_record "sw1" Sample.xe_tables Sample.xe_po1_row)
    = Some "swB" ∧
  CDP_Neighbor_Port (Plain.xe_record "sw1" Sample.xe_tables Sample.xe_po1_row)
    = Some "Te1/0/1".
Proof.
  split_and!.
  - destruct (port_channel_cdp (cdp_neighbors Sample.nxos_tables) ["Eth1/1"; "Eth1/2"])
      as [Hn _]; [done|by repeat constructor|done|by repeat constructor|].
    destruct (Hn "sw1" Sample.nxos_tables Sample.po1_row
                (Plain.nxos_record "sw1" Sample.nxos_tables Sample.po1_row))
      as (_ & _ & Hlast); [by vm_compute|done|done|done|].
    apply (Hlast ["swA"] "swB"); [done|].
    intros n' ->%list_elem_of_singleton. done.
  - destruct (port_channel_cdp (cdp_neighbors Sample.nxos_tables) ["Eth1/1"; "Eth1/2"])
      as [Hn _]; [done|by repeat constructor|done|by repeat constructor|].
    destruct (Hn "sw1" Sample.nxos_tables Sample.po1_row
                (Plain.nxos_record "sw1" Sample.nxos_tables Sample.po1_row))
      as (_ & Hport & _); [by vm_compute|done|done|done|].
    exact Hport.
  - destruct (port_channel_cdp (cdp_neighbors Sample.xe_tables) ["Gi1/0/1"; "Gi1/0/2"])
      as [_ Hx]; [done|by repeat constructor|done|by repeat constructor|].
    destruct (Hx "sw1" Sample.xe_tables Sample.xe_po1_row
                (Plain.xe_record "sw1" Sample.xe_tables Sample.xe_po1_row))
      as (Hhost & _); [by vm_compute|done|done|done|].
    exact Hhost.
  - destruct (port_channel_cdp (cdp_neighbors Sample.xe_tables) ["Gi1/0/1"; "Gi1/0/2"])
      as [_ Hx]; [done|by repeat constructor|done|by repeat constructor|].
    destruct (Hx "sw1" Sample.xe_tables Sample.xe_po1_row
                (Plain.xe_record "sw1" Sample.xe_tables Sample.xe_po1_row))
      as (_ & Hport); [by vm_compute|done|done|done|].
    exact Hport.
Defined.

(** C5, as stated, fails on the NX-OS loop: the first member's neighbor is
    [swA], and the record has [swB], the last one; both neighbors are on
    their port [Eth1/49], and the record lists it twice. *)
Lemma port_channel_cdp_counterexample :
  Nxos.process_row "sw1" Sample.nxos_tables Sample.po1_row
    = Ok (Some (Plain.nxos_record "sw1" Sample.nxos_tables Sample.po1_row)) ∧
  Member_PO (Plain.nxos_record "sw1" Sample.nxos_tables Sample.po1_row) = "Eth1/1, Eth1/2" ∧
  (Plain.cdp_hits (cdp_neighbors Sample.nxos_tables) ["Eth1/1"; "Eth1/2"]).*1.*1
    = ["swA"; "swB"] ∧
  CDP_Neighbor_Hostname (Plain.nxos_record "sw1" Sample.nxos_tables Sample.po1_row)
    = Some "swB" ∧
  Frame.unique (Plain.cdp_hits (cdp_neighbors Sample.nxos_tables) ["Eth1/1"; "Eth1/2"]).*2
    = ["Eth1/49"] ∧
  CDP_Neighbor_Port (Plain.nxos_record "sw1" Sample.nxos_tables Sample.po1_row)
    = Some "Eth1/49, Eth1/49" ∧
  CDP_Neighbor_Hostname (Plain.nxos_record "sw1" Sample.nxos_tables Sample.po1_row)
    ≠ Some "swA" ∧
  CDP_Neighbor_Port (Plain.nxos_record "sw1" Sample.nxos_tables Sample.po1_row)
    ≠ Some "Eth1/49".
Proof. vm_compute. split_and!; congruence. Qed.

(** * Further properties *)

(** ** Backfill *)

Lemma ips_of_nil_iff (final_df : list PortRecord) (mac : string) :
  Plain.last_ip final_df mac = None ↔
  ∀ r, r ∈ final_df → Mac_Address r = mac → IP_Address r = None.
Proof.
  unfold Plain.last_ip. rewrite last_None. split.
  - intros Hnil r Hr Hmac. destruct (IP_Address r) as [ip|] eqn:Hip; [|done].
    assert (ip ∈ Plain.ips_of final_df mac) as Hin by (apply elem_of_ips_of; eauto).
    rewrite Hnil in Hin. by apply elem_of_nil in Hin.
  - intros Hall. destruct (Plain.ips_of final_df mac) as [|ip l] eqn:Hl; [done|].
    assert (ip ∈ Plain.ips_of final_df mac) as Hin by (rewrite Hl; by left).
    apply elem_of_ips_of in Hin as (r & Hr & Hmac & Hip).
    rewrite (Hall r Hr Hmac) in Hip. done.
Qed.

(** X1.  The pass keeps the rows in number and order and touches one field
    only: a row that has an IP address is left as it is, and a row that
    has none differs from what it was in its IP address at most. *)
Theorem backfill_touches_ip_only (final_df : list PortRecord) :
  length (Aggregator.backfill final_df) = length final_df ∧
  ∀ i r, final_df !! i = Some r →
    ∃ r', Aggregator.backfill final_df !! i = Some r' ∧
          set_IP_Address (IP_Address r) r' = r ∧
          (IP_Address r ≠ None → r' = r).
Proof.
  split; [rewrite backfill_map; apply length_fmap|].
  intros i r Hi. rewrite backfill_lookup, Hi. simpl.
  destruct r as [h sn p m tk sfp [ip|] mac v av ta d ch cp cpo lh lp]; simpl.
  - eexists. by split_and!.
  - eexists. by split_and!.
Qed.

Lemma backfill_touches_ip_only_witness :
  ∃ r', Aggregator.backfill Sample.scenario_C !! 1 = Some r' ∧
        set_IP_Address None r' = Sample.port_row "sw2" "Eth1/7" "0011.2233.4455" None.
Proof.
  destruct (backfill_touches_ip_only Sample.scenario_C) as [_ H].
  destruct (H 1 (Sample.port_row "sw2" "Eth1/7" "0011.2233.4455" None))
    as (r' & Hr' & Heq & _); [reflexivity|].
  exists r'. split; [exact Hr'|exact Heq].
Defined.

(** X2.  After the pass a row is without IP address exactly when it had none
    and no row of the whole table with its MAC address has one. *)
Theorem backfill_fills_whenever_known (final_df : list PortRecord) (i : nat)
    (r r' : PortRecord) :
  final_df !! i = Some r → Aggregator.backfill final_df !! i = Some r' →
  (IP_Address r' = None ↔
   ∀ r2, r2 ∈ final_df → Mac_Address r2 = Mac_Address r → IP_Address r2 = None).
Proof.
  intros Hi. rewrite backfill_lookup, Hi. simpl. intros [= <-].
  destruct (IP_Address r) as [ip|] eqn:Hip.
  - rewrite Hip. split; [done|]. intros Hall.
    rewrite <- Hip. apply (Hall r); [by eapply list_elem_of_lookup_2|done].
  - cbn [set_IP_Address IP_Address]. apply ips_of_nil_iff.
Qed.

Lemma backfill_fills_whenever_known_witness :
  IP_Address (Sample.port_row "sw2" "Eth1/7" "0011.2233.4455" (Some "10.0.0.1")) = None ↔
  ∀ r2, r2 ∈ Sample.scenario_C →
        Mac_Address r2 = Mac_Address (Sample.port_row "sw2" "Eth1/7" "0011.2233.4455" None) →
        IP_Address r2 = None.
Proof.
  apply (backfill_fills_whenever_known Sample.scenario_C 1); reflexivity.
Defined.

Lemma last_ips_filled (L : string → option string) (final_df : list PortRecord)
    (mac ip : string) :
  L mac = Some ip → last (Plain.ips_of final_df mac) = Some ip →
  last (Plain.ips_of
          ((λ r, match IP_Address r with
                 | Some _ => r
                 | None => set_IP_Address (L (Mac_Address r)) r
                 end) <$> final_df) mac) = Some ip.
Proof.
  intros HL. unfold Plain.ips_of.
  induction final_df as [|r df IH] using rev_ind; [done|].
  rewrite fmap_app, !omap_app, !last_app. cbn [fmap list_fmap omap list_omap].
  destruct (IP_Address r) as [x|] eqn:Hx.
  - destruct (decide (Mac_Address r = mac)) as [Hmac|Hmac]; [by rewrite Hx|].
    cbn [last]. apply IH.
  - cbn [set_IP_Address Mac_Address IP_Address].
    destruct (decide (Mac_Address r = mac)) as [Hmac|Hmac].
    + intros _. by rewrite Hmac, HL.
    + cbn [last]. apply IH.
Qed.

Lemma ips_filled_nil (L : string → option string) (final_df : list PortRecord)
    (mac : string) :
  L mac = None → Plain.ips_of final_df mac = [] →
  Plain.ips_of
    ((λ r, match IP_Address r with
           | Some _ => r
           | None => set_IP_Address (L (Mac_Address r)) r
           end) <$> final_df) mac = [].
Proof.
  intros HL. unfold Plain.ips_of. induction final_df as [|r df IH]; [done|].
  cbn [fmap list_fmap omap list_omap].
  destruct (IP_Address r) as [x|] eqn:Hx.
  - destruct (decide (Mac_Address r = mac)) as [Hmac|Hmac]; [by rewrite Hx|]. apply IH.
  - cbn [set_IP_Address Mac_Address IP_Address].
    destruct (decide (Mac_Address r = mac)) as [Hmac|Hmac]; [|apply IH].
    rewrite Hmac, HL. apply IH.
Qed.

Lemma last_ip_backfill (final_df : list PortRecord) (mac : string) :
  Plain.last_ip (Aggregator.backfill final_df) mac = Plain.last_ip final_df mac.
Proof.
  rewrite backfill_map. unfold Plain.last_ip at 1 3.
  destruct (last (Plain.ips_of final_df mac)) as [ip|] eqn:Hlast.
  - by apply last_ips_filled.
  - apply last_None. apply last_None in Hlast. apply ips_filled_nil; [|done].
    unfold Plain.last_ip. by rewrite Hlast.
Qed.

(** X3.  Running the pass on its own result changes nothing. *)
Theorem backfill_idempotent (final_df : list PortRecord) :
  Aggregator.backfill (Aggregator.backfill final_df) = Aggregator.backfill final_df.
Proof.
  rewrite (backfill_map (Aggregator.backfill final_df)).
  erewrite list_fmap_ext; [|intros i r _; by rewrite last_ip_backfill].
  rewrite backfill_map, <- list_fmap_compose. apply list_fmap_ext. intros i r _. simpl.
  destruct (IP_Address r) as [ip|] eqn:Hip; [by rewrite Hip|].
  cbn [set_IP_Address IP_Address Mac_Address].
  by destruct (Plain.last_ip final_df (Mac_Address r)).
Qed.

(** X4.  The pass writes [Final_Report.xlsx] and nothing else. *)
Theorem aggregate_writes_final_report_only (results : list (option string))
    (output_folder : gmap string file) (name : string) :
  name ≠ "Final_Report.xlsx" →
  (Aggregator.aggregate results output_folder).1 !! name = output_folder !! name.
Proof.
  intros Hne. unfold Aggregator.aggregate. rewrite read_loop. simpl.
  destruct (Plain.readable output_folder results); simpl; [done|].
  by rewrite lookup_insert_ne.
Qed.

Lemma aggregate_writes_final_report_only_witness :
  (Aggregator.aggregate [Some "sw1.xlsx"]
     {["sw1.xlsx" := Workbook Sample.scenario_C]}).1 !! "sw1.xlsx"
  = ({["sw1.xlsx" := Workbook Sample.scenario_C]} : gmap string file) !! "sw1.xlsx".
Proof. apply aggregate_writes_final_report_only. done. Defined.

(** ** Records and their rows *)

Lemma by_nxos_row (hostname : string) (t : tables string) (rec : PortRecord) :
  Emitted.by_nxos hostname t rec →
  ∃ row, row ∈ mac_address t ∧ Plain.nxos_kept row ∧
         rec = Plain.nxos_record hostname t row.
Proof.
  intros (records & Hbuild & Hrec). rewrite nxos_build_ok in Hbuild.
  injection Hbuild as <-. apply list_elem_of_fmap in Hrec as (row & -> & Hrow).
  apply list_elem_of_filter in Hrow as [Hkept Hrow]. eauto.
Qed.

Lemma by_xe_row (hostname : string) (t : tables value) (rec : PortRecord) :
  Emitted.by_xe hostname t rec →
  ∃ row, row ∈ mac_address t ∧ Plain.xe_kept row ∧
         rec = Plain.xe_record hostname t row.
Proof.
  unfold Emitted.by_xe. rewrite xe_build_ok. cbn [fst]. intros Hrec.
  apply list_elem_of_fmap in Hrec as (row & -> & Hrow).
  apply list_elem_of_filter in Hrow as [Hkept Hrow]. eauto.
Qed.

(** X5.  Each record of the NX-OS loop stems from a row of the MAC table whose
    port has no "vPC" in it, and carries the device name and the row's
    port, MAC address and VLAN as they are. *)
Theorem nxos_record_stems_from_row (hostname : string) (t : tables string)
    (rec : PortRecord) :
  Emitted.by_nxos hostname t rec →
  Hostname rec = hostname ∧ Py.contains "vPC" (Port rec) = false ∧
  ∃ row, row ∈ mac_address t ∧ Port rec = Mac.PORTS row ∧
         Mac_Address rec = Mac.MAC_ADDRESS row ∧ VLAN rec = Mac.VLAN_ID row.
Proof.
  intros (row & Hrow & Hkept & ->)%by_nxos_row. split; [done|]. split; [done|].
  by exists row.
Qed.

Lemma nxos_record_stems_from_row_witness :
  Hostname (Plain.nxos_record "sw1" Sample.nxos_tables Sample.po1_row) = "sw1" ∧
  Py.contains "vPC" (Port (Plain.nxos_record "sw1" Sample.nxos_tables Sample.po1_row))
    = false ∧
  ∃ row, row ∈ mac_address Sample.nxos_tables ∧
         Port (Plain.nxos_record "sw1" Sample.nxos_tables Sample.po1_row) = Mac.PORTS row ∧
         Mac_Address (Plain.nxos_record "sw1" Sample.nxos_tables Sample.po1_row)
           = Mac.MAC_ADDRESS row ∧
         VLAN (Plain.nxos_record "sw1" Sample.nxos_tables Sample.po1_row) = Mac.VLAN_ID row.
Proof.
  apply nxos_record_stems_from_row. eexists. split; [by vm_compute|]. by left.
Defined.

(** X6.  Each record of the IOS-XE loop stems from a row of the MAC table; its
    port is the first element of the row's port field and is never empty,
    and no element of that field is "CPU". *)
Theorem xe_record_stems_from_row (hostname : string) (t : tables value)
    (rec : PortRecord) :
  Emitted.by_xe hostname t rec →
  Hostname rec = hostname ∧ Port rec ≠ "" ∧
  ∃ row, row ∈ mac_address t ∧ Port rec = Value.first (Mac.PORTS row) ∧
         Value.contains "CPU" (Mac.PORTS row) = false ∧
         Mac_Address rec = Mac.MAC_ADDRESS row ∧ VLAN rec = Mac.VLAN_ID row.
Proof.
  intros (row & Hrow & [Hcpu Hport] & ->)%by_xe_row. split; [done|]. split; [done|].
  by exists row.
Qed.

Lemma xe_record_stems_from_row_witness :
  Hostname (Plain.xe_record "sw1" Sample.xe_tables Sample.xe_po1_row) = "sw1" ∧
  Port (Plain.xe_record "sw1" Sample.xe_tables Sample.xe_po1_row) ≠ "" ∧
  ∃ row, row ∈ mac_address Sample.xe_tables ∧
         Port (Plain.xe_record "sw1" Sample.xe_tables Sample.xe_po1_row)
           = Value.first (Mac.PORTS row) ∧
         Value.contains "CPU" (Mac.PORTS row) = false ∧
         Mac_Address (Plain.xe_record "sw1" Sample.xe_tables Sample.xe_po1_row)
           = Mac.MAC_ADDRESS row ∧
         VLAN (Plain.xe_record "sw1" Sample.xe_tables Sample.xe_po1_row) = Mac.VLAN_ID row.
Proof.
  apply xe_record_stems_from_row. unfold Emitted.by_xe. vm_compute. by left.
Defined.

(** *** Fields that do not depend on the dialect *)

Lemma trunk_access_values (interface_status : list Status.row) (port : string) :
  let v := Plain.trunk_access interface_status port in
  v = "" ∨ v = "Access" ∨ Py.contains "trunk" v = true ∨ Py.contains "routed" v = true.
Proof.
  unfold Plain.trunk_access.
  destruct (default "" _) as [|c raw] eqn:Hraw; [by left|]. cbn [Builder.nonempty andb].
  destruct (Py.contains "trunk" (String c raw)) eqn:Ht; [by right; right; left|].
  destruct (Py.contains "routed" (String c raw)) eqn:Hr; [by right; right; right|].
  by right; left.
Qed.

(** X7.  Trunk/Access of an emitted record is empty, or "Access", or a status
    text that has "trunk" or "routed" in it. *)
Theorem trunk_access_of_emitted (hostname : string) (tn : tables string)
    (tx : tables value) (rec : PortRecord) :
  Emitted.by_nxos hostname tn rec ∨ Emitted.by_xe hostname tx rec →
  Trunk_Access rec = "" ∨ Trunk_Access rec = "Access" ∨
  Py.contains "trunk" (Trunk_Access rec) = true ∨
  Py.contains "routed" (Trunk_Access rec) = true.
Proof.
  intros [(row & _ & _ & ->)%by_nxos_row|(row & _ & _ & ->)%by_xe_row];
    apply trunk_access_values.
Qed.

Lemma trunk_access_of_emitted_witness :
  Trunk_Access (Plain.nxos_record "sw1" Sample.nxos_tables Sample.po1_row) = "" ∨
  Trunk_Access (Plain.nxos_record "sw1" Sample.nxos_tables Sample.po1_row) = "Access" ∨
  Py.contains "trunk" (Trunk_Access (Plain.nxos_record "sw1" Sample.nxos_tables Sample.po1_row))
    = true ∨
  Py.contains "routed" (Trunk_Access (Plain.nxos_record "sw1" Sample.nxos_tables Sample.po1_row))
    = true.
Proof.
  apply (trunk_access_of_emitted "sw1" Sample.nxos_tables Sample.xe_tables).
  left. eexists. split; [by vm_compute|]. by left.
Defined.

(** X8.  A port that is no port-channel has no members in its record; a
    port-channel has no LLDP neighbor in its record, whatever the LLDP
    table holds. *)
Theorem members_and_lldp_by_port_kind (hostname : string) (tn : tables string)
    (tx : tables value) (rec : PortRecord) :
  Emitted.by_nxos hostname tn rec ∨ Emitted.by_xe hostname tx rec →
  (Py.startswith (Port rec) "Po" = false → Member_PO rec = "") ∧
  (Py.startswith (Port rec) "Po" = true →
     LLDP_Neighbor_Hostname rec = None ∧ LLDP_Neighbor_Port rec = None).
Proof.
  intros [(row & _ & _ & ->)%by_nxos_row|(row & _ & _ & ->)%by_xe_row].
  - unfold Plain.nxos_record, Plain.port_record, Builder.record, Plain.lldp.
    cbn [Port Member_PO LLDP_Neighbor_Hostname LLDP_Neighbor_Port].
    split; by intros ->.
  - unfold Plain.xe_record, Plain.port_record, Builder.record, Plain.lldp.
    cbn [Port Member_PO LLDP_Neighbor_Hostname LLDP_Neighbor_Port].
    split; by intros ->.
Qed.

Lemma members_and_lldp_by_port_kind_witness :
  (Py.startswith (Port (Plain.nxos_record "sw1" Sample.nxos_tables Sample.vlan10_row)) "Po"
     = false →
   Member_PO (Plain.nxos_record "sw1" Sample.nxos_tables Sample.vlan10_row) = "") ∧
  (Py.startswith (Port (Plain.nxos_record "sw1" Sample.nxos_tables Sample.vlan10_row)) "Po"
     = true →
   LLDP_Neighbor_Hostname (Plain.nxos_record "sw1" Sample.nxos_tables Sample.vlan10_row)
     = None ∧
   LLDP_Neighbor_Port (Plain.nxos_record "sw1" Sample.nxos_tables Sample.vlan10_row) = None).
Proof.
  apply (members_and_lldp_by_port_kind "sw1" Sample.nxos_tables Sample.xe_tables).
  left. eexists. split; [by vm_compute|]. right. by left.
Defined.

(** *** The SFP type of a port-channel *)

Lemma prefix_comma (c : ascii) (s : string) :
  String.prefix "," (String c s) = if ascii_dec "," c then true else false.
Proof. rewrite prefix_cons, prefix_nil. done. Qed.

Lemma split_comma_piece (m cur rest : string) :
  Py.contains "," m = false →
  Py.split_go "," 0 cur (m +:+ rest) = Py.split_go "," 0 (cur +:+ m) rest.
Proof.
  revert cur. induction m as [|c m IH]; intros cur Hm.
  - by rewrite append_nil_r.
  - apply contains_cons_false in Hm as [Hp Hm].
    change (String c m +:+ rest) with (String c (m +:+ rest)).
    rewrite split_go_step. rewrite prefix_comma in *.
    destruct (ascii_dec "," c); [done|]. rewrite IH by done. by rewrite append_assoc.
Qed.

Lemma separated_starts_with_comma (y : string) (l : list string) :
  ∃ rest, String.concat "" ((λ y, ", " +:+ y) <$> y :: l) = String "," rest.
Proof. destruct l; by eexists. Qed.

Lemma first_member (m : string) (ms : list string) :
  Py.contains "," m = false →
  Py.first_piece (Py.split (Py.join ", " (m :: ms)) ",") = m.
Proof.
  intros Hm. rewrite join_held. unfold Py.split. rewrite split_comma_piece by done.
  destruct ms as [|m2 ms]; [done|].
  destruct (separated_starts_with_comma m2 ms) as [rest ->].
  rewrite split_go_step, prefix_comma. by destruct (ascii_dec "," ",").
Qed.

Lemma sfp_of_port_channel (interface_status : list Status.row) (port m : string)
    (ms : list string) :
  Py.startswith port "Po" = true → m ≠ "" → Py.contains "," m = false →
  Plain.sfp interface_status port (Py.join ", " (m :: ms))
  = Plain.first_cell interface_status Status.PORT m Status.TYPE.
Proof.
  intros Hpo Hm Hcomma. unfold Plain.sfp. rewrite Hpo.
  assert (Builder.nonempty (Py.join ", " (m :: ms)) = true) as ->
    by (by apply nonempty_ne, join_nonempty).
  by rewrite first_member.
Qed.

(** X9.  The SFP type, and with it the cable type, of a port-channel is that of
    its first member: the TYPE of the first status row of that member, not
    of the port-channel itself. *)
Theorem port_channel_sfp_is_first_members (hostname m : string) (ms : list string)
    (rec : PortRecord) :
  m ≠ "" → Py.contains "," m = false → Py.startswith (Port rec) "Po" = true →
  (∀ t, Emitted.by_nxos hostname t rec →
        Plain.first_cell (port_channel_summary t) PortChannel.BUNDLE_NAME (Port rec)
          PortChannel.MEMBER_INTERFACE = Some (VList (m :: ms)) →
        SFP rec = Plain.first_cell (interface_status t) Status.PORT m Status.TYPE ∧
        Tipe_Kabel rec = Builder.type_cable_po (SFP rec)) ∧
  (∀ t, Emitted.by_xe hostname t rec →
        Plain.first_cell (port_channel_summary t) PortChannel.BUNDLE_NAME (Port rec)
          PortChannel.MEMBER_INTERFACE = Some (VList (m :: ms)) →
        SFP rec = Plain.first_cell (interface_status t) Status.PORT m Status.TYPE ∧
        Tipe_Kabel rec = Builder.type_cable_po (SFP rec)).
Proof.
  intros Hm Hcomma Hpo. split.
  - intros t (row & _ & _ & ->)%by_nxos_row. revert Hpo.
    unfold Plain.nxos_record, Plain.port_record, Builder.record, Plain.type_cable.
    cbn [Port SFP Tipe_Kabel]. intros Hpo Hmem.
    rewrite Hpo, (member_po_resolved _ _ _ Hmem). by rewrite sfp_of_port_channel.
  - intros t (row & _ & _ & ->)%by_xe_row. revert Hpo.
    unfold Plain.xe_record, Plain.port_record, Builder.record, Plain.type_cable.
    cbn [Port SFP Tipe_Kabel]. intros Hpo Hmem.
    rewrite Hpo, (member_po_resolved _ _ _ Hmem). by rewrite sfp_of_port_channel.
Qed.

Lemma port_channel_sfp_is_first_members_witness :
  SFP (Plain.nxos_record "sw1" Sample.nxos_tables Sample.po1_row)
  = Plain.first_cell (interface_status Sample.nxos_tables) Status.PORT "Eth1/1" Status.TYPE.
Proof.
  destruct (port_channel_sfp_is_first_members "sw1" "Eth1/1" ["Eth1/2"]
              (Plain.nxos_record "sw1" Sample.nxos_tables Sample.po1_row))
    as [Hn _]; [done|done|done|].
  destruct (Hn Sample.nxos_tables) as [Hsfp _]; [|done|exact Hsfp].
  eexists. split; [by vm_compute|]. by left.
Defined.

(** *** A port-channel none of whose members has a CDP neighbor *)

Lemma filter_none {A} (P : A → Prop) `{∀ x, Decision (P x)} (l : list A) :
  (∀ x, x ∈ l → ¬ P x) → filter P l = [].
Proof.
  induction l as [|x l IH]; intros Hnone; [done|].
  rewrite filter_cons_False by (apply Hnone; by left).
  apply IH. intros y Hy. apply Hnone. by right.
Qed.

Lemma cdp_hits_none (cdp_neighbors : list Cdp.row) (interfaces : list string) :
  (∀ r, r ∈ cdp_neighbors → Cdp.LOCAL_INTERFACE r ∉ interfaces) →
  Plain.cdp_hits cdp_neighbors interfaces = [].
Proof.
  intros Hnone. unfold Plain.cdp_hits.
  induction interfaces as [|intf interfaces IH]; [done|]. cbn [omap list_omap].
  assert (Plain.first_cell cdp_neighbors Cdp.LOCAL_INTERFACE intf Plain.cdp_triple = None)
    as ->.
  { unfold Plain.first_cell, Plain.cells. rewrite filter_none; [done|].
    intros r Hr Heq. apply (Hnone r Hr). rewrite Heq. by left. }
  apply IH. intros r Hr Hin. apply (Hnone r Hr). by right.
Qed.

(** X10.  With rows in the CDP table and none of them on a member, the NX-OS
    record of a port-channel has the empty string in its three CDP fields;
    the IOS-XE record has nothing there. *)
Theorem port_channel_without_cdp_neighbor (hostname : string) (rec : PortRecord) :
  Py.startswith (Port rec) "Po" = true →
  (∀ t, Emitted.by_nxos hostname t rec → cdp_neighbors t ≠ [] →
        (∀ r, r ∈ cdp_neighbors t →
              Cdp.LOCAL_INTERFACE r ∉ Py.split (Member_PO rec) ", ") →
        CDP_Neighbor_Hostname rec = Some "" ∧ CDP_Neighbor_Platform rec = Some "" ∧
        CDP_Neighbor_Port rec = Some "") ∧
  (∀ t, Emitted.by_xe hostname t rec →
        (∀ r, r ∈ cdp_neighbors t →
              (Cdp.LOCAL_INTERFACE r ∉ Py.split (Member_PO rec) ", ") ∧
              Cdp.LOCAL_INTERFACE r ≠ Port rec) →
        CDP_Neighbor_Hostname rec = None ∧ CDP_Neighbor_Platform rec = None ∧
        CDP_Neighbor_Port rec = None).
Proof.
  intros Hpo. split.
  - intros t (row & _ & _ & ->)%by_nxos_row. revert Hpo.
    unfold Plain.nxos_record, Plain.port_record, Builder.record.
    cbn [Port Member_PO CDP_Neighbor_Hostname CDP_Neighbor_Platform CDP_Neighbor_Port].
    intros Hpo Hcdp Hnone. rewrite Hpo in *. unfold Plain.cdp_nxos.
    destruct (cdp_neighbors t) as [|r0 cdp] eqn:Ht; [done|]. rewrite Hpo.
    rewrite cdp_hits_none; [done|].
    intros r Hr Hin. apply list_elem_of_filter in Hin as [_ Hin]. by apply (Hnone r).
  - intros t (row & _ & _ & ->)%by_xe_row. revert Hpo.
    unfold Plain.xe_record, Plain.port_record, Builder.record.
    cbn [Port Member_PO CDP_Neighbor_Hostname CDP_Neighbor_Platform CDP_Neighbor_Port].
    intros Hpo Hnone. rewrite Hpo in *. unfold Plain.cdp_xe. rewrite Hpo.
    rewrite filter_none; [done|]. intros r Hr Hin.
    destruct (Hnone r Hr) as [Hmem Hport].
    destruct (true && Builder.nonempty _); [done|].
    by apply list_elem_of_singleton in Hin.
Qed.

Lemma port_channel_without_cdp_neighbor_witness :
  CDP_Neighbor_Hostname (Plain.nxos_record "sw2" Inputs.lonely_tables Inputs.po2_row)
    = Some "" ∧
  CDP_Neighbor_Platform (Plain.nxos_record "sw2" Inputs.lonely_tables Inputs.po2_row)
    = Some "" ∧
  CDP_Neighbor_Port (Plain.nxos_record "sw2" Inputs.lonely_tables Inputs.po2_row) = Some "".
Proof.
  destruct (port_channel_without_cdp_neighbor "sw2"
              (Plain.nxos_record "sw2" Inputs.lonely_tables Inputs.po2_row))
    as [Hn _]; [done|].
  apply (Hn Inputs.lonely_tables).
  - eexists. split; [by vm_compute|]. by left.
  - done.
  - intros r Hr. apply list_elem_of_singleton in Hr as ->.
    apply (bool_decide_unpack _). by vm_compute.
Defined.

(** ** Workers and dispatcher *)

Lemma length_append (s t : string) :
  String.length (s +:+ t) = String.length s + String.length t.
Proof.
  induction s as [|c s IH]; [done|].
  change (String c s +:+ t) with (String c (s +:+ t)). simpl. by rewrite IH.
Qed.

Lemma append_inj_r (s1 s2 t : string) : s1 +:+ t = s2 +:+ t → s1 = s2.
Proof.
  revert s2. induction s1 as [|c s1 IH]; intros [|c' s2] Heq.
  - done.
  - apply (f_equal String.length) in Heq. rewrite !length_append in Heq.
    simpl in Heq. lia.
  - apply (f_equal String.length) in Heq. rewrite !length_append in Heq.
    simpl in Heq. lia.
  - change (String c (s1 +:+ t) = String c' (s2 +:+ t)) in Heq.
    injection Heq as -> Heq. f_equal. by apply IH.
Qed.

Lemma xlsx_nonempty (hostname : string) : hostname +:+ ".xlsx" ≠ "".
Proof. by destruct hostname. Qed.

Lemma nxos_worker_behaves (textfsm : Loader.templates string)
    (source_data : Splitter.store) :
  Report.behaves (Dispatcher.nxos_worker textfsm source_data)
    (Report.nxos_records textfsm source_data) (Report.nxos_result textfsm source_data).
Proof.
  intros hostname output_folder.
  unfold Dispatcher.nxos_worker, Nxos.process_single_hostname, Report.nxos_result,
    Report.nxos_records.
  rewrite nxos_build_ok. cbn [mbind result_bind].
  destruct (mac_address _) as [|row rows] eqn:Hmac; [done|]. cbn [Frame.empty].
  by destruct (_ <$> _).
Qed.

Lemma xe_worker_behaves (textfsm : Loader.templates value)
    (source_data : Splitter.store) :
  Report.behaves (Dispatcher.xe_worker textfsm source_data)
    (Report.xe_records textfsm source_data) (Report.xe_result textfsm source_data).
Proof.
  intros hostname output_folder.
  unfold Dispatcher.xe_worker, Xe.process_single_hostname, Report.xe_result,
    Report.xe_records.
  rewrite xe_build_ok. cbn [fst].
  destruct (mac_address _) as [|row rows] eqn:Hmac; [done|]. cbn [Frame.empty].
  by destruct (_ <$> _).
Qed.

Lemma dict_cons `{Countable K} {V} (k : K) (v : V) (pairs : list (K * V)) :
  Py.dict ((k, v) :: pairs) = Py.dict pairs ∪ {[k := v]}.
Proof.
  unfold Py.dict at 1. cbn [foldl fst snd]. rewrite dict_fold_union.
  by rewrite insert_empty.
Qed.

Lemma pool_map_behaves
    (worker : string → gmap string file → result (option string * gmap string file))
    (records : string → list PortRecord) (result_of : string → option string)
    (hostnames : list string) (output_folder : gmap string file) :
  Report.behaves worker records result_of →
  Dispatcher.pool_map worker hostnames output_folder
  = Ok (result_of <$> hostnames, Report.artifacts records hostnames ∪ output_folder).
Proof.
  intros Hworker. revert output_folder.
  induction hostnames as [|hostname hostnames IH]; intros output_folder.
  - simpl. unfold Report.artifacts, Py.dict. simpl. by rewrite (left_id_L ∅ (∪)).
  - cbn [Dispatcher.pool_map]. rewrite Hworker. cbn [mbind result_bind fst snd].
    rewrite IH. cbn [mbind result_bind fst snd fmap list_fmap]. do 2 f_equal.
    unfold Report.artifacts. cbn [omap list_omap].
    destruct (records hostname) as [|r rows]; [done|].
    rewrite dict_cons, <- (assoc_L (∪)). by rewrite insert_union_singleton_l.
Qed.

Lemma last_constant {A} (l : list A) (v : A) :
  l ≠ [] → (∀ x, x ∈ l → x = v) → last l = Some v.
Proof.
  intros Hne Hall. destruct (last l) as [x|] eqn:Hlast.
  - f_equal. apply Hall. by eapply last_Some_elem_of.
  - by apply last_None in Hlast.
Qed.

(** What the folder of workbooks holds under a name. *)
Lemma artifacts_lookup (records : string → list PortRecord) (hostnames : list string)
    (name : string) (w : file) :
  Report.artifacts records hostnames !! name = Some w ↔
  ∃ hostname, hostname ∈ hostnames ∧ name = hostname +:+ ".xlsx" ∧
              records hostname ≠ [] ∧ w = Workbook (records hostname).
Proof.
  unfold Report.artifacts. rewrite dict_lookup.
  set (pairs := omap _ hostnames).
  assert (∀ x, x ∈ omap (λ kv : string * file,
                          if decide (kv.1 = name) then Some kv.2 else None) pairs ↔
               ∃ hostname, hostname ∈ hostnames ∧ name = hostname +:+ ".xlsx" ∧
                           records hostname ≠ [] ∧ x = Workbook (records hostname)) as Hin.
  { intros x. rewrite list_elem_of_omap. split.
    - intros ([k v] & Hkv & Hx). apply list_elem_of_omap in Hkv as (h & Hh & Hkv).
      cbn [fst snd] in Hx. destruct (decide (k = name)) as [<-|]; [|done].
      injection Hx as <-. exists h. destruct (records h) as [|r rows] eqn:Hr; [done|].
      by injection Hkv as <- <-.
    - intros (h & Hh & -> & Hr & ->). exists (h +:+ ".xlsx", Workbook (records h)).
      split; [|cbn [fst snd]; by rewrite decide_True].
      apply list_elem_of_omap. exists h. split; [done|]. by destruct (records h). }
  split.
  - intros Hlast%last_Some_elem_of. by apply Hin.
  - intros (h & Hh & -> & Hr & ->). apply last_constant.
    + intros Hnil. assert (Workbook (records h) ∈ @nil file) as Habs; [|by apply elem_of_nil in Habs].
      rewrite <- Hnil. apply Hin. by exists h.
    + intros x (h' & _ & Heq%append_inj_r & _ & ->)%Hin. by rewrite Heq.
Qed.

Lemma pool_map_commutes
    (worker : string → gmap string file → result (option string * gmap string file))
    (records : string → list PortRecord) (result_of : string → option string)
    (hostnames hostnames' : list string) (output_folder : gmap string file) :
  Report.behaves worker records result_of → hostnames ≡ₚ hostnames' →
  ∃ out rs rs',
    Dispatcher.pool_map worker hostnames output_folder = Ok (rs, out) ∧
    Dispatcher.pool_map worker hostnames' output_folder = Ok (rs', out) ∧
    rs ≡ₚ rs'.
Proof.
  intros Hworker Hperm. rewrite !(pool_map_behaves _ records result_of) by done.
  assert (Report.artifacts records hostnames = Report.artifacts records hostnames') as ->.
  { apply map_eq. intros name. apply option_eq. intros w.
    rewrite !artifacts_lookup. by setoid_rewrite Hperm. }
  eexists _, _, _. split; [done|]. split; [done|]. by apply fmap_Permutation.
Qed.

(** X13.  The workers of [pool.map] commute, for both dialects: run over the
    devices in any other order they leave the same output folder and
    return the same results up to that order.  The run of one worker after
    the other therefore stands for every completed schedule of the pool in
    which each worker runs undisturbed. *)
Theorem workers_commute (hostnames hostnames' : list string)
    (output_folder : gmap string file) :
  hostnames ≡ₚ hostnames' →
  (∀ textfsm source_data, ∃ out rs rs',
     Dispatcher.pool_map (Dispatcher.nxos_worker textfsm source_data) hostnames output_folder
       = Ok (rs, out) ∧
     Dispatcher.pool_map (Dispatcher.nxos_worker textfsm source_data) hostnames' output_folder
       = Ok (rs', out) ∧ rs ≡ₚ rs') ∧
  (∀ textfsm source_data, ∃ out rs rs',
     Dispatcher.pool_map (Dispatcher.xe_worker textfsm source_data) hostnames output_folder
       = Ok (rs, out) ∧
     Dispatcher.pool_map (Dispatcher.xe_worker textfsm source_data) hostnames' output_folder
       = Ok (rs', out) ∧ rs ≡ₚ rs').
Proof.
  intros Hperm. split; intros textfsm source_data.
  - eapply pool_map_commutes; [apply nxos_worker_behaves|done].
  - eapply pool_map_commutes; [apply xe_worker_behaves|done].
Qed.

Lemma workers_commute_witness :
  ["sw1"; "sw2"] ≡ₚ ["sw2"; "sw1"] ∧
  (∀ textfsm source_data, ∃ out rs rs',
     Dispatcher.pool_map (Dispatcher.nxos_worker textfsm source_data) ["sw1"; "sw2"] ∅
       = Ok (rs, out) ∧
     Dispatcher.pool_map (Dispatcher.nxos_worker textfsm source_data) ["sw2"; "sw1"] ∅
       = Ok (rs', out) ∧ rs ≡ₚ rs') ∧
  (∀ textfsm source_data, ∃ out rs rs',
     Dispatcher.pool_map (Dispatcher.xe_worker textfsm source_data) ["sw1"; "sw2"] ∅
       = Ok (rs, out) ∧
     Dispatcher.pool_map (Dispatcher.xe_worker textfsm source_data) ["sw2"; "sw1"] ∅
       = Ok (rs', out) ∧ rs ≡ₚ rs').
Proof.
  split; [apply perm_swap|].
  apply (workers_commute ["sw1"; "sw2"] ["sw2"; "sw1"] ∅). apply perm_swap.
Defined.

(** *** The whole of [execute_main] *)

Lemma omap_ext_elem {A B} (f g : A → option B) (l : list A) :
  (∀ x, x ∈ l → f x = g x) → omap f l = omap g l.
Proof.
  induction l as [|x l IH]; intros Hfg; [done|]. cbn [omap list_omap].
  rewrite (Hfg x) by (by left). rewrite IH; [done|]. intros y Hy. apply Hfg. by right.
Qed.

Lemma omap_fmap_compose {A B C} (f : A → B) (g : B → option C) (l : list A) :
  omap g (f <$> l) = omap (λ x, g (f x)) l.
Proof. induction l as [|x l IH]; [done|]. cbn [fmap list_fmap omap list_omap]. by rewrite IH. Qed.

Lemma aggregate_final (results : list (option string)) (output_folder : gmap string file) :
  Dispatcher.Finished (Aggregator.aggregate results output_folder).1
    (Aggregator.aggregate results output_folder).2
  = Report.final (Plain.readable output_folder results) output_folder
      (Plain.unreadable output_folder results).
Proof.
  unfold Aggregator.aggregate, Report.final. rewrite read_loop. simpl.
  by destruct (Plain.readable output_folder results).
Qed.

Lemma artifacts_lookup_own (records : string → list PortRecord) (hostnames : list string)
    (hostname : string) :
  hostname ∈ hostnames →
  Report.artifacts records hostnames !! (hostname +:+ ".xlsx")
  = match records hostname with
    | [] => None
    | rows => Some (Workbook rows)
    end.
Proof.
  intros Hin. destruct (records hostname) as [|r rows] eqn:Hr.
  - apply eq_None_not_Some. intros [w Hw].
    apply artifacts_lookup in Hw as (h & _ & Heq%append_inj_r & Hne & _). congruence.
  - apply artifacts_lookup. exists hostname. rewrite Hr. by split_and!.
Qed.

Lemma read_own_workbook (records : string → list PortRecord) (hostnames : list string)
    (output_folder : gmap string file) (hostname : string) :
  hostname ∈ hostnames →
  Aggregator.read_excel (Report.artifacts records hostnames ∪ output_folder)
    (hostname +:+ ".xlsx")
  = match records hostname with
    | [] => Aggregator.read_excel output_folder (hostname +:+ ".xlsx")
    | rows => Some rows
    end.
Proof.
  intros Hin. unfold Aggregator.read_excel. rewrite lookup_union, artifacts_lookup_own by done.
  destruct (records hostname); [|by destruct (output_folder !! _)].
  by rewrite (left_id_L None _).
Qed.

Lemma truthy_xlsx (hostname : string) :
  Aggregator.truthy (Some (hostname +:+ ".xlsx")) = Some (hostname +:+ ".xlsx").
Proof. by destruct hostname. Qed.

Lemma nxos_readable (textfsm : Loader.templates string) (source_data : Splitter.store)
    (output_folder : gmap string file) (hostnames : list string) :
  Plain.readable
    (Report.artifacts (Report.nxos_records textfsm source_data) hostnames ∪ output_folder)
    (Report.nxos_result textfsm source_data <$> hostnames)
  = Report.nxos_frames textfsm source_data output_folder hostnames.
Proof.
  unfold Plain.readable, Report.nxos_frames. rewrite omap_fmap_compose.
  apply omap_ext_elem. intros h Hh. unfold Report.nxos_result.
  destruct (mac_address (Loader.load textfsm source_data h)) as [|row rows] eqn:Hmac.
  - rewrite truthy_xlsx. cbn [mbind option_bind]. rewrite read_own_workbook by done.
    unfold Report.nxos_records at 1 2. by rewrite Hmac.
  - destruct (Report.nxos_records textfsm source_data h) as [|r rs] eqn:Hr; [done|].
    rewrite truthy_xlsx. cbn [mbind option_bind]. rewrite read_own_workbook by done.
    by rewrite Hr.
Qed.

Lemma nxos_unreadable (textfsm : Loader.templates string) (source_data : Splitter.store)
    (output_folder : gmap string file) (hostnames : list string) :
  Plain.unreadable
    (Report.artifacts (Report.nxos_records textfsm source_data) hostnames ∪ output_folder)
    (Report.nxos_result textfsm source_data <$> hostnames)
  = Report.nxos_log textfsm source_data output_folder hostnames.
Proof.
  unfold Plain.unreadable, Report.nxos_log. rewrite omap_fmap_compose.
  apply omap_ext_elem. intros h Hh. unfold Report.nxos_result.
  destruct (mac_address (Loader.load textfsm source_data h)) as [|row rows] eqn:Hmac.
  - rewrite truthy_xlsx. cbn [mbind option_bind]. rewrite read_own_workbook by done.
    unfold Report.nxos_records. rewrite Hmac. cbn [filter fmap list_fmap list_filter].
    by destruct (Aggregator.read_excel output_folder _).
  - destruct (Report.nxos_records textfsm source_data h) as [|r rs] eqn:Hr; [done|].
    rewrite truthy_xlsx. cbn [mbind option_bind]. rewrite read_own_workbook by done.
    by rewrite Hr.
Qed.

(** The NX-OS [execute_main], start to end: the workers leave one workbook
    for each device with records; the read-back takes the records of those
    devices in listing order and, for a device with an empty MAC table,
    whatever workbook of its name the folder already held; the final report
    is the backfill of their concatenation.  Nothing raises. *)
Lemma nxos_execute_main_closed (textfsm : Loader.templates string)
    (source_data : Splitter.store) (hostnames : list string)
    (output_folder : gmap string file) :
  Dispatcher.execute_main (Dispatcher.nxos_worker textfsm source_data) (Some hostnames)
    output_folder
  = Ok (Report.final
          (Report.nxos_frames textfsm source_data output_folder hostnames)
          (Report.artifacts (Report.nxos_records textfsm source_data) hostnames
             ∪ output_folder)
          (Report.nxos_log textfsm source_data output_folder hostnames)).
Proof.
  unfold Dispatcher.execute_main.
  rewrite (pool_map_behaves _ _ _ _ _ (nxos_worker_behaves textfsm source_data)).
  cbn [mbind result_bind fst snd]. by rewrite aggregate_final, nxos_readable, nxos_unreadable.
Qed.

Lemma nonempty_frames (records : string → list PortRecord) (hostnames : list string) :
  let frames := omap (λ hostname, match records hostname with
                                  | [] => None
                                  | rows => Some rows
                                  end) hostnames in
  concat frames = concat (records <$> hostnames) ∧
  (frames = [] ↔ concat (records <$> hostnames) = []).
Proof.
  induction hostnames as [|h hostnames [IH1 IH2]]; [done|].
  cbn [omap list_omap fmap list_fmap concat].
  destruct (records h) as [|r rows] eqn:Hr; [done|].
  cbn [concat]. rewrite IH1. done.
Qed.

Lemma final_report (records : string → list PortRecord) (hostnames : list string)
    (output_folder : gmap string file) (log : list Aggregator.diagnostic) :
  Report.final
    (omap (λ hostname, match records hostname with
                       | [] => None
                       | rows => Some rows
                       end) hostnames) output_folder log
  = Report.report (concat (records <$> hostnames)) output_folder log.
Proof.
  destruct (nonempty_frames records hostnames) as [Hconcat Hnil].
  unfold Report.final, Report.report. rewrite <- Hconcat.
  destruct (omap _ hostnames) as [|f fs] eqn:Hf.
  - done.
  - destruct (concat (f :: fs)) eqn:Hc; [|done].
    assert (f :: fs = []) by (apply Hnil; congruence). done.
Qed.

Lemma xe_readable (textfsm : Loader.templates value) (source_data : Splitter.store)
    (output_folder : gmap string file) (hostnames : list string) :
  Plain.readable
    (Report.artifacts (Report.xe_records textfsm source_data) hostnames ∪ output_folder)
    (Report.xe_result textfsm source_data <$> hostnames)
  = omap (λ hostname, match Report.xe_records textfsm source_data hostname with
                      | [] => None
                      | rows => Some rows
                      end) hostnames.
Proof.
  unfold Plain.readable. rewrite omap_fmap_compose.
  apply omap_ext_elem. intros h Hh. unfold Report.xe_result.
  destruct (Report.xe_records textfsm source_data h) as [|r rs] eqn:Hr; [done|].
  rewrite truthy_xlsx. cbn [mbind option_bind]. rewrite read_own_workbook by done.
  by rewrite Hr.
Qed.

Lemma omap_none {A B} (f : A → option B) (l : list A) :
  (∀ x, x ∈ l → f x = None) → omap f l = [].
Proof.
  induction l as [|x l IH]; intros Hf; [done|]. cbn [omap list_omap].
  rewrite (Hf x) by (by left). apply IH. intros y Hy. apply Hf. by right.
Qed.

Lemma xe_unreadable (textfsm : Loader.templates value) (source_data : Splitter.store)
    (output_folder : gmap string file) (hostnames : list string) :
  Plain.unreadable
    (Report.artifacts (Report.xe_records textfsm source_data) hostnames ∪ output_folder)
    (Report.xe_result textfsm source_data <$> hostnames)
  = [].
Proof.
  unfold Plain.unreadable. rewrite omap_fmap_compose.
  apply omap_none. intros h Hh. unfold Report.xe_result.
  destruct (Report.xe_records textfsm source_data h) as [|r rs] eqn:Hr; [done|].
  rewrite truthy_xlsx. cbn [mbind option_bind]. rewrite read_own_workbook by done.
  by rewrite Hr.
Qed.

Lemma elem_of_concat {A} (x : A) (l : list A) (ls : list (list A)) :
  x ∈ l → l ∈ ls → x ∈ concat ls.
Proof.
  intros Hx Hl. induction ls as [|l' ls IH]; [by apply elem_of_nil in Hl|].
  cbn [concat]. apply elem_of_app. apply elem_of_cons in Hl as [->|Hl]; auto.
Qed.

(** X16.  A workbook that lay in the output folder under the name of a device
    whose MAC table is now empty is read back by the NX-OS [execute_main]:
    its rows enter the final report of this pass. *)
Theorem nxos_stale_workbook_enters_report (textfsm : Loader.templates string)
    (source_data : Splitter.store) (hostnames : list string)
    (output_folder : gmap string file) (hostname : string) (stale : list PortRecord) :
  hostname ∈ hostnames →
  mac_address (Loader.load textfsm source_data hostname) = [] →
  output_folder !! (hostname +:+ ".xlsx") = Some (Workbook stale) →
  ∃ rows folder log,
    Dispatcher.execute_main (Dispatcher.nxos_worker textfsm source_data) (Some hostnames)
      output_folder
    = Ok (Dispatcher.Finished folder log) ∧
    folder !! "Final_Report.xlsx" = Some (Workbook (Aggregator.backfill rows)) ∧
    stale ⊆ rows.
Proof.
  intros Hin Hmac Hstale. rewrite nxos_execute_main_closed.
  assert (stale ∈ Report.nxos_frames textfsm source_data output_folder hostnames) as Hframe.
  { unfold Report.nxos_frames. apply list_elem_of_omap. exists hostname. split; [done|].
    unfold Report.nxos_records. rewrite Hmac. cbn [filter fmap list_fmap list_filter].
    unfold Aggregator.read_excel. by rewrite Hstale. }
  unfold Report.final.
  destruct (Report.nxos_frames _ _ _ _) as [|f fs] eqn:Hf; [by apply elem_of_nil in Hframe|].
  eexists _, _, _. split; [done|]. split; [by rewrite lookup_insert_eq|].
  intros r Hr. by apply (elem_of_concat _ stale).
Qed.

Lemma nxos_stale_workbook_enters_report_witness :
  "sw1" ∈ ["sw1"] ∧
  mac_address (Loader.load Inputs.no_rows Sample.empty_dir "sw1") = [] ∧
  ({["sw1.xlsx" := Workbook Sample.two_ips_then_none]} : gmap string file)
    !! ("sw1" +:+ ".xlsx") = Some (Workbook Sample.two_ips_then_none) ∧
  ∃ rows folder log,
    Dispatcher.execute_main (Dispatcher.nxos_worker Inputs.no_rows Sample.empty_dir)
      (Some ["sw1"]) {["sw1.xlsx" := Workbook Sample.two_ips_then_none]}
    = Ok (Dispatcher.Finished folder log) ∧
    folder !! "Final_Report.xlsx" = Some (Workbook (Aggregator.backfill rows)) ∧
    Sample.two_ips_then_none ⊆ rows.
Proof.
  split; [by left|]. split; [reflexivity|]. split; [apply lookup_singleton_eq|].
  apply (nxos_stale_workbook_enters_report Inputs.no_rows Sample.empty_dir ["sw1"]
           {["sw1.xlsx" := Workbook Sample.two_ips_then_none]} "sw1"
           Sample.two_ips_then_none).
  - by left.
  - reflexivity.
  - apply lookup_singleton_eq.
Defined.

(** ** Segment Splitter, further *)

Lemma index_nl_lt (s : string) (i : nat) :
  Splitter.index_nl s = Some i → i < String.length s.
Proof.
  revert i. induction s as [|c s IH]; intros i; simpl; [done|].
  destruct (Ascii.eqb c Splitter.LF); [intros [= <-]; lia|].
  destruct (Splitter.index_nl s) as [j|]; [|done]. intros [= <-].
  specialize (IH j eq_refl). lia.
Qed.

Lemma length_drop_chars (n : nat) (s : string) :
  String.length (Splitter.drop_chars n s) = String.length s - n.
Proof.
  revert s. induction n as [|n IH]; intros s; [simpl; lia|].
  destruct s as [|c s]; simpl; [done|]. apply IH.
Qed.

Lemma prefix_length (p s : string) :
  String.prefix p s = true → String.length p ≤ String.length s.
Proof.
  revert s. induction p as [|a p IH]; intros s; [simpl; lia|].
  destruct s as [|b s]; [by simpl|]. rewrite prefix_cons.
  destruct (ascii_dec a b); [|done]. intros H%IH. simpl. lia.
Qed.

Lemma header_match_bounds (prompt s : string) (n : nat) :
  Splitter.header_match prompt s = Some n → 2 ≤ n ≤ String.length s.
Proof.
  unfold Splitter.header_match. destruct (String.prefix prompt s) eqn:Hp; [|done].
  apply prefix_length in Hp.
  destruct (Splitter.index_nl _) as [[|k]|] eqn:Hi; [done| |done]. intros [= <-].
  apply index_nl_lt in Hi. rewrite length_drop_chars in Hi. lia.
Qed.

Lemma re_split_go_concat (prompt : string) (s : string) (hdr : nat) (cur : string) :
  String.concat "" (Splitter.re_split_go prompt hdr cur s) = cur +:+ s.
Proof.
  revert hdr cur. induction s as [|c s IH]; intros hdr cur.
  - simpl. by rewrite append_nil_r.
  - cbn [Splitter.re_split_go].
    assert (∀ l x, String.concat "" (x :: l) = x +:+ String.concat "" l) as Hcons.
    { intros [|y l] x; simpl; [by rewrite append_nil_r|done]. }
    assert ((cur +:+ String c "") +:+ s = cur +:+ String c s) as Hsnoc.
    { by rewrite append_assoc. }
    destruct hdr as [|[|k]].
    + destruct (Splitter.header_match prompt (String c s)).
      * by rewrite Hcons, IH.
      * by rewrite IH.
    + by rewrite Hcons, IH.
    + by rewrite IH.
Qed.

Lemma re_split_go_parity (prompt : string) (s : string) (hdr : nat) (cur : string) :
  hdr ≤ String.length s →
  Nat.even (length (Splitter.re_split_go prompt hdr cur s)) = negb (Nat.eqb hdr 0).
Proof.
  revert hdr cur. induction s as [|c s IH]; intros hdr cur Hhdr.
  - simpl in Hhdr. by replace hdr with 0 by lia.
  - cbn [Splitter.re_split_go]. simpl in Hhdr. destruct hdr as [|[|k]].
    + destruct (Splitter.header_match prompt (String c s)) as [n|] eqn:Hm.
      * apply header_match_bounds in Hm. simpl in Hm.
        cbn [length]. rewrite Nat.even_succ, <- Nat.negb_even, IH by lia.
        destruct n as [|[|n]]; [lia|lia|done].
      * by rewrite IH by lia.
    + cbn [length]. rewrite Nat.even_succ, <- Nat.negb_even, IH by lia. done.
    + by rewrite IH by lia.
Qed.

Lemma flatten_header_body (blocks : list string) :
  Nat.even (length blocks) = true →
  Capture.flatten (Splitter.header_body blocks) = blocks.
Proof.
  revert blocks.
  assert (∀ n blocks, length blocks ≤ n → Nat.even (length blocks) = true →
            Capture.flatten (Splitter.header_body blocks) = blocks) as H.
  { induction n as [|n IH]; intros [|h [|b rest]] Hn Hev; try done.
    - simpl in Hn. lia.
    - simpl in Hn. cbn [Splitter.header_body]. unfold Capture.flatten in *.
      cbn [fmap list_fmap concat app fst snd]. f_equal. f_equal.
      apply IH; [lia|]. done. }
  intros blocks. by apply (H (length blocks)).
Qed.




(** ** Web front *)

Lemma rev_app_append (s1 s2 : string) : String.rev_app s1 s2 = String.rev s1 +:+ s2.
Proof.
  unfold String.rev. revert s2. induction s1 as [|a s1 IH]; intros s2; [done|].
  cbn [String.rev_app]. rewrite (IH (String a s2)), (IH (String a "")).
  by rewrite append_assoc.
Qed.

Lemma rev_cons (a : ascii) (s : string) :
  String.rev (String a s) = String.rev s +:+ String a "".
Proof. unfold String.rev at 1. cbn [String.rev_app]. apply rev_app_append. Qed.

Lemma rev_append (s t : string) : String.rev (s +:+ t) = String.rev t +:+ String.rev s.
Proof.
  induction s as [|a s IH]; [by rewrite append_nil_r|].
  change (String a s +:+ t) with (String a (s +:+ t)).
  by rewrite !rev_cons, IH, append_assoc.
Qed.

Lemma rev_involutive (s : string) : String.rev (String.rev s) = s.
Proof.
  induction s as [|a s IH]; [done|]. by rewrite rev_cons, rev_append, IH.
Qed.

Lemma contains_dot_nil : Py.contains "." "" = false.
Proof. done. Qed.

Lemma contains_dot_cons (c : ascii) (s : string) :
  Py.contains "." (String c s) = Ascii.eqb c "."%char || Py.contains "." s.
Proof.
  rewrite contains_cons, prefix_cons, prefix_nil.
  destruct (ascii_dec "." c) as [<-|Hne]; [done|].
  destruct (Ascii.eqb_spec c "."%char); [congruence|done].
Qed.

Lemma contains_dot_append (s t : string) :
  Py.contains "." (s +:+ t) = Py.contains "." s || Py.contains "." t.
Proof.
  induction s as [|c s IH]; [done|].
  change (String c s +:+ t) with (String c (s +:+ t)).
  by rewrite !contains_dot_cons, IH, orb_assoc.
Qed.

Lemma contains_dot_rev (s : string) : Py.contains "." (String.rev s) = Py.contains "." s.
Proof.
  induction s as [|c s IH]; [done|].
  rewrite rev_cons, contains_dot_append, !contains_dot_cons, IH, contains_dot_nil.
  by destruct (Ascii.eqb c "."), (Py.contains "." s).
Qed.

Lemma until_dot_append (x y : string) :
  Py.contains "." x = false → App.until_dot (x +:+ "." +:+ y) = x.
Proof.
  induction x as [|c x IH]; [done|].
  change (String c x +:+ "." +:+ y) with (String c (x +:+ "." +:+ y)).
  rewrite contains_dot_cons. cbn [App.until_dot].
  destruct (Ascii.eqb c "."); [done|]. intros Hx. by rewrite IH.
Qed.

Lemma until_dot_split (r : string) :
  Py.contains "." r = true → ∃ rest, r = App.until_dot r +:+ "." +:+ rest.
Proof.
  induction r as [|c r IH]; [done|]. rewrite contains_dot_cons. cbn [App.until_dot].
  destruct (Ascii.eqb_spec c "."%char) as [->|Hne].
  - intros _. by exists r.
  - intros [rest Hrest]%IH. exists rest.
    change (String c r = String c (App.until_dot r +:+ "." +:+ rest)). by rewrite <- Hrest.
Qed.

Lemma until_dot_dotless (r : string) : Py.contains "." (App.until_dot r) = false.
Proof.
  induction r as [|c r IH]; [done|]. cbn [App.until_dot].
  destruct (Ascii.eqb c ".") eqn:Hc; [done|]. by rewrite contains_dot_cons, Hc, IH.
Qed.

Lemma rsplit_dot_1_append (stem ext : string) :
  Py.contains "." ext = false → App.rsplit_dot_1 (stem +:+ "." +:+ ext) = ext.
Proof.
  intros Hext. unfold App.rsplit_dot_1. rewrite !rev_append.
  change (String.rev ".") with ".". rewrite append_assoc.
  rewrite until_dot_append by (by rewrite contains_dot_rev). apply rev_involutive.
Qed.

Lemma allowed_file_extension (stem ext : string) :
  Py.contains "." ext = false → App.lower ext ∈ App.ALLOWED_EXTENSIONS →
  App.allowed_file (stem +:+ "." +:+ ext) = true.
Proof.
  intros Hext Hlower. unfold App.allowed_file. apply andb_true_iff. split.
  - by apply contains_app_r, contains_app_l.
  - apply bool_decide_eq_true. by rewrite rsplit_dot_1_append.
Qed.

(** X20.  [allowed_file] accepts exactly the names whose text after the last dot
    is [txt] or [log] in any mix of capitals and small letters; the name
    before that dot can be anything, also nothing. *)
Theorem allowed_file_iff (filename : string) :
  App.allowed_file filename = true
  ↔ ∃ stem ext, filename = stem +:+ "." +:+ ext
                ∧ Py.contains "." ext = false
                ∧ App.lower ext ∈ App.ALLOWED_EXTENSIONS.
Proof.
  split.
  - unfold App.allowed_file. intros [Hdot Hext%bool_decide_eq_true]%andb_true_iff.
    rewrite <- contains_dot_rev in Hdot. apply until_dot_split in Hdot as [rest Hrest].
    exists (String.rev rest), (App.rsplit_dot_1 filename). split_and!.
    + rewrite <- (rev_involutive filename) at 1. rewrite Hrest at 1.
      rewrite !rev_append. change (String.rev ".") with ".". by rewrite append_assoc.
    + unfold App.rsplit_dot_1. rewrite contains_dot_rev. apply until_dot_dotless.
    + done.
  - intros (stem & ext & -> & Hext & Hlower). by apply allowed_file_extension.
Qed.

Lemma open_read_none (dir_list : list (string * string)) (name : string) :
  (∀ f, f ∈ dir_list → f.1 ≠ name) → Splitter.open_read dir_list name = None.
Proof.
  intros Hname. unfold Splitter.open_read.
  destruct (list_find _ dir_list) as [[i f]|] eqn:Hfind; [|done].
  apply list_find_Some in Hfind as (Hi & Hf & _).
  destruct (Hname f); [|done]. by eapply list_elem_of_lookup_2.
Qed.

Lemma split_loop_skips (d : Splitter.dialect) (dir_list : list (string * string))
    (filenames : list string) (acc : list string * Splitter.store) :
  (∀ name_file, Splitter.open_read dir_list (name_file +:+ ".txt") = None) →
  foldl (Splitter.split_file d dir_list) acc filenames = acc.
Proof.
  intros Hnone. revert acc. induction filenames as [|a filenames IH]; intros acc; [done|].
  cbn [foldl]. rewrite IH. unfold Splitter.split_file. by rewrite Hnone.
Qed.

(** X21.  The splitters open [<stem>.txt] only: an input folder without a file
    of that ending is split into nothing, without a message, whatever
    else it holds. *)
Theorem split_reads_txt_captures_only (d : Splitter.dialect) (path : string)
    (dir_list : list (string * string)) (output_dir : Splitter.store) :
  (∀ f name_file, f ∈ dir_list → f.1 ≠ name_file +:+ ".txt") →
  Splitter.execute_split d path (Some dir_list) output_dir = ([], output_dir).
Proof.
  intros Htxt. unfold Splitter.execute_split. apply split_loop_skips.
  intros name_file. apply open_read_none. intros f Hf. by apply Htxt.
Qed.

Lemma log_is_not_txt (stem name_file : string) : stem +:+ ".log" ≠ name_file +:+ ".txt".
Proof.
  intros Heq. apply (f_equal String.rev) in Heq. rewrite !rev_append in Heq.
  change (String.rev ".log") with "gol." in Heq.
  change (String.rev ".txt") with "txt." in Heq. discriminate Heq.
Qed.

Lemma split_reads_txt_captures_only_witness :
  (∀ f name_file, f ∈ [("sw1.log", Sample.uploads_sw2)] → f.1 ≠ name_file +:+ ".txt") ∧
  Splitter.execute_split Splitter.nxos "input" (Some [("sw1.log", Sample.uploads_sw2)])
    Sample.empty_dir
  = ([], Sample.empty_dir).
Proof.
  assert (∀ f name_file, f ∈ [("sw1.log", Sample.uploads_sw2)] →
                         f.1 ≠ name_file +:+ ".txt") as Htxt.
  { intros f name_file ->%list_elem_of_singleton. apply (log_is_not_txt "sw1"). }
  split; [exact Htxt|].
  exact (split_reads_txt_captures_only Splitter.nxos "input"
           [("sw1.log", Sample.uploads_sw2)] Sample.empty_dir Htxt).
Defined.

(** X24.  Uploads named [<stem>.log] pass [allowed_file], and a session of such
    uploads alone goes through [process_files] without a flash: nothing is
    split, [execute_main] finds no device and writes nothing, and the
    results page is served over an output folder left as it was. *)
Theorem log_uploads_give_empty_results (textfsm : Loader.templates string)
    (listdir : gset string → list string) (input_path : string)
    (input_folder : list (string * string)) (split_folder : Splitter.store)
    (output_folder : gmap string file) :
  (∀ D, listdir D ≡ₚ elements D) →
  Splitter.dirs split_folder = ∅ →
  (∀ f, f ∈ input_folder → ∃ stem, f.1 = stem +:+ ".log") →
  (∀ f, f ∈ input_folder → App.allowed_file f.1 = true) ∧
  App.process_files textfsm listdir input_path input_folder split_folder output_folder
  = App.Results split_folder
      (Dispatcher.Finished output_folder [Aggregator.No_data_was_aggregated]).
Proof.
  intros Hlistdir Hfresh Hlog. split.
  - intros f [stem ->]%Hlog. apply (allowed_file_extension stem "log"); [done|].
    apply (bool_decide_unpack _). vm_compute. exact I.
  - unfold App.process_files, Splitter.execute_split. rewrite split_loop_skips.
    + cbn [fst snd]. rewrite Hfresh.
      assert (listdir ∅ = []) as ->.
      { apply Permutation_nil_r. by rewrite Hlistdir, elements_empty. }
      done.
    + intros name_file. apply open_read_none. intros f [stem ->]%Hlog.
      apply log_is_not_txt.
Qed.

Lemma log_uploads_give_empty_results_witness :
  (∀ D : gset string, elements D ≡ₚ elements D) ∧
  Splitter.dirs Sample.empty_dir = ∅ ∧
  (∀ f, f ∈ [("sw1.log", Sample.uploads_sw2)] → ∃ stem, f.1 = stem +:+ ".log") ∧
  (∀ f, f ∈ [("sw1.log", Sample.uploads_sw2)] → App.allowed_file f.1 = true) ∧
  App.process_files Inputs.no_rows elements "input" [("sw1.log", Sample.uploads_sw2)]
    Sample.empty_dir ∅
  = App.Results Sample.empty_dir
      (Dispatcher.Finished ∅ [Aggregator.No_data_was_aggregated]).
Proof.
  assert (∀ f, f ∈ [("sw1.log", Sample.uploads_sw2)] → ∃ stem, f.1 = stem +:+ ".log")
    as Hlog.
  { intros f ->%list_elem_of_singleton. by exists "sw1". }
  split; [done|]. split; [done|]. split; [exact Hlog|].
  exact (log_uploads_give_empty_results Inputs.no_rows elements "input"
           [("sw1.log", Sample.uploads_sw2)] Sample.empty_dir ∅
           (λ D, reflexivity (elements D)) eq_refl Hlog).
Defined.

(** ** The sequential pipeline *)

Lemma seq_cdp_step_ok (cdp_neighbors : list Cdp.row) (acc : string * string * string)
    (intf : string) :
  cdp_neighbors ≠ [] →
  Sequential.cdp_step cdp_neighbors acc intf
  = Ok (foldl Sequential.cdp_update acc
          (Plain.cdp_hits cdp_neighbors (filter (λ intf, intf ≠ "") [intf]))).
Proof.
  intros Hne. unfold Sequential.cdp_step. destruct intf as [|c intf]; [done|].
  rewrite filter_cons_True by done. rewrite filter_nil.
  cbn [Builder.nonempty negb]. unfold Builder.cdp_loc, Frame.loc.
  destruct cdp_neighbors as [|r0 cdp]; [done|]. cbn [mbind result_bind]. f_equal.
  unfold Plain.cdp_hits. cbn [omap list_omap].
  unfold Plain.first_cell, Plain.cells, Plain.cdp_triple.
  destruct (head _) as [[[name platform] interface]|]; [|done].
  destruct acc as [[h p] i]. cbn [foldl]. unfold Sequential.cdp_update. simpl.
  by destruct (Py.contains name h), (Py.contains platform p).
Qed.

Lemma seq_cdp_loop (cdp_neighbors : list Cdp.row) (interfaces : list string)
    (acc : string * string * string) :
  cdp_neighbors ≠ [] →
  foldlM (Sequential.cdp_step cdp_neighbors) acc interfaces
  = Ok (foldl Sequential.cdp_update acc
          (Plain.cdp_hits cdp_neighbors (filter (λ intf, intf ≠ "") interfaces))).
Proof.
  intros Hne. revert acc. induction interfaces as [|intf interfaces IH]; intros acc; [done|].
  cbn [foldlM]. rewrite seq_cdp_step_ok by done. cbn [mbind result_bind]. rewrite IH.
  f_equal. change (intf :: interfaces) with ([intf] ++ interfaces).
  by rewrite filter_app, cdp_hits_app, foldl_app.
Qed.

Lemma seq_cdp_lookup_ok (cdp_neighbors : list Cdp.row) (port member_po : string) :
  Sequential.cdp_lookup cdp_neighbors port member_po
  = Ok (Sequential.cdp cdp_neighbors port member_po).
Proof.
  unfold Sequential.cdp_lookup, Sequential.cdp.
  destruct cdp_neighbors as [|r0 cdp]; [done|].
  cbn [Frame.empty]. destruct (Py.startswith port "Po").
  - rewrite seq_cdp_loop by done. cbn [mbind result_bind].
    by destruct (foldl _ _ _) as [[h p] i].
  - unfold Builder.cdp_loc, Frame.loc. cbn [mbind result_bind].
    unfold Plain.first_cell, Plain.cells, Plain.cdp_triple.
    by destruct (head _) as [[[name platform] interface]|].
Qed.

Lemma seq_lldp_lookup_ok (lldp_neighbors : list Lldp.row) (port : string) :
  Sequential.lldp_lookup lldp_neighbors port = Ok (Sequential.lldp lldp_neighbors port).
Proof.
  unfold Sequential.lldp_lookup, Sequential.lldp, Plain.lldp.
  destruct lldp_neighbors as [|r l]; [done|]. cbn [Frame.empty].
  destruct (Py.startswith port "Po"); [done|]. simpl.
  unfold Plain.first_cell, Plain.cells. by destruct (head _) as [[n i]|].
Qed.

Lemma seq_allowed_vlan_lookup_ok (interface_trunk : list Trunk.row) (port : string) :
  Sequential.allowed_vlan_lookup interface_trunk port
  = Ok (Plain.allowed_vlan interface_trunk port).
Proof.
  unfold Sequential.allowed_vlan_lookup, Plain.allowed_vlan.
  destruct interface_trunk as [|r l]; [done|]. simpl.
  unfold Plain.first_cell, Plain.cells.
  by destruct (head _) as [[s|l']|].
Qed.

Lemma seq_process_row_ok (hostname : string) (t : tables string) (row : Mac.row string) :
  Sequential.process_row hostname t row = Ok (Some (Sequential.record_of hostname t row)).
Proof.
  unfold Sequential.process_row. rewrite single_row_kept.
  rewrite nxos_sn_lookup_ok, ip_lookup_ok, desc_lookup_ok. cbn [mbind result_bind].
  unfold Sequential.record_of, Plain.sfp, Sequential.type_cable.
  destruct (Py.startswith (Mac.PORTS row) "Po") eqn:Hpo.
  - rewrite nxos_member_po_lookup_ok. cbn [mbind result_bind].
    rewrite sfp_member_ok. cbn [mbind result_bind].
    rewrite trunk_access_lookup_ok, seq_cdp_lookup_ok, seq_lldp_lookup_ok,
      seq_allowed_vlan_lookup_ok. done.
  - rewrite sfp_port_ok. cbn [mbind result_bind].
    rewrite trunk_access_lookup_ok, seq_cdp_lookup_ok, seq_lldp_lookup_ok,
      seq_allowed_vlan_lookup_ok. done.
Qed.

Lemma seq_build_loop (hostname : string) (t : tables string)
    (rows : list (Mac.row string)) (result : list PortRecord) :
  foldlM (λ result row,
            r ← Sequential.process_row hostname t row;
            Ok (match r with Some rec => result ++ [rec] | None => result end))
    result rows
  = Ok (result ++ (Sequential.record_of hostname t <$> rows)).
Proof.
  revert result. induction rows as [|row rows IH]; intros result.
  - simpl. by rewrite app_nil_r.
  - cbn [foldlM]. rewrite seq_process_row_ok. cbn [mbind result_bind]. rewrite IH.
    cbn [fmap list_fmap]. by rewrite <- app_assoc.
Qed.

Lemma seq_build_ok (hostname : string) (t : tables string) :
  Sequential.build hostname t = Ok (Sequential.record_of hostname t <$> mac_address t).
Proof. unfold Sequential.build. by rewrite seq_build_loop. Qed.

(** X25.  The row loop of [logic-single.py] never raises and skips no row: it
    gives one record for each row of the MAC table, in the order of the
    table and with the port, the MAC address and the VLAN of the row, the
    rows on a vPC port included. *)
Theorem sequential_keeps_every_row (hostname : string) (t : tables string) :
  ∃ records,
    Sequential.build hostname t = Ok records ∧
    (λ rec, (Port rec, Mac_Address rec, VLAN rec)) <$> records
    = (λ row, (Mac.PORTS row, Mac.MAC_ADDRESS row, Mac.VLAN_ID row)) <$> mac_address t.
Proof.
  eexists. split; [apply seq_build_ok|].
  rewrite <- list_fmap_compose. by apply list_fmap_ext.
Qed.

Lemma seq_cdp_update_fold (hits : list (string * string * string))
    (acc acc' : string * string * string) :
  acc.1 = acc'.1 →
  (foldl Sequential.cdp_update acc hits).1 = (foldl Plain.cdp_update acc' hits).1.
Proof.
  revert acc acc'. induction hits as [|hit hits IH]; intros acc acc' Heq; [done|].
  cbn [foldl]. apply IH. unfold Sequential.cdp_update, Plain.cdp_update. cbn [fst].
  destruct acc as [[h p] i], acc' as [[h' p'] i']. simpl in Heq. by injection Heq as -> ->.
Qed.

(** X26.  A row that [logic.py] keeps gets a record from [logic-single.py] as
    well, and the two differ at most in the cable type, the CDP neighbor
    port and the two LLDP fields: the other thirteen fields agree. *)
Theorem sequential_agrees_with_nxos (hostname : string) (t : tables string)
    (row : Mac.row string) :
  Py.contains "vPC" (Mac.PORTS row) = false →
  ∃ single nxos,
    Sequential.process_row hostname t row = Ok (Some single) ∧
    Nxos.process_row hostname t row = Ok (Some nxos) ∧
    Hostname single = Hostname nxos ∧ Serial_Number single = Serial_Number nxos ∧
    Port single = Port nxos ∧ Member_PO single = Member_PO nxos ∧
    SFP single = SFP nxos ∧ IP_Address single = IP_Address nxos ∧
    Mac_Address single = Mac_Address nxos ∧ VLAN single = VLAN nxos ∧
    Allowed_VLAN single = Allowed_VLAN nxos ∧ Trunk_Access single = Trunk_Access nxos ∧
    Description single = Description nxos ∧
    CDP_Neighbor_Hostname single = CDP_Neighbor_Hostname nxos ∧
    CDP_Neighbor_Platform single = CDP_Neighbor_Platform nxos.
Proof.
  intros Hkept. eexists _, _. split; [apply seq_process_row_ok|].
  split; [by rewrite nxos_process_row_ok, Hkept|].
  split_and!; try done.
  - unfold Sequential.record_of, Plain.nxos_record, Plain.port_record,
      Builder.record, Sequential.cdp, Plain.cdp_nxos. cbn [CDP_Neighbor_Hostname fst].
    destruct (cdp_neighbors t); [done|].
    destruct (Py.startswith (Mac.PORTS row) "Po"); [|done].
    unfold Plain.some3. cbn [fst].
    by rewrite (seq_cdp_update_fold _ _ ("", "", "")).
  - unfold Sequential.record_of, Plain.nxos_record, Plain.port_record,
      Builder.record, Sequential.cdp, Plain.cdp_nxos. cbn [CDP_Neighbor_Platform fst snd].
    destruct (cdp_neighbors t); [done|].
    destruct (Py.startswith (Mac.PORTS row) "Po"); [|done].
    unfold Plain.some3. cbn [fst snd].
    by rewrite (seq_cdp_update_fold _ _ ("", "", "")).
Qed.

Lemma sequential_agrees_with_nxos_witness :
  Py.contains "vPC" (Mac.PORTS Sample.po1_row) = false ∧
  ∃ single nxos,
    Sequential.process_row "sw1" Sample.nxos_tables Sample.po1_row = Ok (Some single) ∧
    Nxos.process_row "sw1" Sample.nxos_tables Sample.po1_row = Ok (Some nxos) ∧
    Hostname single = Hostname nxos ∧ Serial_Number single = Serial_Number nxos ∧
    Port single = Port nxos ∧ Member_PO single = Member_PO nxos ∧
    SFP single = SFP nxos ∧ IP_Address single = IP_Address nxos ∧
    Mac_Address single = Mac_Address nxos ∧ VLAN single = VLAN nxos ∧
    Allowed_VLAN single = Allowed_VLAN nxos ∧ Trunk_Access single = Trunk_Access nxos ∧
    Description single = Description nxos ∧
    CDP_Neighbor_Hostname single = CDP_Neighbor_Hostname nxos ∧
    CDP_Neighbor_Platform single = CDP_Neighbor_Platform nxos.
Proof.
  split; [reflexivity|].
  exact (sequential_agrees_with_nxos "sw1" Sample.nxos_tables Sample.po1_row eq_refl).
Defined.

(** *** The loop over the devices and [All_Devices.xlsx] *)

Lemma xlsx_all_devices (hostname : string) :
  hostname ≠ "All_Devices" → hostname +:+ ".xlsx" ≠ "All_Devices.xlsx".
Proof. intros Hne Heq. apply Hne. by apply (append_inj_r _ "All_Devices" ".xlsx"). Qed.

(** ** From a header to the name of its segment file *)

























(** * The pipeline with its exceptions *)

(** ** The splitter *)


















(** A capture that has all the commands and one more on an interface with
    a [/] in its name makes the run raise: the segment file of that
    command cannot be opened. *)
Lemma split_raises_on_slash :
  Full.execute_split Splitter.nxos "input"
    (Some [("sw1.txt", Full.Text Inputs.capture_with_slash)]) Sample.empty_dir
  = Run.Raised (Run.OSError "sw1/show_interface_Ethernet1/1.txt").
Proof. vm_compute. reflexivity. Qed.




(** X17.  For a stem that [re.split] reads as the text it is, the blocks
    it cuts a capture into are the text before the first header and then
    header and body, two by two: every header block has its body block,
    so [blocks[i+1]] is always there, and the blocks put together again
    are the capture. *)
Theorem blocks_pair_up (name_file sep data : string) :
  Full.literal name_file = true →
  ∃ blocks preamble,
    Full.re_split name_file sep data = Run.Returned blocks ∧
    blocks = preamble :: Capture.flatten (Splitter.odd_blocks blocks) ∧
    String.concat "" blocks = data.
Proof.
  intros Hliteral. unfold Full.re_split. rewrite Hliteral.
  set (blocks := Splitter.re_split (name_file +:+ sep) data).
  pose proof (re_split_go_parity (name_file +:+ sep) data 0 "" ltac:(lia)) as Hpar.
  fold (Splitter.re_split (name_file +:+ sep) data) in Hpar. fold blocks in Hpar.
  assert (String.concat "" blocks = data) as Hconcat by apply re_split_go_concat.
  destruct blocks as [|preamble rest]; [done|]. exists (preamble :: rest), preamble.
  split; [done|]. split; [|done]. f_equal.
  unfold Splitter.odd_blocks. cbn [tail]. rewrite flatten_header_body; [done|].
  cbn [length] in Hpar. rewrite Nat.even_succ, <- Nat.negb_even in Hpar.
  by destruct (Nat.even (length rest)).
Qed.

Lemma blocks_pair_up_witness :
  Full.literal "sw1" = true ∧
  ∃ blocks preamble,
    Full.re_split "sw1" "# show " Sample.uploads_sw2 = Run.Returned blocks ∧
    blocks = preamble :: Capture.flatten (Splitter.odd_blocks blocks) ∧
    String.concat "" blocks = Sample.uploads_sw2.
Proof.
  split; [reflexivity|].
  exact (blocks_pair_up "sw1" "# show " Sample.uploads_sw2 eq_refl).
Defined.

(** ** The workers *)

Lemma find_parses {P} (lib : Run.library P) (source_data : Splitter.store)
    (hostname : string) :
  match List.find (Run.raises_on lib source_data hostname) Run.segment_files with
  | Some _ => Run.parses lib source_data hostname = false
  | None => Run.parses lib source_data hostname = true
  end.
Proof.
  unfold Run.parses. induction Run.segment_files as [|filename l IH]; [done|].
  cbn [List.find forallb].
  destruct (Run.raises_on lib source_data hostname filename); [done|].
  cbn [negb andb]. apply IH.
Qed.

Lemma load_nxos_parses (lib : Run.library string) (source_data : Splitter.store)
    (hostname : string) :
  Run.parses lib source_data hostname = true →
  Run.load_nxos lib source_data hostname
  = Run.Returned (Loader.load (Run.textfsm lib) source_data hostname).
Proof.
  intros Hparses. unfold Run.load_nxos.
  pose proof (find_parses lib source_data hostname) as Hfind.
  destruct (List.find _ _); [congruence|done].
Qed.

Lemma load_nxos_raises (lib : Run.library string) (source_data : Splitter.store)
    (hostname : string) :
  Run.parses lib source_data hostname = false →
  ∃ filename, Run.load_nxos lib source_data hostname
              = Run.Raised (Run.TextFSMError filename).
Proof.
  intros Hparses. unfold Run.load_nxos.
  pose proof (find_parses lib source_data hostname) as Hfind.
  destruct (List.find _ _) as [filename|]; [by exists filename|congruence].
Qed.

(** What the NX-OS worker does when it meets no exception. *)
Lemma nxos_worker_quiet (lib : Run.library string) (source_data : Splitter.store)
    (hostname : string) (output_folder : Full.folder) :
  Full.nxos_quiet lib source_data hostname = true →
  Full.nxos_worker lib source_data hostname output_folder
  = Run.Returned
      (Report.nxos_result (Run.textfsm lib) source_data hostname,
       match Full.nxos_records lib source_data hostname with
       | [] => output_folder
       | rows => Some (<[hostname +:+ ".xlsx" := Workbook rows]> (default ∅ output_folder))
       end).
Proof.
  unfold Full.nxos_quiet, Full.nxos_worker, Full.nxos_records, Report.nxos_result,
    Report.nxos_records.
  intros [Hparses Hwrite]%andb_true_iff. rewrite load_nxos_parses by done.
  cbn [mbind Run.status_bind]. rewrite nxos_build_ok.
  destruct (mac_address _) as [|row rows] eqn:Hmac; [done|]. cbn [Frame.empty].
  destruct (_ <$> _) as [|r rs]; [done|]. by rewrite Hwrite.
Qed.

Lemma nxos_worker_returns (lib : Run.library string) (source_data : Splitter.store)
    (hostname : string) (output_folder : Full.folder) (r : option string * Full.folder) :
  Full.nxos_worker lib source_data hostname output_folder = Run.Returned r →
  Full.nxos_quiet lib source_data hostname = true.
Proof.
  unfold Full.nxos_quiet, Full.nxos_worker, Full.nxos_records, Report.nxos_records.
  destruct (Run.parses lib source_data hostname) eqn:Hparses.
  - rewrite load_nxos_parses by done. cbn [mbind Run.status_bind andb].
    rewrite nxos_build_ok.
    destruct (mac_address _) as [|row rows] eqn:Hmac; [done|]. cbn [Frame.empty].
    destruct (_ <$> _) as [|r0 rs]; [done|]. by destruct (Run.to_excel_sheets _ _ _ _).
  - destruct (load_nxos_raises _ _ _ Hparses) as [filename ->]. done.
Qed.

(** X11.  The NX-OS worker returns exactly when the engine raises on none
    of its nine segments and the writer takes the sheets of its workbook,
    if the device has records (a row lookup never raises).  When it
    returns it has written no file but the workbook named after its
    device, and that one only when the device has records. *)
Theorem nxos_worker_writes_own_workbook (lib : Run.library string)
    (source_data : Splitter.store) (hostname : string) (output_folder : Full.folder) :
  (Full.nxos_quiet lib source_data hostname = true
   ↔ ∃ r, Full.nxos_worker lib source_data hostname output_folder = Run.Returned r) ∧
  ∀ result output_folder',
    Full.nxos_worker lib source_data hostname output_folder
    = Run.Returned (result, output_folder') →
    (∀ name, name ≠ hostname +:+ ".xlsx" →
             Full.lookup output_folder' name = Full.lookup output_folder name) ∧
    Full.lookup output_folder' (hostname +:+ ".xlsx")
    = match Full.nxos_records lib source_data hostname with
      | [] => Full.lookup output_folder (hostname +:+ ".xlsx")
      | rows => Some (Workbook rows)
      end.
Proof.
  split.
  - split.
    + intros Hquiet. eexists. by apply nxos_worker_quiet.
    + intros [r Hr]. by apply (nxos_worker_returns _ _ _ _ _ Hr).
  - intros result output_folder' Hrun.
    rewrite nxos_worker_quiet in Hrun by (by apply (nxos_worker_returns _ _ _ _ _ Hrun)).
    injection Hrun as _ <-.
    destruct (Full.nxos_records lib source_data hostname) as [|r rows]; [done|].
    unfold Full.lookup. cbn [mbind option_bind]. split.
    + intros name Hne. rewrite lookup_insert_ne by done. by destruct output_folder.
    + by rewrite lookup_insert_eq.
Qed.

Lemma xe_build_records (lib : Run.library value) (source_data : Splitter.store)
    (hostname : string) :
  (Xe.build hostname (Run.load_xe lib source_data hostname)).1
  = Full.xe_records lib source_data hostname.
Proof. by rewrite xe_build_ok. Qed.

Lemma xe_records_no_rows (lib : Run.library value) (source_data : Splitter.store)
    (hostname : string) :
  mac_address (Run.load_xe lib source_data hostname) = [] →
  Full.xe_records lib source_data hostname = [].
Proof. unfold Full.xe_records. by intros ->. Qed.

(** What the IOS-XE worker does, whatever the library does. *)
Lemma xe_worker_closed (lib : Run.library value) (source_data : Splitter.store)
    (hostname : string) (output_folder : Full.folder) :
  Full.xe_worker lib source_data hostname output_folder
  = match Full.xe_records lib source_data hostname with
    | [] => Run.Returned (None, output_folder)
    | rows =>
        match output_folder with
        | None => Run.Raised (Run.OSError (hostname +:+ ".xlsx"))
        | Some files =>
            if Run.to_excel lib (hostname +:+ ".xlsx") rows
            then Run.Returned (Some (hostname +:+ ".xlsx"),
                               Some (<[hostname +:+ ".xlsx" := Workbook rows]> files))
            else Run.Raised (Run.ExcelError (hostname +:+ ".xlsx"))
        end
    end.
Proof.
  unfold Full.xe_worker. rewrite xe_build_records.
  destruct (mac_address _) as [|row rows] eqn:Hmac; [|done].
  cbn [Frame.empty]. by rewrite xe_records_no_rows.
Qed.

(** X12.  The IOS-XE worker returns exactly when its device has no record,
    or the output folder is there and the writer takes the records: it
    does not make the folder, and an exception of the engine gives a
    table without rows.  When it returns it has written no file but the
    workbook named after its device; it returns the name of that
    workbook exactly when it has written it, and [None] exactly when the
    device has no record and the folder is left as it was. *)
Theorem xe_worker_writes_own_workbook (lib : Run.library value)
    (source_data : Splitter.store) (hostname : string) (output_folder : Full.folder) :
  ((∃ r, Full.xe_worker lib source_data hostname output_folder = Run.Returned r)
   ↔ Full.xe_records lib source_data hostname = []
     ∨ (is_Some output_folder ∧ Full.xe_quiet lib source_data hostname = true)) ∧
  ∀ result output_folder',
    Full.xe_worker lib source_data hostname output_folder
    = Run.Returned (result, output_folder') →
    (∀ name, name ≠ hostname +:+ ".xlsx" →
             Full.lookup output_folder' name = Full.lookup output_folder name) ∧
    (result = None ↔ output_folder' = output_folder
                     ∧ Full.xe_records lib source_data hostname = []) ∧
    (∀ name, result = Some name →
       name = hostname +:+ ".xlsx" ∧
       Full.lookup output_folder' name
       = Some (Workbook (Full.xe_records lib source_data hostname))).
Proof.
  rewrite xe_worker_closed. unfold Full.xe_quiet.
  destruct (Full.xe_records lib source_data hostname) as [|r rows] eqn:Hrecords.
  - split; [split; [by left|by eexists]|].
    intros result output_folder' [= <- <-]. split_and!; [done|by split|by intros name [=]].
  - destruct output_folder as [files|].
    + destruct (Run.to_excel lib (hostname +:+ ".xlsx") (r :: rows)) eqn:Hwrite.
      * split; [split; [by right|by eexists]|].
        intros result output_folder' [= <- <-]. unfold Full.lookup.
        cbn [mbind option_bind]. split_and!.
        -- intros name Hne. by rewrite lookup_insert_ne.
        -- split; [done|]. by intros [_ ?].
        -- intros name [= <-]. by rewrite lookup_insert_eq.
      * split; [|done]. split; [by intros [? ?]|]. by intros [?|[_ ?]].
    + split; [|done]. split; [by intros [? ?]|].
      intros [?|[[? ?] _]]; done.
Qed.

(** ** [execute_main] *)

Lemma full_pool_map
    (worker : string → Full.folder → Run.status (option string * Full.folder))
    (records : string → list PortRecord) (result_of : string → option string)
    (quiet : string → bool) :
  (∀ hostname files, quiet hostname = true →
     worker hostname (Some files)
     = Run.Returned
         (result_of hostname,
          Some (match records hostname with
                | [] => files
                | rows => <[hostname +:+ ".xlsx" := Workbook rows]> files
                end))) →
  (∀ hostname files, quiet hostname = false →
     ∃ e, worker hostname (Some files) = Run.Raised e) →
  ∀ hostnames files,
    Full.pool_map worker hostnames (Some files)
    = if forallb quiet hostnames
      then Run.Returned (result_of <$> hostnames,
                         Some (Report.artifacts records hostnames ∪ files))
      else Run.Raised Run.WorkerError.
Proof.
  intros Hquiet Hraises hostnames.
  induction hostnames as [|hostname hostnames IH]; intros files.
  - simpl. unfold Report.artifacts, Py.dict. simpl. by rewrite (left_id_L ∅ (∪)).
  - cbn [Full.pool_map forallb]. destruct (quiet hostname) eqn:Hq.
    + rewrite Hquiet by done. cbn [fst snd andb]. rewrite IH.
      destruct (forallb quiet hostnames); [|done].
      cbn [mbind Run.status_bind fst snd fmap list_fmap]. do 3 f_equal.
      unfold Report.artifacts. cbn [omap list_omap].
      destruct (records hostname) as [|r rows]; [done|].
      rewrite dict_cons, <- (assoc_L (∪)). by rewrite insert_union_singleton_l.
    + destruct (Hraises hostname files Hq) as [e ->]. done.
Qed.

Lemma full_read_excel {P} (lib : Run.library P) (files : gmap string file)
    (filename : string) :
  Full.read_excel lib (Some files) filename
  = Run.read_back lib <$> Aggregator.read_excel files filename.
Proof.
  unfold Full.read_excel, Aggregator.read_excel, Full.lookup. cbn [mbind option_bind].
  by destruct (files !! filename) as [[df|]|].
Qed.

Lemma full_read_loop {P} (lib : Run.library P) (output_folder : Full.folder)
    (results : list (option string))
    (acc : list (list PortRecord) * list Aggregator.diagnostic) :
  foldl (Full.read_step lib output_folder) acc results
  = (acc.1 ++ omap (λ r, Aggregator.truthy r ≫= Full.read_excel lib output_folder) results,
     acc.2 ++ omap (λ r, filename ← Aggregator.truthy r;
                         match Full.read_excel lib output_folder filename with
                         | Some _ => None
                         | None => Some (Aggregator.Could_not_read filename)
                         end) results).
Proof.
  revert acc. induction results as [|r results IH]; intros [frames log]; simpl.
  - by rewrite !app_nil_r.
  - rewrite IH. unfold Full.read_step. simpl.
    destruct (Aggregator.truthy r) as [filename|]; simpl; [|done].
    destruct (Full.read_excel lib output_folder filename); simpl;
      by rewrite <- ?app_assoc.
Qed.

Lemma full_aggregate {P} (lib : Run.library P) (results : list (option string))
    (files : gmap string file) :
  Full.aggregate lib results (Some files)
  = Full.report lib
      (omap (λ r, Aggregator.truthy r ≫= Full.read_excel lib (Some files)) results)
      files
      (omap (λ r, filename ← Aggregator.truthy r;
                  match Full.read_excel lib (Some files) filename with
                  | Some _ => None
                  | None => Some (Aggregator.Could_not_read filename)
                  end) results).
Proof.
  unfold Full.aggregate, Full.report. rewrite full_read_loop. simpl.
  by destruct (omap _ results).
Qed.

Lemma nxos_worker_not_quiet (lib : Run.library string) (source_data : Splitter.store)
    (hostname : string) (output_folder : Full.folder) :
  Full.nxos_quiet lib source_data hostname = false →
  ∃ e, Full.nxos_worker lib source_data hostname output_folder = Run.Raised e.
Proof.
  unfold Full.nxos_quiet, Full.nxos_worker, Full.nxos_records, Report.nxos_records.
  destruct (Run.parses lib source_data hostname) eqn:Hparses.
  - rewrite load_nxos_parses by done. cbn [mbind Run.status_bind andb].
    rewrite nxos_build_ok.
    destruct (mac_address _) as [|row rows] eqn:Hmac; [done|]. cbn [Frame.empty].
    destruct (_ <$> _) as [|r0 rs]; [done|]. intros ->. by eexists.
  - destruct (load_nxos_raises _ _ _ Hparses) as [filename ->]. by eexists.
Qed.

Lemma nxos_frames_closed (lib : Run.library string) (source_data : Splitter.store)
    (hostnames : list string) (files : gmap string file) :
  omap (λ r, Aggregator.truthy r
             ≫= Full.read_excel lib
                  (Some (Report.artifacts (Full.nxos_records lib source_data) hostnames
                           ∪ files)))
    (Report.nxos_result (Run.textfsm lib) source_data <$> hostnames)
  = Full.nxos_frames lib source_data files hostnames.
Proof.
  unfold Full.nxos_frames. rewrite omap_fmap_compose.
  apply omap_ext_elem. intros h Hh. unfold Report.nxos_result, Full.nxos_records.
  destruct (mac_address (Loader.load (Run.textfsm lib) source_data h))
    as [|row rows] eqn:Hmac.
  - rewrite truthy_xlsx. cbn [mbind option_bind].
    rewrite !full_read_excel, read_own_workbook by done.
    unfold Report.nxos_records. rewrite Hmac.
    by cbn [filter fmap list_fmap list_filter].
  - destruct (Report.nxos_records (Run.textfsm lib) source_data h) as [|r rs] eqn:Hr;
      [done|].
    rewrite truthy_xlsx. cbn [mbind option_bind].
    rewrite full_read_excel, read_own_workbook by done. by rewrite Hr.
Qed.

Lemma nxos_frames_fresh (lib : Run.library string) (source_data : Splitter.store)
    (hostnames : list string) (files : gmap string file) :
  (∀ hostname, hostname ∈ hostnames → files !! (hostname +:+ ".xlsx") = None) →
  Full.nxos_frames lib source_data files hostnames
  = Full.frames lib (Full.nxos_records lib source_data) hostnames.
Proof.
  intros Hfresh. unfold Full.nxos_frames, Full.frames.
  apply omap_ext_elem. intros h Hh.
  destruct (Full.nxos_records lib source_data h); [|done].
  destruct (mac_address _); [|done].
  unfold Full.read_excel, Full.lookup. cbn [mbind option_bind]. by rewrite (Hfresh h Hh).
Qed.

Lemma nxos_log_closed (lib : Run.library string) (source_data : Splitter.store)
    (hostnames : list string) (files : gmap string file) :
  omap (λ r, filename ← Aggregator.truthy r;
             match Full.read_excel lib
                     (Some (Report.artifacts (Full.nxos_records lib source_data) hostnames
                              ∪ files)) filename with
             | Some _ => None
             | None => Some (Aggregator.Could_not_read filename)
             end)
    (Report.nxos_result (Run.textfsm lib) source_data <$> hostnames)
  = Report.nxos_log (Run.textfsm lib) source_data files hostnames.
Proof.
  unfold Report.nxos_log. rewrite omap_fmap_compose.
  apply omap_ext_elem. intros h Hh. unfold Report.nxos_result, Full.nxos_records.
  destruct (mac_address (Loader.load (Run.textfsm lib) source_data h))
    as [|row rows] eqn:Hmac.
  - rewrite truthy_xlsx. cbn [mbind option_bind].
    rewrite full_read_excel, read_own_workbook by done.
    unfold Report.nxos_records. rewrite Hmac. cbn [filter fmap list_fmap list_filter].
    by destruct (Aggregator.read_excel files (h +:+ ".xlsx")).
  - destruct (Report.nxos_records (Run.textfsm lib) source_data h) as [|r rs] eqn:Hr;
      [done|].
    rewrite truthy_xlsx. cbn [mbind option_bind].
    rewrite full_read_excel, read_own_workbook by done. by rewrite Hr.
Qed.

(** The NX-OS [execute_main] whatever the output folder held. *)
Lemma full_nxos_execute_main (lib : Run.library string) (source_data : Splitter.store)
    (hostnames : list string) (files : gmap string file) :
  Full.execute_main lib (Full.nxos_worker lib source_data) (Some hostnames) (Some files)
  = if forallb (Full.nxos_quiet lib source_data) hostnames then
      Full.report lib
        (Full.nxos_frames lib source_data files hostnames)
        (Report.artifacts (Full.nxos_records lib source_data) hostnames ∪ files)
        (Report.nxos_log (Run.textfsm lib) source_data files hostnames)
    else Run.Raised Run.WorkerError.
Proof.
  unfold Full.execute_main.
  rewrite (full_pool_map _ (Full.nxos_records lib source_data)
             (Report.nxos_result (Run.textfsm lib) source_data)
             (Full.nxos_quiet lib source_data)).
  - destruct (forallb _ hostnames); [|done]. cbn [mbind Run.status_bind fst snd].
    by rewrite full_aggregate, nxos_frames_closed, nxos_log_closed.
  - intros hostname files' Hquiet. rewrite nxos_worker_quiet by done. cbn [default].
    by destruct (Full.nxos_records lib source_data hostname).
  - intros hostname files' Hquiet. by apply nxos_worker_not_quiet.
Qed.

(** X14.  The NX-OS [execute_main] on an output folder that holds no
    workbook of a listed device.  If the worker of some device meets an
    exception (the engine raises on a segment, or the writer does not take
    the records), [pool.map] raises.  Otherwise each device with records
    has its workbook, and the final report is the backfill of what
    [pd.read_excel] reads back from these workbooks, device after device
    in listing order; the devices with an empty MAC table are reported as
    not read.  When no device has a record no final report is written,
    and when the writer does not take the final report the call raises. *)
Theorem nxos_final_report_fresh_folder (lib : Run.library string)
    (source_data : Splitter.store) (hostnames : list string) (files : gmap string file) :
  (∀ hostname, hostname ∈ hostnames → files !! (hostname +:+ ".xlsx") = None) →
  Full.execute_main lib (Full.nxos_worker lib source_data) (Some hostnames) (Some files)
  = if forallb (Full.nxos_quiet lib source_data) hostnames then
      Full.report lib
        (Full.frames lib (Full.nxos_records lib source_data) hostnames)
        (Report.artifacts (Full.nxos_records lib source_data) hostnames ∪ files)
        (Report.nxos_log (Run.textfsm lib) source_data files hostnames)
    else Run.Raised Run.WorkerError.
Proof.
  intros Hfresh. rewrite full_nxos_execute_main.
  by rewrite (nxos_frames_fresh lib source_data hostnames files Hfresh).
Qed.

Lemma nxos_final_report_fresh_folder_witness :
  (∀ hostname, hostname ∈ ["sw1"] →
     (∅ : gmap string file) !! (hostname +:+ ".xlsx") = None) ∧
  Full.execute_main Inputs.nxos_library
    (Full.nxos_worker Inputs.nxos_library Sample.empty_dir) (Some ["sw1"]) (Some ∅)
  = if forallb (Full.nxos_quiet Inputs.nxos_library Sample.empty_dir) ["sw1"] then
      Full.report Inputs.nxos_library
        (Full.frames Inputs.nxos_library
           (Full.nxos_records Inputs.nxos_library Sample.empty_dir) ["sw1"])
        (Report.artifacts (Full.nxos_records Inputs.nxos_library Sample.empty_dir) ["sw1"]
           ∪ ∅)
        (Report.nxos_log (Run.textfsm Inputs.nxos_library) Sample.empty_dir ∅ ["sw1"])
    else Run.Raised Run.WorkerError.
Proof.
  split; [intros; apply lookup_empty|].
  exact (nxos_final_report_fresh_folder Inputs.nxos_library Sample.empty_dir ["sw1"] ∅
           (λ hostname _, lookup_empty _)).
Defined.

Lemma xe_frames (lib : Run.library value) (source_data : Splitter.store)
    (hostnames : list string) (files : gmap string file) :
  let result_of hostname :=
    match Full.xe_records lib source_data hostname with
    | [] => None
    | _ => Some (hostname +:+ ".xlsx")
    end in
  let folder := Some (Report.artifacts (Full.xe_records lib source_data) hostnames ∪ files) in
  omap (λ r, Aggregator.truthy r ≫= Full.read_excel lib folder) (result_of <$> hostnames)
  = Full.frames lib (Full.xe_records lib source_data) hostnames ∧
  omap (λ r, filename ← Aggregator.truthy r;
             match Full.read_excel lib folder filename with
             | Some _ => None
             | None => Some (Aggregator.Could_not_read filename)
             end) (result_of <$> hostnames)
  = [].
Proof.
  intros result_of folder. unfold Full.frames, folder, result_of.
  rewrite !omap_fmap_compose. split.
  - apply omap_ext_elem. intros h Hh.
    destruct (Full.xe_records lib source_data h) as [|r rs] eqn:Hr; [done|].
    rewrite truthy_xlsx. cbn [mbind option_bind].
    rewrite full_read_excel, read_own_workbook by done. by rewrite Hr.
  - apply omap_none. intros h Hh.
    destruct (Full.xe_records lib source_data h) as [|r rs] eqn:Hr; [done|].
    rewrite truthy_xlsx. cbn [mbind option_bind].
    rewrite full_read_excel, read_own_workbook by done. by rewrite Hr.
Qed.

(** X15.  The IOS-XE [execute_main] on an output folder that is there,
    whatever it holds.  If the writer does not take the records of some
    device, [pool.map] raises.  Otherwise each device with records has
    its workbook, no workbook is found unreadable, and the final report
    is the backfill of what [pd.read_excel] reads back from these
    workbooks in listing order; when no device has a record no final
    report is written, and when the writer does not take the final
    report the call raises. *)
Theorem xe_execute_main (lib : Run.library value) (source_data : Splitter.store)
    (hostnames : list string) (files : gmap string file) :
  Full.execute_main lib (Full.xe_worker lib source_data) (Some hostnames) (Some files)
  = if forallb (Full.xe_quiet lib source_data) hostnames then
      Full.report lib
        (Full.frames lib (Full.xe_records lib source_data) hostnames)
        (Report.artifacts (Full.xe_records lib source_data) hostnames ∪ files)
        []
    else Run.Raised Run.WorkerError.
Proof.
  unfold Full.execute_main.
  rewrite (full_pool_map _ (Full.xe_records lib source_data)
             (λ hostname, match Full.xe_records lib source_data hostname with
                          | [] => None
                          | _ => Some (hostname +:+ ".xlsx")
                          end)
             (Full.xe_quiet lib source_data)).
  - destruct (forallb _ hostnames); [|done]. cbn [mbind Run.status_bind fst snd].
    rewrite full_aggregate.
    destruct (xe_frames lib source_data hostnames files) as [-> ->]. done.
  - intros hostname files' Hquiet. rewrite xe_worker_closed. unfold Full.xe_quiet in Hquiet.
    destruct (Full.xe_records lib source_data hostname); [done|]. cbv zeta.
    by rewrite Hquiet.
  - intros hostname files' Hquiet. rewrite xe_worker_closed. unfold Full.xe_quiet in Hquiet.
    destruct (Full.xe_records lib source_data hostname); [done|]. cbv zeta.
    rewrite Hquiet. by eexists.
Qed.

(** ** [process_files] *)

(** The uploads of a session whose capture has a command with a [/]: the
    exception of the splitter is flashed. *)
Lemma process_files_flashes_exception (lib : Run.library string)
    (listdir : gset string → list string) (output_folder : gmap string file) :
  Full.process_files lib listdir "input"
    [("sw1.txt", Full.Text Inputs.capture_with_slash)] Sample.empty_dir output_folder
  = Run.Returned (Full.Failed (Run.OSError "sw1/show_interface_Ethernet1/1.txt")).
Proof.
  unfold Full.process_files.
  assert (Full.execute_split Splitter.nxos "input"
            (Some [("sw1.txt", Full.Text Inputs.capture_with_slash)]) Sample.empty_dir
          = Run.Raised (Run.OSError "sw1/show_interface_Ethernet1/1.txt")) as ->
    by (by vm_compute).
  done.
Qed.

(** X22.  [process_files], once the uploads are saved, by what
    [execute_split] does.  An exception of the splitter is flashed.
    Messages of the splitter are flashed and [execute_main] is not run.
    With no message, [execute_main] processes the device directories of
    the split folder: if a worker meets an exception, or the writer does
    not take the final report, the exception is flashed; otherwise the
    results page is served, over the workbooks of the devices with records
    and the final report read back from them. *)
Theorem process_files_outcome (lib : Run.library string)
    (listdir : gset string → list string) (input_path : string)
    (input_folder : list (string * Full.content)) (split_folder : Splitter.store)
    (output_folder : gmap string file) :
  match Full.execute_split Splitter.nxos input_path (Some input_folder) split_folder with
  | Run.Returned ([], split_folder') =>
      let hostnames := listdir (Splitter.dirs split_folder') in
      Full.process_files lib listdir input_path input_folder split_folder output_folder
      = if forallb (Full.nxos_quiet lib split_folder') hostnames then
          Full.guarded split_folder'
            (Full.report lib
               (Full.nxos_frames lib split_folder' output_folder hostnames)
               (Report.artifacts (Full.nxos_records lib split_folder') hostnames
                  ∪ output_folder)
               (Report.nxos_log (Run.textfsm lib) split_folder' output_folder hostnames))
        else Run.Returned (Full.Failed Run.WorkerError)
  | Run.Returned (validation_errors, split_folder') =>
      Full.process_files lib listdir input_path input_folder split_folder output_folder
      = Run.Returned (Full.Rejected validation_errors split_folder')
  | Run.Raised e =>
      Full.process_files lib listdir input_path input_folder split_folder output_folder
      = Run.Returned (Full.Failed e)
  | Run.Undescribed =>
      Full.process_files lib listdir input_path input_folder split_folder output_folder
      = Run.Undescribed
  end.
Proof.
  unfold Full.process_files.
  destruct (Full.execute_split _ _ _ _) as [[[|m ms] split_folder']| |]; [|done..].
  cbv zeta. rewrite full_nxos_execute_main. by destruct (forallb _ _).
Qed.



(** ** The sequential pipeline with its exceptions *)

Lemma seq_process_hostname_quiet (lib : Run.library string)
    (source_data : Splitter.store) (hostname : string) (output_folder : gmap string file) :
  Sequential.quiet lib source_data hostname = true →
  Sequential.process_hostname lib source_data hostname output_folder
  = match Sequential.records (Run.textfsm lib) source_data hostname with
    | [] => Run.Returned output_folder
    | result =>
        Sequential.append_all_devices lib result
          (<[hostname +:+ ".xlsx" := Workbook result]> output_folder)
    end.
Proof.
  unfold Sequential.quiet, Sequential.process_hostname, Sequential.records.
  intros [Hparses Hwrite]%andb_true_iff.
  rewrite load_nxos_parses by done. cbn [mbind Run.status_bind].
  rewrite seq_build_ok.
  destruct (mac_address _) as [|row rows]; [done|]. cbn [Frame.empty].
  cbn [fmap list_fmap] in *.
  apply andb_true_iff in Hwrite as [-> _]. done.
Qed.

Lemma seq_quiet_all_devices (lib : Run.library string) (source_data : Splitter.store)
    (hostname : string) (r : PortRecord) (rs : list PortRecord) :
  Sequential.records (Run.textfsm lib) source_data hostname = r :: rs →
  Sequential.quiet lib source_data hostname = true →
  Run.to_excel lib "All_Devices.xlsx" (r :: rs) = true.
Proof.
  unfold Sequential.quiet. intros ->. by intros [_ [_ ?]%andb_true_iff]%andb_true_iff.
Qed.

Lemma seq_loop_appends (lib : Run.library string)
    (source_data : Splitter.store) (hostnames : list string)
    (output_folder : gmap string file) (old : list PortRecord) :
  (∀ hostname, hostname ∈ hostnames → hostname ≠ "All_Devices") →
  (∀ hostname, hostname ∈ hostnames →
     Sequential.quiet lib source_data hostname = true) →
  output_folder !! "All_Devices.xlsx" = Some (Workbook old) →
  ∃ output_folder',
    Run.foldlM (λ output_folder hostname,
                  Sequential.process_hostname lib source_data hostname output_folder)
      output_folder hostnames = Run.Returned output_folder' ∧
    output_folder' !! "All_Devices.xlsx"
    = Some (Workbook
              (old ++ concat (Sequential.records (Run.textfsm lib) source_data
                                <$> hostnames))).
Proof.
  revert output_folder old.
  induction hostnames as [|h hostnames IH]; intros output_folder old Hnames Hquiet Hold.
  - eexists. split; [done|]. cbn [fmap list_fmap concat]. by rewrite app_nil_r.
  - cbn [Run.foldlM]. rewrite seq_process_hostname_quiet by (apply Hquiet; by left).
    cbn [fmap list_fmap concat].
    pose proof (Hquiet h ltac:(by left)) as Hq.
    destruct (Sequential.records (Run.textfsm lib) source_data h) as [|r rs] eqn:Hr.
    + cbn [mbind Run.status_bind].
      apply IH; [|intros h' Hh'; apply Hquiet; by right|done].
      intros h' Hh'. apply Hnames. by right.
    + unfold Sequential.append_all_devices.
      rewrite lookup_insert_ne by (apply xlsx_all_devices, Hnames; by left).
      rewrite Hold, (seq_quiet_all_devices _ _ _ _ _ Hr Hq). cbn [mbind Run.status_bind].
      rewrite app_assoc.
      apply IH; [intros h' Hh'; apply Hnames; by right
                |intros h' Hh'; apply Hquiet; by right|].
      by rewrite lookup_insert_eq.
Qed.

Lemma seq_loop_fresh (lib : Run.library string)
    (source_data : Splitter.store) (hostnames : list string)
    (output_folder : gmap string file) :
  (∀ hostname, hostname ∈ hostnames → hostname ≠ "All_Devices") →
  (∀ hostname, hostname ∈ hostnames →
     Sequential.quiet lib source_data hostname = true) →
  output_folder !! "All_Devices.xlsx" = None →
  ∃ output_folder',
    Run.foldlM (λ output_folder hostname,
                  Sequential.process_hostname lib source_data hostname output_folder)
      output_folder hostnames = Run.Returned output_folder' ∧
    output_folder' !! "All_Devices.xlsx"
    = match concat (Sequential.records (Run.textfsm lib) source_data <$> hostnames) with
      | [] => None
      | rows => Some (Workbook rows)
      end.
Proof.
  revert output_folder.
  induction hostnames as [|h hostnames IH]; intros output_folder Hnames Hquiet Hnone.
  - eexists. split; [done|]. done.
  - cbn [Run.foldlM]. rewrite seq_process_hostname_quiet by (apply Hquiet; by left).
    cbn [fmap list_fmap concat].
    pose proof (Hquiet h ltac:(by left)) as Hq.
    destruct (Sequential.records (Run.textfsm lib) source_data h) as [|r rs] eqn:Hr.
    + cbn [mbind Run.status_bind].
      apply IH; [|intros h' Hh'; apply Hquiet; by right|done].
      intros h' Hh'. apply Hnames. by right.
    + unfold Sequential.append_all_devices.
      rewrite lookup_insert_ne by (apply xlsx_all_devices, Hnames; by left).
      rewrite Hnone, (seq_quiet_all_devices _ _ _ _ _ Hr Hq). cbn [mbind Run.status_bind].
      destruct (seq_loop_appends lib source_data hostnames
                  (<["All_Devices.xlsx" := Workbook (r :: rs)]>
                     (<[h +:+ ".xlsx" := Workbook (r :: rs)]> output_folder))
                  (r :: rs)) as (folder' & Hloop & Hall).
      * intros h' Hh'. apply Hnames. by right.
      * intros h' Hh'. apply Hquiet. by right.
      * apply lookup_insert_eq.
      * exists folder'. split; [exact Hloop|]. by rewrite Hall.
Qed.

Lemma seq_execute_main_appends (lib : Run.library string)
    (source_data : Splitter.store) (hostnames : list string)
    (output_folder : gmap string file) (old : list PortRecord) :
  let rows := old ++ concat (Sequential.records (Run.textfsm lib) source_data
                               <$> hostnames) in
  let df := Aggregator.backfill (Run.read_back lib rows) in
  (∀ hostname, hostname ∈ hostnames → hostname ≠ "All_Devices") →
  (∀ hostname, hostname ∈ hostnames →
     Sequential.quiet lib source_data hostname = true) →
  output_folder !! "All_Devices.xlsx" = Some (Workbook old) →
  Run.to_excel lib "Final_Report.xlsx" df = true →
  ∃ output_folder',
    Sequential.execute_main lib source_data (Some hostnames) output_folder
    = Run.Returned output_folder' ∧
    output_folder' !! "All_Devices.xlsx" = Some (Workbook rows) ∧
    output_folder' !! "Final_Report.xlsx" = Some (Workbook df).
Proof.
  intros rows df Hnames Hquiet Hold Hreport.
  destruct (seq_loop_appends lib source_data hostnames output_folder old Hnames Hquiet Hold)
    as (folder' & Hloop & Hall).
  unfold Sequential.execute_main. rewrite Hloop. cbn [mbind Run.status_bind].
  rewrite Hall. cbv zeta. fold rows. fold df. rewrite Hreport.
  eexists. split; [done|]. split.
  - by rewrite lookup_insert_ne.
  - by rewrite lookup_insert_eq.
Qed.

(** X27.  [logic-single.py] never starts [All_Devices.xlsx] anew.  When the
    turn of no device meets an exception (the engine returns on every
    segment and the writer takes the records) and the writer takes the
    final report, the records of a pass are put below the rows the
    workbook already holds, and the final report is the backfill of what
    [pd.read_excel] reads back from the old rows and the new. *)
Theorem sequential_appends_to_all_devices (lib : Run.library string)
    (source_data : Splitter.store) (hostnames : list string)
    (output_folder : gmap string file) (old : list PortRecord) :
  let rows := old ++ concat (Sequential.records (Run.textfsm lib) source_data
                               <$> hostnames) in
  let df := Aggregator.backfill (Run.read_back lib rows) in
  (∀ hostname, hostname ∈ hostnames → hostname ≠ "All_Devices") →
  (∀ hostname, hostname ∈ hostnames →
     Sequential.quiet lib source_data hostname = true) →
  output_folder !! "All_Devices.xlsx" = Some (Workbook old) →
  Run.to_excel lib "Final_Report.xlsx" df = true →
  ∃ output_folder',
    Sequential.execute_main lib source_data (Some hostnames) output_folder
    = Run.Returned output_folder' ∧
    output_folder' !! "All_Devices.xlsx" = Some (Workbook rows) ∧
    output_folder' !! "Final_Report.xlsx" = Some (Workbook df).
Proof. apply seq_execute_main_appends. Qed.

Lemma sequential_appends_to_all_devices_witness :
  let lib := Inputs.nxos_library in
  let rows := Sample.two_ips_then_none
              ++ concat (Sequential.records (Run.textfsm lib) Sample.empty_dir
                           <$> ["sw1"]) in
  let df := Aggregator.backfill (Run.read_back lib rows) in
  (∀ hostname, hostname ∈ ["sw1"] → hostname ≠ "All_Devices") ∧
  (∀ hostname, hostname ∈ ["sw1"] →
     Sequential.quiet lib Sample.empty_dir hostname = true) ∧
  ({["All_Devices.xlsx" := Workbook Sample.two_ips_then_none]} : gmap string file)
    !! "All_Devices.xlsx" = Some (Workbook Sample.two_ips_then_none) ∧
  Run.to_excel lib "Final_Report.xlsx" df = true ∧
  ∃ output_folder',
    Sequential.execute_main lib Sample.empty_dir (Some ["sw1"])
      {["All_Devices.xlsx" := Workbook Sample.two_ips_then_none]}
    = Run.Returned output_folder' ∧
    output_folder' !! "All_Devices.xlsx" = Some (Workbook rows) ∧
    output_folder' !! "Final_Report.xlsx" = Some (Workbook df).
Proof.
  intros lib rows df.
  assert (∀ hostname, hostname ∈ ["sw1"] → hostname ≠ "All_Devices") as Hnames.
  { by intros hostname ->%list_elem_of_singleton. }
  assert (∀ hostname, hostname ∈ ["sw1"] →
            Sequential.quiet lib Sample.empty_dir hostname = true)
    as Hquiet.
  { intros hostname ->%list_elem_of_singleton. by vm_compute. }
  split; [exact Hnames|]. split; [exact Hquiet|]. split; [apply lookup_singleton_eq|].
  split; [reflexivity|].
  exact (sequential_appends_to_all_devices lib Sample.empty_dir ["sw1"]
           {["All_Devices.xlsx" := Workbook Sample.two_ips_then_none]}
           Sample.two_ips_then_none Hnames Hquiet (lookup_singleton_eq _ _) eq_refl).
Defined.

(** X28.  Run twice over the same devices into a folder that had no
    [All_Devices.xlsx], with no exception in the turn of any device and a
    writer that takes both final reports, [logic-single.py] writes a
    second final report made from every record twice: the pass is not
    idempotent. *)
Theorem sequential_rerun_doubles_report (lib : Run.library string)
    (source_data : Splitter.store) (hostnames : list string)
    (output_folder : gmap string file) :
  let rows := concat (Sequential.records (Run.textfsm lib) source_data <$> hostnames) in
  let report rows := Aggregator.backfill (Run.read_back lib rows) in
  (∀ hostname, hostname ∈ hostnames → hostname ≠ "All_Devices") →
  (∀ hostname, hostname ∈ hostnames →
     Sequential.quiet lib source_data hostname = true) →
  output_folder !! "All_Devices.xlsx" = None →
  rows ≠ [] →
  Run.to_excel lib "Final_Report.xlsx" (report rows) = true →
  Run.to_excel lib "Final_Report.xlsx" (report (rows ++ rows)) = true →
  ∃ first second,
    Sequential.execute_main lib source_data (Some hostnames) output_folder
    = Run.Returned first ∧
    Sequential.execute_main lib source_data (Some hostnames) first
    = Run.Returned second ∧
    first !! "Final_Report.xlsx" = Some (Workbook (report rows)) ∧
    second !! "All_Devices.xlsx" = Some (Workbook (rows ++ rows)) ∧
    second !! "Final_Report.xlsx" = Some (Workbook (report (rows ++ rows))).
Proof.
  intros rows report Hnames Hquiet Hnone Hrows Hfirst_report Hsecond_report.
  destruct (seq_loop_fresh lib source_data hostnames output_folder Hnames Hquiet Hnone)
    as (folder' & Hloop & Hall).
  fold rows in Hall. destruct rows as [|r rs] eqn:Heq; [done|].
  assert (Sequential.execute_main lib source_data (Some hostnames) output_folder
          = Run.Returned (<["Final_Report.xlsx" := Workbook (report (r :: rs))]> folder'))
    as Hfirst.
  { unfold Sequential.execute_main. rewrite Hloop. cbn [mbind Run.status_bind].
    rewrite Hall. cbv zeta. fold (report (r :: rs)). by rewrite Hfirst_report. }
  destruct (seq_execute_main_appends lib source_data hostnames
              (<["Final_Report.xlsx" := Workbook (report (r :: rs))]> folder')
              (r :: rs) Hnames Hquiet) as (second & Hsecond & Hdevices & Hreport).
  { by rewrite lookup_insert_ne. }
  { fold rows. rewrite Heq. exact Hsecond_report. }
  eexists _, second. split; [exact Hfirst|]. split; [exact Hsecond|].
  split; [by rewrite lookup_insert_eq|].
  fold rows in Hdevices, Hreport. rewrite Heq in Hdevices, Hreport. by split.
Qed.

Lemma sequential_rerun_doubles_report_witness :
  let lib := Inputs.nxos_library in
  let rows := concat (Sequential.records (Run.textfsm lib) Sample.empty_dir <$> ["sw1"]) in
  let report rows := Aggregator.backfill (Run.read_back lib rows) in
  (∀ hostname, hostname ∈ ["sw1"] → hostname ≠ "All_Devices") ∧
  (∀ hostname, hostname ∈ ["sw1"] →
     Sequential.quiet lib Sample.empty_dir hostname = true) ∧
  (∅ : gmap string file) !! "All_Devices.xlsx" = None ∧
  rows ≠ [] ∧
  Run.to_excel lib "Final_Report.xlsx" (report rows) = true ∧
  Run.to_excel lib "Final_Report.xlsx" (report (rows ++ rows)) = true ∧
  ∃ first second,
    Sequential.execute_main lib Sample.empty_dir (Some ["sw1"]) ∅ = Run.Returned first ∧
    Sequential.execute_main lib Sample.empty_dir (Some ["sw1"]) first
    = Run.Returned second ∧
    first !! "Final_Report.xlsx" = Some (Workbook (report rows)) ∧
    second !! "All_Devices.xlsx" = Some (Workbook (rows ++ rows)) ∧
    second !! "Final_Report.xlsx" = Some (Workbook (report (rows ++ rows))).
Proof.
  intros lib rows report.
  assert (∀ hostname, hostname ∈ ["sw1"] → hostname ≠ "All_Devices") as Hnames.
  { by intros hostname ->%list_elem_of_singleton. }
  assert (∀ hostname, hostname ∈ ["sw1"] →
            Sequential.quiet lib Sample.empty_dir hostname = true)
    as Hquiet.
  { intros hostname ->%list_elem_of_singleton. by vm_compute. }
  assert (rows ≠ []) as Hrows.
  { intros Hnil. apply (f_equal length) in Hnil. vm_compute in Hnil. discriminate Hnil. }
  split; [exact Hnames|]. split; [exact Hquiet|]. split; [apply lookup_empty|].
  split; [exact Hrows|]. split; [reflexivity|]. split; [reflexivity|].
  exact (sequential_rerun_doubles_report lib Sample.empty_dir ["sw1"] ∅
           Hnames Hquiet (lookup_empty _) Hrows eq_refl eq_refl).
Defined.
